(** * CmdBell: event correlation and notification dispatch

    A shallow embedding of the Go sources of CmdBell (the Docker exec
    monitor, the HTTP ingress, the notifier and the direct-execution
    wrapper) together with the properties of the specification that
    concern them.

    Conventions of the embedding

    - A Go [string] is a Rocq [string] (a sequence of bytes).
    - [time.Duration] is an [int64] count of nanoseconds, carried as a [Z]
      with the wrap-around of the source's arithmetic written out.
    - A [time.Time] is the number of nanoseconds since the zero [Time]
      (January 1, year 1, 00:00:00 UTC); the zero value is [0].
    - A Go [error] is [option string]: [None] is [nil].
    - A Go [map[string]T] is a [gmap string T].
    - What a function writes ([fmt.Printf], [log.Printf]) and what it asks
      of the operating system is recorded as a list of [Output] events, in
      program order.
    - What the outside world answers (the clock, [docker inspect], the
      desktop-notification backend, the child process) is read from an
      explicit [World] value handed to each call. *)

From Stdlib Require Import ZArith String Ascii List Bool Lia.
From stdpp Require Import gmap strings list fin_maps.

Import ListNotations.
Local Open Scope string_scope.
Local Open Scope list_scope.

(** ** Go's [time] package, as far as the sources use it *)

Module GoTime.

Local Open Scope Z_scope.

Definition Duration := Z.
Definition Time := Z.

Bind Scope Z_scope with Duration Time.

Definition Second : Duration := 1000000000.

Definition minDuration : Duration := - 2 ^ 63.
Definition maxDuration : Duration := 2 ^ 63 - 1.

(** Two's-complement wrap-around of [int64] arithmetic. *)
Definition wrap64 (z : Z) : Z := (z + 2 ^ 63) mod 2 ^ 64 - 2 ^ 63.

(** The reinterpretation [uint64(x)] of an [int64]. *)
Definition uint64 (z : Z) : Z := z mod 2 ^ 64.

(** The zero value of [time.Time]. *)
Definition zeroTime : Time := 0.

(** [t.Sub(u)]: the difference, saturated at the largest and smallest
    [Duration] when it does not fit. *)
Definition Sub (t u : Time) : Duration :=
  if t - u <? minDuration then minDuration
  else if maxDuration <? t - u then maxDuration
  else t - u.

(** [time.Since(t)] with the clock reading [now]. *)
Definition Since (now t : Time) : Duration := Sub now t.

(** [lessThanHalf(x, y)]: [uint64(x)+uint64(x) < uint64(y)]. *)
Definition lessThanHalf (x y : Duration) : bool :=
  uint64 (uint64 x + uint64 x) <? uint64 y.

(** [d.Round(m)]: round half away from zero to a multiple of [m]; the
    remainder [%] of Go truncates towards zero ([Z.rem]). *)
Definition Round (d m : Duration) : Duration :=
  if m <=? 0 then d
  else
    let r := Z.rem d m in
    if d <? 0 then
      let r := wrap64 (- r) in
      if lessThanHalf r m then wrap64 (d + r)
      else
        let d1 := wrap64 (wrap64 (d - m) + r) in
        if d1 <? d then d1 else minDuration
    else
      if lessThanHalf r m then wrap64 (d - r)
      else
        let d1 := wrap64 (wrap64 (d + m) - r) in
        if d <? d1 then d1 else maxDuration.

End GoTime.

Export GoTime.

(** ** Go's [strings] package and slicing, as far as the sources use them *)

Module GoStrings.

(** [strings.HasPrefix(s, prefix)]. *)
Definition HasPrefix (s prefix : string) : bool := String.prefix prefix s.

(** [strings.Index(s, substr)], [None] standing for [-1]. *)
Definition Index (s substr : string) : option nat := String.index 0 substr s.

(** [s[n:]] for [n <= len(s)]. *)
Fixpoint sliceFrom (n : nat) (s : string) : string :=
  match n, s with
  | O, _ => s
  | S n', String _ s' => sliceFrom n' s'
  | S _, EmptyString => EmptyString
  end.

(** [s[:n]]; slicing beyond the length panics in Go, which is [None]. *)
Definition sliceTo (n : nat) (s : string) : option string :=
  if (n <=? String.length s)%nat then Some (String.substring 0 n s) else None.

(** The white space of [strings.TrimSpace] within ASCII: tab, line feed,
    vertical tab, form feed, carriage return and space.  Container names
    are ASCII, so the Unicode spaces of Go's function play no part. *)
Definition isSpace (c : ascii) : bool :=
  let n := nat_of_ascii c in
  ((9 <=? n) && (n <=? 13) || (n =? 32))%nat.

Fixpoint trimLeft (s : string) : string :=
  match s with
  | String c s' => if isSpace c then trimLeft s' else s
  | EmptyString => EmptyString
  end.

Fixpoint rev_string (acc s : string) : string :=
  match s with
  | String c s' => rev_string (String c acc) s'
  | EmptyString => acc
  end.

Definition trimRight (s : string) : string :=
  rev_string EmptyString (trimLeft (rev_string EmptyString s)).

Definition TrimSpace (s : string) : string := trimRight (trimLeft s).

(** [strings.TrimPrefix(s, prefix)]. *)
Definition TrimPrefix (s prefix : string) : string :=
  if HasPrefix s prefix then sliceFrom (String.length prefix) s else s.

End GoStrings.

Export GoStrings.

(** ** config.go *)

Record General := {
  MinDuration : string;
  MinDurationTime : Duration;
  EnableNotify : bool
}.

Record DockerConfig := { Monitor : bool; Filters : list string }.

Record HTTPConfig := { Port : Z; Enabled : bool }.

Record NotificationConfig := { Method_ : string; Sound : bool; Position : string }.

Record Config := {
  general : General;
  docker : DockerConfig;
  http : HTTPConfig;
  notification : NotificationConfig
}.

Definition getDefaultConfig : Config :=
  {| general := {| MinDuration := "15s";
                   MinDurationTime := (15 * Second)%Z;
                   EnableNotify := true |};
     docker := {| Monitor := true; Filters := [] |};
     http := {| Port := 59721%Z; Enabled := true |};
     notification := {| Method_ := "auto"; Sound := true; Position := "top-right" |} |}.

(** main.go: [const MIN_DURATION = 15 * time.Second]. *)
Definition MIN_DURATION : Duration := (15 * Second)%Z.

(** ** Observable effects *)

(** The arguments of the notifier's
    [fmt.Sprintf("Command '%s' in '%s' %s after %s", ...)] (and of the
    variant without a container); [after] is the duration already rounded
    to the second. *)
Record Message := {
  command : string;
  container : option string;
  status : string;
  after : Duration
}.

Inductive Output :=
  (** [fmt.Printf("\n🔔 %s: %s\n", title, message)] *)
  | OutBell (title : string) (message : Message)
  (** the call [sendNativeNotification(title, message, icon)] *)
  | OutNative (title : string) (message : Message) (icon : string)
  (** [fmt.Printf("Failed to send native notification: %v\n", err)] *)
  | OutNativeFailed (err : string)
  (** [fmt.Printf("📋 Exec created in container %s (ID: %s)\n", ...)] *)
  | OutExecCreated (containerName shortID : string)
  (** [fmt.Printf("▶️  Command started in container %s\n", ...)] *)
  | OutCommandStarted (containerName : string)
  (** [fmt.Printf("🏁 Command completed in container %s (duration: %s, exit: %s)\n", ...)] *)
  | OutCommandCompleted (containerName : string) (rounded : Duration) (exitCode : string)
  (** [fmt.Printf("Executing: %s %s\n", command, strings.Join(args, " "))] *)
  | OutExecuting (cmd : string) (args : list string)
  (** [log.Printf("Failed to parse Docker event: %v", err)] *)
  | LogParseFailed (err : string)
  (** [log.Printf("Failed to get container name for %s: %v", containerID, err)] *)
  | LogNameLookupFailed (containerID err : string)
  (** [log.Printf("Invalid JSON payload: %v", err)] *)
  | LogInvalidJSON (err : string)
  (** [log.Printf("Invalid duration format: %v", err)] *)
  | LogInvalidDuration (err : string)
  (** [log.Printf("📨 Received notification: command='%s', container='%s', duration=%s, success=%t", ...)] *)
  | LogReceived (cmd containerName : string) (d : Duration) (success : bool).

(** The answers of the outside world during one call. *)
Record World := {
  (** the reading of [time.Now()] *)
  now : Time;
  (** [exec.Command("docker", "inspect", "--format", "{{.Name}}", id).Output()]:
      the bytes printed, or the error *)
  inspectName : string -> string + string;
  (** [runtime.GOOS] *)
  GOOS : string;
  (** [os.Getenv(name)] *)
  getenv : string -> string;
  (** [exec.LookPath(tool)] finds the tool *)
  lookPath : string -> bool;
  (** the error of [cmd.Run()] for the alert command of [tool]
      ([osascript], [notify-send], [kdialog], [zenity] or [powershell])
      showing this title and message *)
  runAlert : string -> string -> Message -> option string
}.

(** A native alert was attempted. *)
Definition isNative (o : Output) : bool :=
  match o with OutNative _ _ _ => true | _ => false end.

(** A console notification line was written. *)
Definition isBell (o : Output) : bool :=
  match o with OutBell _ _ => true | _ => false end.

(** The number of notifications dispatched in a trace: one per call of the
    native backend. *)
Definition dispatches (out : list Output) : nat :=
  length (filter (fun o => isNative o = true) out).

(** The result of a call that may panic.  A panic in the event-reading
    goroutine is not recovered anywhere: it ends the process. *)
Inductive Outcome (A : Type) :=
  | Returned (a : A)
  | Panicked (reason : string).

Arguments Returned {A} a.
Arguments Panicked {A} reason.

(** ** notifier.go *)

Module Notifier.

Definition sendMacOSNotification (w : World)
    (title : string) (message : Message) (icon : string) : option string :=
  runAlert w "osascript" title message.

Definition sendLinuxNotification (w : World)
    (title : string) (message : Message) (icon : string) : option string :=
  if String.eqb (getenv w "DISPLAY") "" && String.eqb (getenv w "WAYLAND_DISPLAY") ""
  then Some "no GUI environment detected (headless mode)"
  else if lookPath w "notify-send" &&
          match runAlert w "notify-send" title message with
          | None => true | Some _ => false end
  then None
  else if lookPath w "kdialog" &&
          match runAlert w "kdialog" title message with
          | None => true | Some _ => false end
  then None
  else if lookPath w "zenity" &&
          match runAlert w "zenity" title message with
          | None => true | Some _ => false end
  then None
  else Some "no working notification tool found or GUI not available".

Definition sendWindowsNotification (w : World)
    (title : string) (message : Message) (icon : string) : option string :=
  runAlert w "powershell" title message.

Definition sendNativeNotification (w : World)
    (title : string) (message : Message) (icon : string) : option string :=
  if String.eqb (GOOS w) "darwin" then sendMacOSNotification w title message icon
  else if String.eqb (GOOS w) "linux" then sendLinuxNotification w title message icon
  else if String.eqb (GOOS w) "windows" then sendWindowsNotification w title message icon
  else Some ("unsupported operating system: " ++ GOOS w)%string.

Definition sendNotification (w : World)
    (cmd : string) (duration : Duration) (success : bool) : list Output :=
  let status := if success then "completed" else "failed" in
  let icon := if success then "✅" else "❌" in
  let title := "CmdBell" in
  let message :=
    {| command := cmd; container := None; status := status;
       after := Round duration Second |} in
  OutBell title message ::
  OutNative title message icon ::
  match sendNativeNotification w title message icon with
  | Some err => [OutNativeFailed err]
  | None => []
  end.

Definition sendContainerNotification (w : World)
    (cmd containerName : string) (duration : Duration) (success : bool)
    : list Output :=
  let status := if success then "completed" else "failed" in
  let icon := if success then "✅" else "❌" in
  let title := "CmdBell - Container" in
  let message :=
    {| command := cmd; container := Some containerName; status := status;
       after := Round duration Second |} in
  OutBell title message ::
  OutNative title message icon ::
  match sendNativeNotification w title message icon with
  | Some err => [OutNativeFailed err]
  | None => []
  end.

End Notifier.

(** ** docker.go

    [execMap] holds pointers to [ContainerExecInfo]; each pointer is made
    by [handleExecCreate] and kept nowhere but in the map, so writing
    through it in [handleExecStart] is an update of the map's value.

    [globalConfig], a [*Config] that [handleExecDie] reads, is declared
    outside the files at hand; the handlers take it as an argument. *)

Module Docker.

Record DockerEventActor := {
  ActorID : string;
  Attributes : gmap string string
}.

Record DockerEvent := {
  Type_ : string;
  Action : string;
  ID : string;
  Actor : DockerEventActor;
  Time_ : Z
}.

Record ContainerExecInfo := {
  ContainerID : string;
  ContainerName : string;
  Command : string;
  StartTime : Time
}.

(** [event.Actor.Attributes[key]]: a missing key reads as the empty string. *)
Definition attribute (event : DockerEvent) (key : string) : string :=
  default "" (Attributes (Actor event) !! key).

(** The record is stored before [execID[:12]] is evaluated for the console
    line, and that slice panics on an identifier of fewer than twelve
    bytes. *)
Definition handleExecCreate (w : World) (event : DockerEvent)
    (execMap : gmap string ContainerExecInfo)
    : Outcome (gmap string ContainerExecInfo) * list Output :=
  let execID := attribute event "execID" in
  let containerID := ID event in
  match inspectName w containerID with
  | inr err => (Returned execMap, [LogNameLookupFailed containerID err])
  | inl output =>
      let containerName := TrimPrefix (TrimSpace output) "/" in
      let cmd :=
        match Index (Action event) ": " with
        | Some colonIndex => sliceFrom (colonIndex + 2) (Action event)
        | None => "unknown"
        end in
      let execMap' :=
        <[execID := {| ContainerID := containerID;
                       ContainerName := containerName;
                       Command := cmd;
                       StartTime := zeroTime |}]> execMap in
      match sliceTo 12 execID with
      | Some shortID => (Returned execMap', [OutExecCreated containerName shortID])
      | None => (Panicked "slice bounds out of range", [])
      end
  end.

Definition handleExecStart (w : World) (event : DockerEvent)
    (execMap : gmap string ContainerExecInfo)
    : gmap string ContainerExecInfo * list Output :=
  let execID := attribute event "execID" in
  match execMap !! execID with
  | Some info =>
      (<[execID := {| ContainerID := ContainerID info;
                      ContainerName := ContainerName info;
                      Command := Command info;
                      StartTime := now w |}]> execMap,
       [OutCommandStarted (ContainerName info)])
  | None => (execMap, [])
  end.

(** The test guarding [dm.sendContainerNotification] in [handleExecDie];
    [globalConfig] is a nil-able pointer. *)
Definition gate (globalConfig : option Config) (duration : Duration) : bool :=
  match globalConfig with
  | Some c =>
      (MinDurationTime (general c) <=? duration)%Z && EnableNotify (general c)
  | None => false
  end.

Definition handleExecDie (globalConfig : option Config) (w : World)
    (event : DockerEvent) (execMap : gmap string ContainerExecInfo)
    : gmap string ContainerExecInfo * list Output :=
  let execID := attribute event "execID" in
  match execMap !! execID with
  | Some info =>
      let duration := Since (now w) (StartTime info) in
      let exitCode := attribute event "exitCode" in
      let success := String.eqb exitCode "0" in
      let notified :=
        if gate globalConfig duration
        then Notifier.sendContainerNotification w
               (Command info) (ContainerName info) duration success
        else [] in
      (delete execID execMap,
       (notified ++
        [OutCommandCompleted (ContainerName info) (Round duration Second) exitCode])%list)
  | None => (execMap, [])
  end.

Definition handleEvent (globalConfig : option Config) (w : World)
    (event : DockerEvent) (execMap : gmap string ContainerExecInfo)
    : Outcome (gmap string ContainerExecInfo) * list Output :=
  if HasPrefix (Action event) "exec_create:" then
    handleExecCreate w event execMap
  else if HasPrefix (Action event) "exec_start:" then
    let '(m, out) := handleExecStart w event execMap in (Returned m, out)
  else if String.eqb (Action event) "exec_die" then
    let '(m, out) := handleExecDie globalConfig w event execMap in (Returned m, out)
  else (Returned execMap, []).

(** One line of the [docker events] stream after [json.Unmarshal]. *)
Inductive Line :=
  | Unparsed (err : string)
  | Parsed (event : DockerEvent).

(** The body of the scanner loop of [Start] for one line. *)
Definition handleLine (globalConfig : option Config) (w : World)
    (line : Line) (execMap : gmap string ContainerExecInfo)
    : Outcome (gmap string ContainerExecInfo) * list Output :=
  match line with
  | Unparsed err => (Returned execMap, [LogParseFailed err])
  | Parsed event => handleEvent globalConfig w event execMap
  end.

(** The scanner loop of [Start]: the lines are handled in order, each in
    the world it arrives in.  The journal pairs every handled line with
    what its handling wrote; a panic ends the loop. *)
Fixpoint eventLoop (globalConfig : option Config)
    (lines : list (World * Line)) (execMap : gmap string ContainerExecInfo)
    : Outcome (gmap string ContainerExecInfo) * list (Line * list Output) :=
  match lines with
  | [] => (Returned execMap, [])
  | (w, line) :: rest =>
      match handleLine globalConfig w line execMap with
      | (Returned m, out) =>
          let '(r, journal) := eventLoop globalConfig rest m in
          (r, (line, out) :: journal)
      | (Panicked reason, out) => (Panicked reason, [(line, out)])
      end
  end.

(** The execution identifier a line is about. *)
Definition lineExecID (line : Line) : option string :=
  match line with
  | Parsed event => Some (attribute event "execID")
  | Unparsed _ => None
  end.

(** Notifications dispatched while handling the lines of execution [id]. *)
Fixpoint dispatchesFor (id : string) (journal : list (Line * list Output)) : nat :=
  match journal with
  | [] => 0
  | (line, out) :: rest =>
      (if bool_decide (lineExecID line = Some id) then dispatches out else 0)
      + dispatchesFor id rest
  end.

(** The three kinds of fact, told apart as [handleEvent] does. *)
Inductive Fact := FCreate | FStart | FDie.

Definition factOf (line : Line) : option Fact :=
  match line with
  | Unparsed _ => None
  | Parsed event =>
      if HasPrefix (Action event) "exec_create:" then Some FCreate
      else if HasPrefix (Action event) "exec_start:" then Some FStart
      else if String.eqb (Action event) "exec_die" then Some FDie
      else None
  end.

(** The facts about execution [id], in the order of the stream. *)
Fixpoint factsFor (id : string) (lines : list Line) : list Fact :=
  match lines with
  | [] => []
  | line :: rest =>
      match factOf line with
      | Some f =>
          if bool_decide (lineExecID line = Some id)
          then f :: factsFor id rest else factsFor id rest
      | None => factsFor id rest
      end
  end.

Global Instance Fact_eq_dec : EqDecision Fact.
Proof. solve_decision. Defined.

(** A stream made of create/start/die triples of distinct executions,
    interleaved in any way: every execution that occurs contributes one
    create, then one start, then one die. *)
Definition tripleStream (lines : list Line) : bool :=
  forallb
    (fun line =>
       match factOf line, lineExecID line with
       | Some _, Some id =>
           bool_decide (factsFor id lines = [FCreate; FStart; FDie])
       | _, _ => true
       end)
    lines.

(** Whether execution [id] may still have a record after the facts [fs]
    about it, [b] telling whether it had one before them. *)
Fixpoint mayHold (b : bool) (fs : list Fact) : bool :=
  match fs with
  | [] => b
  | FCreate :: rest => mayHold true rest
  | FStart :: rest => mayHold b rest
  | FDie :: rest => mayHold false rest
  end.

(** The number of die facts among [fs]. *)
Fixpoint dieCount (fs : list Fact) : nat :=
  match fs with
  | [] => 0
  | FDie :: rest => S (dieCount rest)
  | _ :: rest => dieCount rest
  end.

(** Docker's execution identifiers are 64 hexadecimal digits; all that
    matters to [handleExecCreate] is that there are at least twelve. *)
Definition longExecIDs (lines : list Line) : bool :=
  forallb
    (fun line =>
       match lineExecID line with
       | Some id => (12 <=? String.length id)%nat
       | None => true
       end)
    lines.

End Docker.

(** ** http_server.go *)

Module HTTP.

Record NotificationRequest := {
  Command : string;
  ContainerName : string;
  Duration_ : string;
  Success : bool;
  StartTime : string
}.

(** The JSON object of a request body, key by key: [None] is a key that
    the object does not have (or has with the value [null]). *)
Record Payload := {
  json_command : option string;
  json_container_name : option string;
  json_duration : option string;
  json_success : option bool;
  json_start_time : option string
}.

(** A request body: a JSON object with well-typed values for the keys of
    [NotificationRequest], or bytes that [Decode] rejects. *)
Inductive Body :=
  | Rejected (err : string)
  | Object (payload : Payload).

(** [json.NewDecoder(r.Body).Decode(&req)] on [var req NotificationRequest]:
    a key of the object overwrites its field, every other field keeps
    the zero value of its type. *)
Definition Decode (body : Body) : NotificationRequest + string :=
  match body with
  | Rejected err => inr err
  | Object p =>
      inl {| Command := default "" (json_command p);
             ContainerName := default "" (json_container_name p);
             Duration_ := default "" (json_duration p);
             Success := default false (json_success p);
             StartTime := default "" (json_start_time p) |}
  end.

Record Request := {
  Method : string;
  RequestBody : Body
}.

Inductive Content :=
  (** [http.Error(w, text, code)] *)
  | Plain (text : string)
  (** [json.NewEncoder(w).Encode(map[string]interface{}{...})] *)
  | JSON (fields : list (string * string)).

Record Response := {
  StatusCode : Z;
  ResponseBody : Content
}.

Definition StatusOK : Z := 200.
Definition StatusBadRequest : Z := 400.
Definition StatusMethodNotAllowed : Z := 405.

Section Handler.

(** [time.ParseDuration]: the duration, or the error. *)
Variable ParseDuration : string -> Duration + string.

Definition handleNotification (w : World) (r : Request)
    : Response * list Output :=
  if negb (String.eqb (Method r) "POST") then
    ({| StatusCode := StatusMethodNotAllowed;
        ResponseBody := Plain "Method not allowed" |}, [])
  else
    match Decode (RequestBody r) with
    | inr err =>
        ({| StatusCode := StatusBadRequest;
            ResponseBody := Plain "Invalid JSON payload" |},
         [LogInvalidJSON err])
    | inl req =>
        if String.eqb (Command req) "" then
          ({| StatusCode := StatusBadRequest;
              ResponseBody := Plain "Missing required field: command" |}, [])
        else if String.eqb (Duration_ req) "" then
          ({| StatusCode := StatusBadRequest;
              ResponseBody := Plain "Missing required field: duration" |}, [])
        else
          match ParseDuration (Duration_ req) with
          | inr err =>
              ({| StatusCode := StatusBadRequest;
                  ResponseBody := Plain "Invalid duration format" |},
               [LogInvalidDuration err])
          | inl duration =>
              let containerName :=
                if String.eqb (ContainerName req) ""
                then "unknown_container" else ContainerName req in
              ({| StatusCode := StatusOK;
                  ResponseBody :=
                    JSON [("status", "success");
                          ("message", "Notification sent")] |},
               LogReceived (Command req) containerName duration (Success req)
               :: Notifier.sendContainerNotification w
                    (Command req) containerName duration (Success req))
          end
    end.

(** A request that carries what the handler requires. *)
Definition wellFormed (r : Request) : bool :=
  String.eqb (Method r) "POST" &&
  match RequestBody r with
  | Rejected _ => false
  | Object p =>
      match json_command p, json_duration p with
      | Some c, Some d =>
          negb (String.eqb c "") && negb (String.eqb d "") &&
          match ParseDuration d with inl _ => true | inr _ => false end
      | _, _ => false
      end
  end.

End Handler.

(** [time.ParseDuration] on the strings made of decimal digits followed
    by [s]: whole seconds.  On every other string this function answers
    with an error, which Go's does not always do; it only serves to run
    the handler on the concrete requests of the examples. *)
Fixpoint wholeSeconds (acc : Z) (seen : bool) (s : string) : Duration + string :=
  match s with
  | String c rest =>
      let n := nat_of_ascii c in
      if ((48 <=? n) && (n <=? 57))%nat then
        wholeSeconds (acc * 10 + Z.of_nat (n - 48)) true rest
      else if seen && Ascii.eqb c "s" && String.eqb rest "" then
        if (acc * Second <=? maxDuration)%Z then inl (acc * Second)%Z
        else inr "time: invalid duration"
      else inr "time: invalid duration"
  | EmptyString => inr "time: invalid duration"
  end.

Definition parseWholeSeconds (s : string) : Duration + string :=
  wholeSeconds 0 false s.

End HTTP.

(** ** main.go *)

Module Main.

(** The error of [cmd.Run()]: the child ran and exited with a status
    other than zero, or it could not be run at all. *)
Inductive RunError :=
  | ExitError (code : Z)
  | StartError (msg : string).

(** How the wrapper process ends. *)
Inductive ProcessEnd :=
  | MainReturns
  | OsExit (code : Z)
  | Panics.

(** The exit status the parent of the wrapper observes; a Go program
    that panics exits with status 2. *)
Definition exitStatus (e : ProcessEnd) : Z :=
  match e with
  | MainReturns => 0
  | OsExit code => code
  | Panics => 2
  end.

(** [executeCommand]: [args] is [os.Args], [start] the world when the
    child is spawned, [run] the result of [cmd.Run()], [finish] the world
    when it has returned.  The outputs are those written before the
    process ends the way the second component says. *)
Definition executeCommand (args : list string) (start : World)
    (run : option RunError) (finish : World) : list Output * ProcessEnd :=
  match args with
  | _ :: cmd :: rest =>
      let startTime := now start in
      let err := run in
      let duration := Since (now finish) startTime in
      let notified :=
        if (MIN_DURATION <=? duration)%Z
        then Notifier.sendNotification finish cmd duration
               (match err with None => true | Some _ => false end)
        else [] in
      (OutExecuting cmd rest :: notified,
       match err with
       | Some _ => OsExit 1
       | None => MainReturns
       end)
  | _ => ([], Panics)
  end.

End Main.

(** ** The policy gate of the specification *)

(** Written after the specification's words ("[ShouldNotify(duration,
    config)], equivalent to [duration >= config.minimumDuration AND
    config.notificationsEnabled]"); the sources have no function of this
    name, each path carries its own test. *)
Definition ShouldNotify (duration : Duration) (c : Config) : bool :=
  (MinDurationTime (general c) <=? duration)%Z && EnableNotify (general c).

(** ** Concrete worlds, events and requests *)

Module Sample.

Import Docker.

(** A Linux desktop with [notify-send], a clock reading [t], and a
    container [c1] named [devbox]. *)
Definition world (t : Time) : World :=
  {| now := t;
     inspectName := fun id =>
       if String.eqb id "c1" then inl "/devbox " else inr "exit status 1";
     GOOS := "linux";
     getenv := fun name => if String.eqb name "DISPLAY" then ":0" else "";
     lookPath := fun tool => String.eqb tool "notify-send";
     runAlert := fun _ _ _ => None |}.

(** The same world on a machine without a display. *)
Definition headless (t : Time) : World :=
  {| now := t;
     inspectName := inspectName (world t);
     GOOS := "linux";
     getenv := fun _ => "";
     lookPath := fun tool => String.eqb tool "notify-send";
     runAlert := fun _ _ _ => Some "exit status 1" |}.

Definition t0 : Time := 63900000000000000000%Z.

(** The clock so many seconds after [t0]. *)
Definition later (seconds : Z) : Time := (t0 + seconds * Second)%Z.

Definition execEvent (action containerID execID exitCode : string) : DockerEvent :=
  {| Type_ := "container";
     Action := action;
     ID := containerID;
     Actor := {| ActorID := containerID;
                 Attributes := <["exitCode" := exitCode]> {["execID" := execID]} |};
     Time_ := 0 |}.

Definition e1 : string := "0123456789abcdef".
Definition e2 : string := "fedcba9876543210".

(** The record of [sleep 17] in [devbox] with the given start time. *)
Definition record (started : Time) : ContainerExecInfo :=
  {| ContainerID := "c1"; ContainerName := "devbox";
     Command := "sleep 17"; StartTime := started |}.

Definition create (containerID execID : string) : Line :=
  Parsed (execEvent "exec_create: sleep 17" containerID execID "").
Definition start (containerID execID : string) : Line :=
  Parsed (execEvent "exec_start: sleep 17" containerID execID "").
Definition die (containerID execID exitCode : string) : Line :=
  Parsed (execEvent "exec_die" containerID execID exitCode).

(** Two executions in [devbox] whose triples overlap: the second is
    created and ends while the first is running. *)
Definition interleaved : list (World * Line) :=
  [(world t0, create "c1" e1);
   (world (later 1), start "c1" e1);
   (world (later 2), create "c1" e2);
   (world (later 3), start "c1" e2);
   (world (later 8), die "c1" e2 "1");
   (world (later 21), die "c1" e1 "0")].

Definition post (p : HTTP.Payload) : HTTP.Request :=
  {| HTTP.Method := "POST"; HTTP.RequestBody := HTTP.Object p |}.

Definition payload (cmd dur : option string) (ok : option bool) : HTTP.Payload :=
  {| HTTP.json_command := cmd;
     HTTP.json_container_name := Some "devbox";
     HTTP.json_duration := dur;
     HTTP.json_success := ok;
     HTTP.json_start_time := None |}.

Definition silenced : Config :=
  {| general := {| MinDuration := "15s";
                   MinDurationTime := (15 * Second)%Z;
                   EnableNotify := false |};
     docker := docker getDefaultConfig;
     http := http getDefaultConfig;
     notification := notification getDefaultConfig |}.

End Sample.

(** ** Further code of the repository *)

(** Counting the create facts of an execution. *)
Module Correlation.

Import Docker.

(** The number of create facts among [fs]. *)
Fixpoint createCount (fs : list Fact) : nat :=
  match fs with
  | [] => 0
  | FCreate :: rest => S (createCount rest)
  | _ :: rest => createCount rest
  end.

(** The command label [handleExecCreate] takes from the action of a create
    fact: the text after the first colon-and-space, or [unknown]. *)
Definition commandLabel (action : string) : string :=
  match Index action ": " with
  | Some colonIndex => sliceFrom (colonIndex + 2) action
  | None => "unknown"
  end.

(** Whether the working set an outcome carries has a record of [id]; a
    process that panicked has no working set any more. *)
Definition holdsRecord (r : Outcome (gmap string ContainerExecInfo)) (id : string) : nat :=
  match r with
  | Returned m => if bool_decide (is_Some (m !! id)) then 1 else 0
  | Panicked _ => 0
  end.

End Correlation.

(** ** notifier.go: the escaping of alert texts *)

Module Escapes.

Definition backslash : ascii := ascii_of_nat 92.
Definition quote : ascii := ascii_of_nat 34.

(** [strings.ReplaceAll(s, old, new)] where [old] is the one-byte string
    made of [old]; the sources call it with no other kind of [old]. *)
Fixpoint ReplaceAll (s : string) (old : ascii) (new : string) : string :=
  match s with
  | EmptyString => EmptyString
  | String c rest =>
      if Ascii.eqb c old then (new ++ ReplaceAll rest old new)%string
      else String c (ReplaceAll rest old new)
  end.

Definition escapeAppleScript (s : string) : string :=
  let s := ReplaceAll s backslash (String backslash (String backslash EmptyString)) in
  let s := ReplaceAll s quote (String backslash (String quote EmptyString)) in
  s.

Definition escapeWindowsString (s : string) : string :=
  let s := ReplaceAll s quote (String backslash (String quote EmptyString)) in
  s.

(** How the inside of a double-quoted AppleScript literal made of plain
    bytes and of the two escapes that [escapeAppleScript] writes is read:
    a backslash before a backslash or a quote gives that byte, a quote
    that no backslash precedes ends the literal.  [None] when the text
    holds such a quote or a backslash before anything else, otherwise the
    string the literal denotes. *)
Fixpoint readLiteral (s : string) : option string :=
  match s with
  | EmptyString => Some EmptyString
  | String c rest =>
      if Ascii.eqb c quote then None
      else if Ascii.eqb c backslash then
        match rest with
        | EmptyString => None
        | String c' rest' =>
            if Ascii.eqb c' backslash || Ascii.eqb c' quote
            then option_map (String c') (readLiteral rest')
            else None
        end
      else option_map (String c) (readLiteral rest)
  end.

(** The string has no backslash. *)
Fixpoint noBackslash (s : string) : bool :=
  match s with
  | EmptyString => true
  | String c rest => negb (Ascii.eqb c backslash) && noBackslash rest
  end.

End Escapes.

(** ** notifier.go: the alert commands the native backend runs *)

Module Alerts.

(** One [cmd.Run()] of the alert command of [tool] ([osascript],
    [notify-send], [kdialog], [zenity] or [powershell]) showing this title
    and message. *)
Inductive AlertRun :=
  | Ran (tool title : string) (message : Message).

(** The functions of the native backend once more, each with its error
    and with the alert commands it has run, in order. *)
Definition sendMacOSNotification (w : World)
    (title : string) (message : Message) (icon : string)
    : option string * list AlertRun :=
  (runAlert w "osascript" title message, [Ran "osascript" title message]).

(** One attempt of [sendLinuxNotification],
    [if _, err := exec.LookPath(tool); err == nil {
       if err := cmd.Run(); err == nil { return nil } }],
    followed by the rest of the function. *)
Definition tryTool (w : World) (tool title : string) (message : Message)
    (rest : option string * list AlertRun) : option string * list AlertRun :=
  if lookPath w tool then
    match runAlert w tool title message with
    | None => (None, [Ran tool title message])
    | Some _ => (fst rest, Ran tool title message :: snd rest)
    end
  else rest.

Definition sendLinuxNotification (w : World)
    (title : string) (message : Message) (icon : string)
    : option string * list AlertRun :=
  if String.eqb (getenv w "DISPLAY") "" && String.eqb (getenv w "WAYLAND_DISPLAY") ""
  then (Some "no GUI environment detected (headless mode)", [])
  else
    tryTool w "notify-send" title message
      (tryTool w "kdialog" title message
         (tryTool w "zenity" title message
            (Some "no working notification tool found or GUI not available", []))).

Definition sendWindowsNotification (w : World)
    (title : string) (message : Message) (icon : string)
    : option string * list AlertRun :=
  (runAlert w "powershell" title message, [Ran "powershell" title message]).

Definition sendNativeNotification (w : World)
    (title : string) (message : Message) (icon : string)
    : option string * list AlertRun :=
  if String.eqb (GOOS w) "darwin" then sendMacOSNotification w title message icon
  else if String.eqb (GOOS w) "linux" then sendLinuxNotification w title message icon
  else if String.eqb (GOOS w) "windows" then sendWindowsNotification w title message icon
  else (Some ("unsupported operating system: " ++ GOOS w)%string, []).

(** The alert commands run while a trace was written in the world [w]:
    those of each call of [sendNativeNotification], in order. *)
Fixpoint alertRuns (w : World) (out : list Output) : list AlertRun :=
  match out with
  | [] => []
  | OutNative title message icon :: rest =>
      snd (sendNativeNotification w title message icon) ++ alertRuns w rest
  | _ :: rest => alertRuns w rest
  end.

End Alerts.

(** ** main.go: the [--notify] subcommand *)

Module Cli.

Inductive CliOutput :=
  (** what the notifier wrote *)
  | Wrote (o : Output)
  (** [fmt.Println("Usage: cmdbell --notify <command> <duration_seconds> <exit_code>")] *)
  | NotifyUsage
  (** [fmt.Printf("Invalid duration: %v\n", err)] *)
  | InvalidDuration (err : string).

(** [handleNotifyCommand]: [args] is [os.Args]. *)
Definition handleNotifyCommand (ParseDuration : string -> Duration + string)
    (args : list string) (w : World) : list CliOutput * Main.ProcessEnd :=
  match args with
  | _ :: _ :: cmd :: durationStr :: exitCodeStr :: _ =>
      match ParseDuration (durationStr ++ "s")%string with
      | inr err => ([InvalidDuration err], Main.OsExit 1)
      | inl duration =>
          let success := String.eqb exitCodeStr "0" in
          (map Wrote (Notifier.sendNotification w cmd duration success),
           Main.MainReturns)
      end
  | _ => ([NotifyUsage], Main.OsExit 1)
  end.

(** The notifications among what the subcommand wrote. *)
Definition written (out : list CliOutput) : list Output :=
  flat_map (fun o => match o with Wrote x => [x] | _ => [] end) out.

End Cli.

(** ** The files of the host *)

Module Os.

(** The files by path, the paths the process may neither read nor write,
    and the paths whose directory does not let the process remove them. *)
Record Disk := {
  files : gmap string string;
  denied : string -> bool;
  locked : string -> bool
}.

Inductive ReadResult :=
  | Content (data : string)
  (** an error for which [os.IsNotExist] holds *)
  | NotExist
  | ReadError (err : string).

(** [os.ReadFile(path)]. *)
Definition ReadFile (d : Disk) (path : string) : ReadResult :=
  if denied d path then ReadError "permission denied"
  else match files d !! path with
       | Some data => Content data
       | None => NotExist
       end.

(** [os.WriteFile(path, data, 0644)]. *)
Definition WriteFile (d : Disk) (path data : string) : Disk * option string :=
  if denied d path then (d, Some "permission denied")
  else ({| files := <[path := data]> (files d);
           denied := denied d; locked := locked d |}, None).

(** [os.Remove(path)]; the boolean tells whether [os.IsNotExist] holds of
    the error.  Whether a file can be removed is a matter of its
    directory, not of the file's own permissions. *)
Definition Remove (d : Disk) (path : string) : Disk * option (string * bool) :=
  match files d !! path with
  | None => (d, Some ("no such file or directory", true))
  | Some _ =>
      if locked d path then (d, Some ("permission denied", false))
      else ({| files := delete path (files d);
               denied := denied d; locked := locked d |}, None)
  end.

End Os.

(** ** shell_integration.go: the hook section of a shell profile *)

Module Shell.

Import Os.

Definition newline : string := String (ascii_of_nat 10) EmptyString.

(** Membership of a byte in a cutset. *)
Fixpoint inCutset (c : ascii) (cutset : string) : bool :=
  match cutset with
  | EmptyString => false
  | String x rest => Ascii.eqb c x || inCutset c rest
  end.

(** [strings.TrimLeft(s, cutset)] for a cutset of ASCII bytes. *)
Fixpoint TrimLeft (s cutset : string) : string :=
  match s with
  | EmptyString => EmptyString
  | String c rest => if inCutset c cutset then TrimLeft rest cutset else s
  end.

(** [strings.TrimRight(s, cutset)] for a cutset of ASCII bytes: the bytes
    of the cutset at the end of [s] are dropped. *)
Fixpoint TrimRight (s cutset : string) : string :=
  match s with
  | EmptyString => EmptyString
  | String c rest =>
      match TrimRight rest cutset with
      | EmptyString => if inCutset c cutset then EmptyString else String c EmptyString
      | kept => String c kept
      end
  end.

Definition startMarker : string := "# CmdBell shell integration - START".
Definition endMarker : string := "# CmdBell shell integration - END".

Definition removeExistingHook (content startMarker endMarker : string) : string :=
  match Index content startMarker with
  | None => content
  | Some startIdx =>
      match Index (sliceFrom startIdx content) endMarker with
      | None => content
      | Some endIdx =>
          let endIdx := endIdx + startIdx + String.length endMarker in
          let before := TrimRight (String.substring 0 startIdx content) newline in
          let after := TrimLeft (sliceFrom endIdx content) newline in
          if String.eqb before "" then after
          else if String.eqb after "" then before
          else (before ++ newline ++ after)%string
      end
  end.

Definition addToShellConfig (d : Disk) (configPath hookContent : string)
    : Disk * option string :=
  let existingContent :=
    match ReadFile d configPath with
    | Content data => data
    | _ => ""
    end in
  let cleanContent := removeExistingHook existingContent startMarker endMarker in
  let newContent := (cleanContent ++ newline ++ hookContent ++ newline)%string in
  WriteFile d configPath newContent.

Definition removeFromShellConfig (d : Disk) (configPath : string)
    : Disk * option string :=
  match ReadFile d configPath with
  | NotExist => (d, None)
  | ReadError err => (d, Some ("failed to read config file: " ++ err)%string)
  | Content content =>
      let cleanContent := removeExistingHook content startMarker endMarker in
      WriteFile d configPath cleanContent
  end.

(** A hook as the generators build it: a line break, the start marker,
    text in which the end marker does not occur, the end marker, a line
    break. *)
Definition hookOf (body : string) : string :=
  (newline ++ startMarker ++ body ++ endMarker ++ newline)%string.

End Shell.

(** ** config.go: loading the configuration *)

Module ConfigFile.

(** What the host answers to the calls of [LoadConfig] and [SaveConfig]. *)
Record Host := {
  (** [os.UserHomeDir()] *)
  userHomeDir : string + string;
  (** [os.IsNotExist] holds of the error of [os.Stat(path)] *)
  statNotExist : string -> bool;
  (** [os.MkdirAll(path, 0755)] *)
  mkdirAll : string -> option string;
  (** [os.ReadFile(path)] *)
  readFile : string -> string + string;
  (** [os.WriteFile(path, data, 0644)] *)
  writeFile : string -> string -> option string;
  (** [yaml.Unmarshal(data, &config)] on [var config Config]: the struct
      as the decoder leaves it, or the error *)
  yamlUnmarshal : string -> Config + string;
  (** [yaml.Marshal(config)] *)
  yamlMarshal : Config -> string + string
}.

Definition DefaultConfigDir : string := ".cmdbell".
Definition DefaultConfigFile : string := "config.yaml".

(** [filepath.Join(dir, name)] for a directory path in clean form. *)
Definition Join (dir name : string) : string := (dir ++ "/" ++ name)%string.

Definition getConfigPath (h : Host) : string + string :=
  match userHomeDir h with
  | inr err => inr ("failed to get home directory: " ++ err)%string
  | inl homeDir =>
      let configDir := Join homeDir DefaultConfigDir in
      let configPath := Join configDir DefaultConfigFile in
      inl configPath
  end.

Definition ensureConfigDir (h : Host) : option string :=
  match userHomeDir h with
  | inr err => Some ("failed to get home directory: " ++ err)%string
  | inl homeDir =>
      let configDir := Join homeDir DefaultConfigDir in
      if statNotExist h configDir then
        match mkdirAll h configDir with
        | Some err => Some ("failed to create config directory: " ++ err)%string
        | None => None
        end
      else None
  end.

Definition SaveConfig (h : Host) (config : Config) : option string :=
  match ensureConfigDir h with
  | Some err => Some err
  | None =>
      match getConfigPath h with
      | inr err => Some err
      | inl configPath =>
          match yamlMarshal h config with
          | inr err => Some ("failed to marshal config: " ++ err)%string
          | inl data =>
              match writeFile h configPath data with
              | Some err => Some ("failed to write config file: " ++ err)%string
              | None => None
              end
          end
      end
  end.

(** [config.General.MinDurationTime = duration]. *)
Definition withMinDurationTime (config : Config) (duration : Duration) : Config :=
  {| general := {| MinDuration := MinDuration (general config);
                   MinDurationTime := duration;
                   EnableNotify := EnableNotify (general config) |};
     docker := docker config;
     http := http config;
     notification := notification config |}.

Section Load.

Variable ParseDuration : string -> Duration + string.

Definition LoadConfig (h : Host) : Config + string :=
  match getConfigPath h with
  | inr err => inr err
  | inl configPath =>
      if statNotExist h configPath then
        let config := getDefaultConfig in
        match SaveConfig h config with
        | Some err => inr ("failed to create default config: " ++ err)%string
        | None => inl config
        end
      else
        match readFile h configPath with
        | inr err => inr ("failed to read config file: " ++ err)%string
        | inl data =>
            match yamlUnmarshal h data with
            | inr err => inr ("failed to parse config file: " ++ err)%string
            | inl config =>
                if negb (String.eqb (MinDuration (general config)) "") then
                  match ParseDuration (MinDuration (general config)) with
                  | inr err => inr ("invalid min_duration format: " ++ err)%string
                  | inl duration => inl (withMinDurationTime config duration)
                  end
                else inl (withMinDurationTime config (15 * Second))
            end
        end
  end.

(** The threshold of a configuration is the one its [min_duration] text
    denotes, fifteen seconds when the text is empty. *)
Definition thresholdAgrees (c : Config) : Prop :=
  if String.eqb (MinDuration (general c)) ""
  then MinDurationTime (general c) = (15 * Second)%Z
  else ParseDuration (MinDuration (general c)) = inl (MinDurationTime (general c)).

(** The [config] field of the daemon that [NewDaemon] builds. *)
Definition NewDaemonConfig (h : Host) : Config :=
  match LoadConfig h with
  | inr err => getDefaultConfig
  | inl config => config
  end.

End Load.

End ConfigFile.

(** ** daemon.go: the PID file and the start of the daemon *)

Module Daemon.

Import Os.

Local Open Scope Z_scope.

Definition minInt : Z := - 2 ^ 63.
Definition maxInt : Z := 2 ^ 63 - 1.

Definition isDigit (c : ascii) : bool :=
  ((48 <=? nat_of_ascii c) && (nat_of_ascii c <=? 57))%nat.

Definition digitValue (c : ascii) : Z := Z.of_nat (nat_of_ascii c - 48).

Definition digitChar (d : Z) : ascii := ascii_of_nat (48 + Z.to_nat d).

(** The value of a string of decimal digits after the digits that gave
    [acc]; [None] when a byte is no digit. *)
Fixpoint parseDigits (acc : Z) (s : string) : option Z :=
  match s with
  | EmptyString => Some acc
  | String c rest =>
      if isDigit c then parseDigits (acc * 10 + digitValue c) rest else None
  end.

(** [strconv.Atoi(s)] on a 64-bit platform: an optional sign, then one
    decimal digit or more and nothing else, denoting a value that fits
    [int]; [None] is an error. *)
Definition Atoi (s : string) : option Z :=
  match s with
  | EmptyString => None
  | String c rest =>
      let neg := Ascii.eqb c "-" in
      let digits := if Ascii.eqb c "-" || Ascii.eqb c "+" then rest else s in
      match digits with
      | EmptyString => None
      | _ =>
          match parseDigits 0 digits with
          | None => None
          | Some v =>
              let n := if neg then - v else v in
              if (minInt <=? n) && (n <=? maxInt) then Some n else None
          end
      end
  end.

(** The decimal digits of [n >= 0] in front of [acc]; [fuel] bounds their
    number. *)
Fixpoint formatDigits (fuel : nat) (n : Z) (acc : string) : string :=
  match fuel with
  | O => acc
  | S fuel' =>
      let acc' := String (digitChar (n mod 10)) acc in
      if n <? 10 then acc' else formatDigits fuel' (n / 10) acc'
  end.

(** [strconv.Itoa(n)]. *)
Definition Itoa (n : Z) : string :=
  if n <? 0 then String "-" (formatDigits (S (Z.to_nat (Z.log2 (- n)))) (- n) EmptyString)
  else formatDigits (S (Z.to_nat (Z.log2 n))) n EmptyString.

(** The fields of [Daemon] that [Start] and the PID functions use; a
    pointer field is [None] or [false] when it is [nil]. *)
Record Daemon := {
  monitor : bool;
  httpServer : option Z;
  config : Config;
  pidFile : string;
  logFile : string;
  isRunning : bool
}.

(** The processes of the host and what starting the collaborators gives. *)
Record Host := {
  (** [os.Getpid()] *)
  getpid : Z;
  (** [os.FindProcess(pid)] returns no error *)
  findProcess : Z -> bool;
  (** [process.Signal(syscall.Signal(0))] returns no error *)
  signalZero : Z -> bool;
  (** the error of [os.OpenFile(d.logFile, ...)] in [setupLogging] *)
  openLog : option string;
  (** the error of [NewDockerMonitor()] *)
  newDockerMonitor : option string;
  (** the error of [monitor.Start()] *)
  monitorStart : option string
}.

Inductive Logged :=
  (** [log.Printf("Failed to remove PID file: %v", err)] *)
  | LogRemoveFailed (err : string)
  (** [log.Printf("Starting HTTP server on localhost:%d", port)] *)
  | LogHTTPStarting (port : Z)
  (** [log.Printf("Docker monitor not available: %v", err)] and
      [log.Println("Continuing with HTTP server only...")] *)
  | LogDockerUnavailable (err : string)
  (** [log.Printf("Failed to start Docker monitoring: %v", err)] and
      [log.Println("Continuing with HTTP server only...")] *)
  | LogMonitorStartFailed (err : string)
  (** [fmt.Println("Docker container monitoring started...")] *)
  | OutMonitoringStarted
  (** [log.Println("CmdBell daemon started successfully")] *)
  | LogStarted.

Definition GetPID (dsk : Disk) (d : Daemon) : Z :=
  match ReadFile dsk (pidFile d) with
  | Content data =>
      match Atoi data with
      | Some pid => pid
      | None => 0
      end
  | _ => 0
  end.

Definition writePIDFile (h : Host) (dsk : Disk) (d : Daemon) : Disk * option string :=
  let pid := getpid h in
  WriteFile dsk (pidFile d) (Itoa pid).

Definition cleanup (dsk : Disk) (d : Daemon) : Disk * list Logged :=
  match Remove dsk (pidFile d) with
  | (dsk', Some (err, false)) => (dsk', [LogRemoveFailed err])
  | (dsk', _) => (dsk', [])
  end.

Definition IsRunning (h : Host) (dsk : Disk) (d : Daemon) : bool * Disk * list Logged :=
  let pid := GetPID dsk d in
  if pid =? 0 then (false, dsk, [])
  else if negb (findProcess h pid) then
    let '(dsk', out) := cleanup dsk d in (false, dsk', out)
  else if negb (signalZero h pid) then
    let '(dsk', out) := cleanup dsk d in (false, dsk', out)
  else (true, dsk, []).

(** [HTTPServer.Start]: the listener runs in a goroutine of its own, whose
    error is logged there; the function itself returns [nil]. *)
Definition httpServerStart (port : Z) : list Logged * option string :=
  ([LogHTTPStarting port], None).

(** [Start] of the daemon that has an HTTP server; the result is the
    daemon, the disk, what was logged, and the error. *)
Definition Start (h : Host) (dsk : Disk) (d : Daemon)
    : Daemon * Disk * list Logged * option string :=
  let '(running, dsk1, out1) := IsRunning h dsk d in
  if running then
    (d, dsk1, out1,
     Some ("cmdbell daemon is already running (PID: " ++ Itoa (GetPID dsk1 d) ++ ")")%string)
  else
    match writePIDFile h dsk1 d with
    | (dsk2, Some err) =>
        (d, dsk2, out1, Some ("failed to write PID file: " ++ err)%string)
    | (dsk2, None) =>
        match openLog h with
        | Some err => (d, dsk2, out1, Some ("failed to setup logging: " ++ err)%string)
        | None =>
            let '(server, out2, failed) :=
              if Enabled (http (config d)) then
                let '(out, err) := httpServerStart (Port (http (config d))) in
                (Some (Port (http (config d))), out, err)
              else (httpServer d, [], None) in
            match failed with
            | Some err =>
                let '(dsk3, out3) := cleanup dsk2 d in
                ({| monitor := monitor d; httpServer := server; config := config d;
                    pidFile := pidFile d; logFile := logFile d;
                    isRunning := isRunning d |},
                 dsk3, (out1 ++ out2 ++ out3)%list,
                 Some ("failed to start HTTP server: " ++ err)%string)
            | None =>
                let '(mon, out4) :=
                  if Monitor (docker (config d)) then
                    match newDockerMonitor h with
                    | Some err => (monitor d, [LogDockerUnavailable err])
                    | None =>
                        match monitorStart h with
                        | Some err => (false, [LogMonitorStartFailed err])
                        | None => (true, [OutMonitoringStarted])
                        end
                    end
                  else (monitor d, []) in
                ({| monitor := mon; httpServer := server; config := config d;
                    pidFile := pidFile d; logFile := logFile d;
                    isRunning := true |},
                 dsk2, (out1 ++ out2 ++ out4 ++ [LogStarted])%list, None)
            end
        end
    end.

End Daemon.

(** ** Concrete hosts, files and daemons *)

Module Fixture.

(** A configuration file that turns notifications off and sets the
    threshold to [minDuration]. *)
Definition decodedFile (minDuration : string) : Config :=
  {| general := {| MinDuration := minDuration;
                   MinDurationTime := 0;
                   EnableNotify := false |};
     docker := {| Monitor := false; Filters := [] |};
     http := {| Port := 8080%Z; Enabled := true |};
     notification := {| Method_ := "auto"; Sound := false; Position := "top-right" |} |}.

(** A host whose home directory holds such a file. *)
Definition configHost (minDuration : string) : ConfigFile.Host :=
  {| ConfigFile.userHomeDir := inl "/home/dev";
     ConfigFile.statNotExist := fun _ => false;
     ConfigFile.mkdirAll := fun _ => None;
     ConfigFile.readFile := fun _ => inl "general: ...";
     ConfigFile.writeFile := fun _ _ => None;
     ConfigFile.yamlUnmarshal := fun _ => inl (decodedFile minDuration);
     ConfigFile.yamlMarshal := fun _ => inl "general: ..." |}.

Definition daemon : Daemon.Daemon :=
  {| Daemon.monitor := false;
     Daemon.httpServer := None;
     Daemon.config := getDefaultConfig;
     Daemon.pidFile := "/home/dev/.cmdbell.pid";
     Daemon.logFile := "/home/dev/.cmdbell.log";
     Daemon.isRunning := false |}.

(** A disk with the given files, all of them readable, writable and
    removable. *)
Definition disk (files : gmap string string) : Os.Disk :=
  {| Os.files := files; Os.denied := fun _ => false; Os.locked := fun _ => false |}.

(** The same files in directories that let nothing be removed. *)
Definition lockedDisk (files : gmap string string) : Os.Disk :=
  {| Os.files := files; Os.denied := fun _ => false; Os.locked := fun _ => true |}.

(** A host on which this process is [4242], only process [4242] is alive,
    and Docker is not installed. *)
Definition host : Daemon.Host :=
  {| Daemon.getpid := 4242%Z;
     Daemon.findProcess := fun _ => true;
     Daemon.signalZero := fun pid => (pid =? 4242)%Z;
     Daemon.openLog := None;
     Daemon.newDockerMonitor := Some "docker is not available: exec: not found";
     Daemon.monitorStart := None |}.

(** A KDE desktop under Wayland: [notify-send] is installed but finds no
    notification service and fails, [kdialog] works, [zenity] is not
    installed. *)
Definition kde : World :=
  {| now := Sample.t0;
     inspectName := fun _ => inr "exit status 1";
     GOOS := "linux";
     getenv := fun name => if String.eqb name "WAYLAND_DISPLAY" then "wayland-0" else "";
     lookPath := fun tool => negb (String.eqb tool "zenity");
     runAlert := fun tool _ _ =>
       if String.eqb tool "kdialog" then None else Some "exit status 1" |}.

(** A Mac on which [osascript] fails. *)
Definition mac : World :=
  {| now := Sample.t0;
     inspectName := fun _ => inr "exit status 1";
     GOOS := "darwin";
     getenv := fun _ => "";
     lookPath := fun _ => true;
     runAlert := fun _ _ _ => Some "exit status 1" |}.

(** The same Mac twenty seconds later. *)
Definition macLater : World :=
  {| now := Sample.later 20;
     inspectName := inspectName mac;
     GOOS := GOOS mac;
     getenv := getenv mac;
     lookPath := lookPath mac;
     runAlert := runAlert mac |}.

(** A shell profile and a hook. *)
Definition profile : string :=
  ("export EDITOR=vi" ++ Shell.newline ++ "alias l=ls" ++ Shell.newline)%string.

Definition hookBody : string :=
  (Shell.newline ++ "_cmdbell_precmd() { :; }" ++ Shell.newline)%string.

End Fixture.

(** ** Properties of the notifier *)

Section NotifierFacts.

Import Notifier.

Lemma dispatches_app (a b : list Output) :
  dispatches (a ++ b) = dispatches a + dispatches b.
Proof. unfold dispatches. by rewrite filter_app, length_app. Qed.

Lemma sendContainerNotification_dispatches w cmd name d ok :
  dispatches (sendContainerNotification w cmd name d ok) = 1.
Proof.
  unfold sendContainerNotification.
  destruct (Notifier.sendNativeNotification w _ _ _); reflexivity.
Qed.

Lemma sendNotification_dispatches w cmd d ok :
  dispatches (sendNotification w cmd d ok) = 1.
Proof.
  unfold sendNotification.
  destruct (Notifier.sendNativeNotification w _ _ _); reflexivity.
Qed.

End NotifierFacts.

(** ** Properties of the Docker exec correlator *)

Section DockerFacts.

Import Docker.

Implicit Types (m : gmap string ContainerExecInfo) (w : World)
  (event : DockerEvent) (line : Line) (id : string).

Lemma sliceTo_long n s :
  n <= String.length s -> exists t, sliceTo n s = Some t.
Proof.
  intros H. unfold sliceTo.
  destruct (n <=? String.length s)%nat eqn:E; [eauto |].
  apply Nat.leb_gt in E. lia.
Qed.

(** What [handleExecDie] writes when the record exists. *)
Lemma handleExecDie_known cfg w event m info :
  m !! attribute event "execID" = Some info ->
  handleExecDie cfg w event m =
    (delete (attribute event "execID") m,
     (if gate cfg (Since (now w) (StartTime info))
      then Notifier.sendContainerNotification w (Command info) (ContainerName info)
             (Since (now w) (StartTime info))
             (String.eqb (attribute event "exitCode") "0")
      else []) ++
     [OutCommandCompleted (ContainerName info)
        (Round (Since (now w) (StartTime info)) Second)
        (attribute event "exitCode")]).
Proof. intros H. unfold handleExecDie. by rewrite H. Qed.

Lemma handleExecDie_dispatches cfg w event m info :
  m !! attribute event "execID" = Some info ->
  dispatches (snd (handleExecDie cfg w event m)) =
    if gate cfg (Since (now w) (StartTime info)) then 1 else 0.
Proof.
  intros H. rewrite (handleExecDie_known _ _ _ _ _ H). simpl.
  rewrite dispatches_app.
  destruct (gate _ _); [rewrite sendContainerNotification_dispatches |]; reflexivity.
Qed.

Lemma handleExecDie_unknown cfg w event m :
  m !! attribute event "execID" = None ->
  handleExecDie cfg w event m = (m, []).
Proof. intros H. unfold handleExecDie. by rewrite H. Qed.

Lemma handleExecStart_unknown w event m :
  m !! attribute event "execID" = None ->
  handleExecStart w event m = (m, []).
Proof. intros H. unfold handleExecStart. by rewrite H. Qed.

Lemma gate_loaded c d :
  gate (Some c) d = ShouldNotify d c.
Proof. reflexivity. Qed.

Lemma ShouldNotify_spec d c :
  ShouldNotify d c = true <->
  (MinDurationTime (general c) <= d)%Z /\ EnableNotify (general c) = true.
Proof.
  unfold ShouldNotify. rewrite andb_true_iff, Z.leb_le. tauto.
Qed.

(** The correlator's clock arithmetic on a record that never started. *)
Lemma Since_zeroTime t :
  (maxDuration <= t)%Z -> Since t zeroTime = maxDuration.
Proof.
  intros H. unfold Since, Sub, zeroTime.
  rewrite Z.sub_0_r.
  destruct (t <? minDuration)%Z eqn:E1.
  - apply Z.ltb_lt in E1. unfold minDuration, maxDuration in *. lia.
  - destruct (maxDuration <? t)%Z eqn:E2; [reflexivity |].
    apply Z.ltb_ge in E2. lia.
Qed.

End DockerFacts.

Section EventLoopFacts.

Import Docker.

Implicit Types (m : gmap string ContainerExecInfo) (w : World)
  (event : DockerEvent) (line : Line) (id : string) (fs : list Fact).

Lemma mayHold_app b fs1 fs2 :
  mayHold b (fs1 ++ fs2) = mayHold (mayHold b fs1) fs2.
Proof.
  revert b. induction fs1 as [| f fs1 IH]; intros b; [reflexivity |].
  destruct f; simpl; apply IH.
Qed.

Lemma mayHold_mono fs :
  mayHold false fs = true -> forall b, mayHold b fs = true.
Proof.
  induction fs as [| f fs IH]; simpl; [discriminate |].
  destruct f; intros H b; auto.
Qed.

Lemma factsFor_cons id line rest :
  factsFor id (line :: rest) = factsFor id [line] ++ factsFor id rest.
Proof.
  simpl. destruct (factOf line); [| reflexivity].
  destruct (bool_decide _); reflexivity.
Qed.

(** A line never panics when its execution identifier is long enough. *)
Lemma handleLine_returns cfg w line m :
  (forall id, lineExecID line = Some id -> 12 <= String.length id) ->
  exists m' out, handleLine cfg w line m = (Returned m', out).
Proof.
  intros Hlong. destruct line as [err | event]; simpl; [eauto |].
  unfold handleEvent.
  destruct (HasPrefix (Action event) "exec_create:").
  - unfold handleExecCreate.
    destruct (inspectName w (ID event)); [| eauto].
    destruct (sliceTo_long 12 (attribute event "execID")) as [t Ht];
      [apply Hlong; reflexivity |].
    rewrite Ht. eauto.
  - destruct (HasPrefix (Action event) "exec_start:").
    + destruct (handleExecStart w event m). eauto.
    + destruct (String.eqb (Action event) "exec_die"); [| eauto].
      destruct (handleExecDie cfg w event m). eauto.
Qed.

(** Case analysis on whether a line is about the execution at hand. *)
Ltac case_exec_id H :=
  match goal with
  | |- context [bool_decide (?a = Some ?b)] =>
      destruct (bool_decide_reflect (a = Some b)) as [H | H]
  end.

(** How one line moves the record of execution [id]. *)
Lemma handleLine_holds cfg w line m m' out id :
  handleLine cfg w line m = (Returned m', out) ->
  is_Some (m' !! id) ->
  mayHold (bool_decide (is_Some (m !! id))) (factsFor id [line]) = true.
Proof.
  intros Hstep Hsome.
  destruct line as [err | event]; simpl in *.
  { injection Hstep as <- _. by apply bool_decide_eq_true. }
  unfold handleEvent in Hstep.
  destruct (HasPrefix (Action event) "exec_create:").
  { case_exec_id Hid; simpl; [reflexivity |].
    unfold handleExecCreate in Hstep.
    assert (attribute event "execID" <> id) as Hne by congruence.
    destruct (inspectName w (ID event)).
    - destruct (sliceTo 12 _); [| discriminate].
      injection Hstep as <- _.
      rewrite lookup_insert_ne in Hsome by done.
      by apply bool_decide_eq_true.
    - injection Hstep as <- _. by apply bool_decide_eq_true. }
  destruct (HasPrefix (Action event) "exec_start:").
  { unfold handleExecStart in Hstep.
    destruct (m !! attribute event "execID") as [info |] eqn:Hm.
    - injection Hstep as <- _.
      case_exec_id Hid; simpl; apply bool_decide_eq_true.
      + injection Hid as <-. eauto.
      + rewrite lookup_insert_ne in Hsome by congruence. done.
    - injection Hstep as <- _.
      case_exec_id Hid; simpl; by apply bool_decide_eq_true. }
  destruct (String.eqb (Action event) "exec_die").
  { unfold handleExecDie in Hstep.
    destruct (m !! attribute event "execID") as [info |] eqn:Hm.
    - injection Hstep as <- _.
      case_exec_id Hid; simpl.
      + injection Hid as <-. rewrite lookup_delete_eq in Hsome.
        by destruct Hsome.
      + rewrite lookup_delete_ne in Hsome by congruence.
        by apply bool_decide_eq_true.
    - injection Hstep as <- _.
      case_exec_id Hid; simpl.
      + injection Hid as <-. rewrite Hm in Hsome. by destruct Hsome.
      + by apply bool_decide_eq_true. }
  injection Hstep as <- _. by apply bool_decide_eq_true.
Qed.

(** A record that is in the working set when the loop returns was created
    by a create fact that no later die fact of the same execution
    followed, or was there from the beginning. *)
Lemma eventLoop_holds cfg lines m m' journal id :
  eventLoop cfg lines m = (Returned m', journal) ->
  is_Some (m' !! id) ->
  mayHold (bool_decide (is_Some (m !! id))) (factsFor id (map snd lines)) = true.
Proof.
  revert m journal.
  induction lines as [| [w line] rest IH]; intros m journal Hrun Hsome.
  { simpl in *. injection Hrun as <- _. by apply bool_decide_eq_true. }
  simpl in Hrun.
  destruct (handleLine cfg w line m) as [[m1 | reason] out] eqn:Hstep;
    [| discriminate].
  destruct (eventLoop cfg rest m1) as [r j] eqn:Hrest.
  injection Hrun as -> _.
  specialize (IH _ _ Hrest Hsome).
  change (map snd ((w, line) :: rest)) with (line :: map snd rest).
  rewrite factsFor_cons, mayHold_app.
  destruct (bool_decide (is_Some (m1 !! id))) eqn:Hm1.
  - apply bool_decide_eq_true in Hm1.
    by rewrite (handleLine_holds _ _ _ _ _ _ _ Hstep Hm1).
  - by apply mayHold_mono.
Qed.

(** The loop runs to the end of a stream of long identifiers. *)
Lemma eventLoop_returns cfg lines m :
  longExecIDs (map snd lines) = true ->
  exists m' journal, eventLoop cfg lines m = (Returned m', journal).
Proof.
  revert m. induction lines as [| [w line] rest IH]; intros m Hlong.
  { simpl. eauto. }
  simpl in Hlong. apply andb_true_iff in Hlong as [Hline Hrest].
  destruct (handleLine_returns cfg w line m) as (m1 & out & Hstep).
  { intros id Hid. rewrite Hid in Hline. by apply Nat.leb_le. }
  destruct (IH m1 Hrest) as (m' & journal & Hrun).
  exists m', ((line, out) :: journal).
  simpl. by rewrite Hstep, Hrun.
Qed.

(** Only a die fact dispatches, and at most once. *)
Lemma handleLine_dispatches cfg w line m r out :
  handleLine cfg w line m = (r, out) ->
  dispatches out <= match factOf line with Some FDie => 1 | _ => 0 end.
Proof.
  intros Hstep. destruct line as [err | event]; simpl in *.
  { by injection Hstep as _ <-. }
  unfold handleEvent in Hstep.
  destruct (HasPrefix (Action event) "exec_create:").
  { unfold handleExecCreate in Hstep.
    destruct (inspectName w (ID event)).
    - destruct (sliceTo 12 _); by injection Hstep as _ <-.
    - by injection Hstep as _ <-. }
  destruct (HasPrefix (Action event) "exec_start:").
  { unfold handleExecStart in Hstep.
    destruct (m !! attribute event "execID"); by injection Hstep as _ <-. }
  destruct (String.eqb (Action event) "exec_die").
  { destruct (m !! attribute event "execID") as [info |] eqn:Hm.
    - pose proof (handleExecDie_dispatches cfg w event m info Hm) as Hd.
      destruct (handleExecDie cfg w event m) as [m1 o].
      injection Hstep as _ <-. simpl in Hd. rewrite Hd.
      destruct (gate _ _); lia.
    - rewrite handleExecDie_unknown in Hstep by done.
      injection Hstep as _ <-. unfold dispatches. simpl. lia. }
  by injection Hstep as _ <-.
Qed.

Lemma dieCount_app fs1 fs2 :
  dieCount (fs1 ++ fs2) = dieCount fs1 + dieCount fs2.
Proof.
  induction fs1 as [| f fs1 IH]; [reflexivity |].
  destruct f; simpl; by rewrite IH.
Qed.

Lemma eventLoop_dispatchesFor cfg lines m r journal id :
  eventLoop cfg lines m = (r, journal) ->
  dispatchesFor id journal <= dieCount (factsFor id (map snd lines)).
Proof.
  revert m r journal.
  induction lines as [| [w line] rest IH]; intros m r journal Hrun.
  { simpl in Hrun. injection Hrun as _ <-. simpl. lia. }
  change (map snd ((w, line) :: rest)) with (line :: map snd rest).
  rewrite factsFor_cons, dieCount_app.
  simpl in Hrun.
  destruct (handleLine cfg w line m) as [[m1 | reason] out] eqn:Hstep.
  - destruct (eventLoop cfg rest m1) as [r1 j] eqn:Hrest.
    injection Hrun as _ <-.
    specialize (IH _ _ _ Hrest).
    pose proof (handleLine_dispatches _ _ _ _ _ _ Hstep) as Hd.
    simpl. destruct (factOf line) as [f |].
    + case_exec_id Hid; simpl; [| lia].
      destruct f; cbn in *; lia.
    + case_exec_id Hid; simpl; lia.
  - injection Hrun as _ <-.
    pose proof (handleLine_dispatches _ _ _ _ _ _ Hstep) as Hd.
    simpl. destruct (factOf line) as [f |].
    + case_exec_id Hid; simpl; [| lia].
      destruct f; cbn in *; lia.
    + case_exec_id Hid; simpl; lia.
Qed.

(** In a stream of triples every execution has no fact at all or exactly
    its three. *)
Lemma factsFor_occurs id lines :
  factsFor id lines <> [] ->
  exists line f, In line lines /\ factOf line = Some f /\ lineExecID line = Some id.
Proof.
  induction lines as [| line rest IH]; simpl; [done |].
  destruct (factOf line) as [f |] eqn:Hf.
  - case_bool_decide as Hid.
    + intros _. exists line, f. auto.
    + intros H. destruct (IH H) as (l & g & Hin & Hg & Hl). exists l, g. auto.
  - intros H. destruct (IH H) as (l & g & Hin & Hg & Hl). exists l, g. auto.
Qed.

Lemma tripleStream_facts lines id :
  tripleStream lines = true ->
  factsFor id lines = [] \/ factsFor id lines = [FCreate; FStart; FDie].
Proof.
  intros Hts.
  destruct (factsFor id lines) as [| f fs] eqn:Hfs; [by left | right].
  destruct (factsFor_occurs id lines) as (line & g & Hin & Hg & Hl);
    [by rewrite Hfs |].
  unfold tripleStream in Hts. rewrite forallb_forall in Hts.
  specialize (Hts line Hin). rewrite Hg, Hl in Hts.
  apply bool_decide_eq_true in Hts. congruence.
Qed.

End EventLoopFacts.

(** ** The claims about the Docker exec correlator *)

Section CorrelatorClaims.

Import Docker.

Implicit Types (m : gmap string ContainerExecInfo) (w : World)
  (event : DockerEvent) (id : string).

Lemma handleEvent_die cfg w event m :
  Action event = "exec_die" ->
  handleEvent cfg w event m =
    (Returned (fst (handleExecDie cfg w event m)), snd (handleExecDie cfg w event m)).
Proof.
  intros Ha. unfold handleEvent. rewrite Ha. simpl.
  by destruct (handleExecDie cfg w event m).
Qed.

Lemma handleEvent_fact cfg w event m :
  handleEvent cfg w event m =
    match factOf (Parsed event) with
    | Some FCreate => handleExecCreate w event m
    | Some FStart =>
        (Returned (fst (handleExecStart w event m)), snd (handleExecStart w event m))
    | Some FDie =>
        (Returned (fst (handleExecDie cfg w event m)), snd (handleExecDie cfg w event m))
    | None => (Returned m, [])
    end.
Proof.
  unfold handleEvent, factOf.
  destruct (HasPrefix (Action event) "exec_create:"); [reflexivity |].
  destruct (HasPrefix (Action event) "exec_start:").
  { by destruct (handleExecStart w event m). }
  destruct (String.eqb (Action event) "exec_die"); [| reflexivity].
  by destruct (handleExecDie cfg w event m).
Qed.

(** C3, as stated, does not hold: when [docker inspect] fails for
    container [c2], the create fact of execution [e1] leaves the working
    set without a record for [e1]. *)
Lemma C3_no_record_on_lookup_failure :
  inspectName (Sample.world Sample.t0) "c2" = inr "exit status 1" /\
  ~ (exists m' out info,
       handleExecCreate (Sample.world Sample.t0)
         (Sample.execEvent "exec_create: sleep 17" "c2" Sample.e1 "") ∅
       = (Returned m', out) /\
       m' !! Sample.e1 = Some info).
Proof.
  split; [reflexivity |].
  intros (m' & out & info & Hrun & Hget).
  unfold handleExecCreate in Hrun. simpl in Hrun.
  injection Hrun as <- _.
  by rewrite lookup_empty in Hget.
Qed.

(** C3, amended: when the container-name lookup fails, [handleExecCreate]
    logs the failure and returns; the working set is unchanged (no record,
    no placeholder name), nothing panics, and the event loop goes on with
    the lines that follow. *)
Theorem C3_lookup_failure_drops_the_create_fact cfg w event m err rest :
  HasPrefix (Action event) "exec_create:" = true ->
  inspectName w (ID event) = inr err ->
  handleExecCreate w event m = (Returned m, [LogNameLookupFailed (ID event) err]) /\
  eventLoop cfg ((w, Parsed event) :: rest) m =
    (fst (eventLoop cfg rest m),
     (Parsed event, [LogNameLookupFailed (ID event) err]) :: snd (eventLoop cfg rest m)).
Proof.
  intros Ha Herr.
  assert (handleExecCreate w event m
          = (Returned m, [LogNameLookupFailed (ID event) err])) as Hc.
  { unfold handleExecCreate. by rewrite Herr. }
  split; [exact Hc |].
  simpl. unfold handleEvent. rewrite Ha, Hc.
  by destruct (eventLoop cfg rest m).
Qed.

Lemma C3_lookup_failure_witness :
  handleExecCreate (Sample.world Sample.t0)
    (Sample.execEvent "exec_create: sleep 17" "c2" Sample.e1 "") ∅
  = (Returned ∅, [LogNameLookupFailed "c2" "exit status 1"]) /\
  eventLoop (Some getDefaultConfig)
    [(Sample.world Sample.t0,
      Parsed (Sample.execEvent "exec_create: sleep 17" "c2" Sample.e1 ""))] ∅
  = (Returned ∅,
     [(Parsed (Sample.execEvent "exec_create: sleep 17" "c2" Sample.e1 ""),
       [LogNameLookupFailed "c2" "exit status 1"])]).
Proof.
  exact (C3_lookup_failure_drops_the_create_fact (Some getDefaultConfig)
           (Sample.world Sample.t0)
           (Sample.execEvent "exec_create: sleep 17" "c2" Sample.e1 "")
           ∅ "exit status 1" [] eq_refl eq_refl).
Defined.

(** C5: a start or a die fact about an execution without a record changes
    nothing and writes nothing; a start followed by a die, both without a
    create before them, leave the working set as it was and dispatch no
    notification. *)
Theorem C5_unknown_execution_is_a_silent_no_op cfg w w' startEvent dieEvent m :
  m !! attribute startEvent "execID" = None ->
  attribute dieEvent "execID" = attribute startEvent "execID" ->
  factOf (Parsed startEvent) = Some FStart ->
  factOf (Parsed dieEvent) = Some FDie ->
  handleExecStart w startEvent m = (m, []) /\
  handleExecDie cfg w' dieEvent m = (m, []) /\
  size (fst (handleExecStart w startEvent m)) = size m /\
  size (fst (handleExecDie cfg w' dieEvent m)) = size m /\
  eventLoop cfg [(w, Parsed startEvent); (w', Parsed dieEvent)] m =
    (Returned m, [(Parsed startEvent, []); (Parsed dieEvent, [])]) /\
  dispatchesFor (attribute startEvent "execID")
    (snd (eventLoop cfg [(w, Parsed startEvent); (w', Parsed dieEvent)] m)) = 0.
Proof.
  intros Hnone Hid Hs Hd.
  assert (handleExecStart w startEvent m = (m, [])) as H1
    by (by apply handleExecStart_unknown).
  assert (handleExecDie cfg w' dieEvent m = (m, [])) as H2
    by (apply handleExecDie_unknown; by rewrite Hid).
  assert (eventLoop cfg [(w, Parsed startEvent); (w', Parsed dieEvent)] m =
    (Returned m, [(Parsed startEvent, []); (Parsed dieEvent, [])])) as H3.
  { simpl. rewrite handleEvent_fact, Hs, H1. simpl.
    by rewrite handleEvent_fact, Hd, H2. }
  repeat split; try done.
  - by rewrite H1.
  - by rewrite H2.
  - rewrite H3. simpl. unfold dispatches. simpl.
    by repeat case_bool_decide.
Qed.

Lemma C5_unknown_execution_witness :
  handleExecStart (Sample.world Sample.t0)
    (Sample.execEvent "exec_start: sleep 17" "c1" Sample.e1 "") ∅ = (∅, []) /\
  handleExecDie (Some getDefaultConfig) (Sample.world (Sample.later 20))
    (Sample.execEvent "exec_die" "c1" Sample.e1 "0") ∅ = (∅, []) /\
  size (fst (handleExecStart (Sample.world Sample.t0)
    (Sample.execEvent "exec_start: sleep 17" "c1" Sample.e1 "") ∅))
    = size (∅ : gmap string ContainerExecInfo) /\
  size (fst (handleExecDie (Some getDefaultConfig) (Sample.world (Sample.later 20))
    (Sample.execEvent "exec_die" "c1" Sample.e1 "0") ∅))
    = size (∅ : gmap string ContainerExecInfo) /\
  eventLoop (Some getDefaultConfig)
    [(Sample.world Sample.t0, Sample.start "c1" Sample.e1);
     (Sample.world (Sample.later 20), Sample.die "c1" Sample.e1 "0")] ∅ =
    (Returned ∅, [(Sample.start "c1" Sample.e1, []);
                  (Sample.die "c1" Sample.e1 "0", [])]) /\
  dispatchesFor Sample.e1
    (snd (eventLoop (Some getDefaultConfig)
       [(Sample.world Sample.t0, Sample.start "c1" Sample.e1);
        (Sample.world (Sample.later 20), Sample.die "c1" Sample.e1 "0")] ∅)) = 0.
Proof.
  exact (C5_unknown_execution_is_a_silent_no_op (Some getDefaultConfig)
           (Sample.world Sample.t0) (Sample.world (Sample.later 20))
           (Sample.execEvent "exec_start: sleep 17" "c1" Sample.e1 "")
           (Sample.execEvent "exec_die" "c1" Sample.e1 "0")
           ∅ eq_refl eq_refl eq_refl eq_refl).
Defined.

(** C6: for a die fact whose record exists, with a loaded configuration,
    a notification is dispatched exactly when the measured duration is at
    least [MinDurationTime] and [EnableNotify] is set; never more than one
    is dispatched, and a duration equal to the threshold notifies. *)
Theorem C6_die_notifies_iff_gate_passes c w event m info :
  m !! attribute event "execID" = Some info ->
  (0 < dispatches (snd (handleExecDie (Some c) w event m)) <->
   (MinDurationTime (general c) <= Since (now w) (StartTime info))%Z /\
   EnableNotify (general c) = true) /\
  dispatches (snd (handleExecDie (Some c) w event m)) =
    (if ShouldNotify (Since (now w) (StartTime info)) c then 1 else 0) /\
  (Since (now w) (StartTime info) = MinDurationTime (general c) ->
   EnableNotify (general c) = true ->
   dispatches (snd (handleExecDie (Some c) w event m)) = 1).
Proof.
  intros Hm.
  rewrite (handleExecDie_dispatches _ _ _ _ _ Hm), gate_loaded.
  split; [| split].
  - rewrite <- ShouldNotify_spec.
    destruct (ShouldNotify _ c); split; intros H; try done; lia.
  - reflexivity.
  - intros Hd He.
    assert (ShouldNotify (Since (now w) (StartTime info)) c = true) as ->; [| done].
    apply ShouldNotify_spec. split; [lia | done].
Qed.

(** A record started at [t0], met by a die fact exactly fifteen seconds
    later under the default configuration. *)
Lemma C6_boundary_witness :
  (0 < dispatches (snd (handleExecDie (Some getDefaultConfig) (Sample.world (Sample.later 15))
         (Sample.execEvent "exec_die" "c1" Sample.e1 "0")
         {[ Sample.e1 := Sample.record Sample.t0 ]})) <->
   (MinDurationTime (general getDefaultConfig)
      <= Since (Sample.later 15) Sample.t0)%Z /\
   EnableNotify (general getDefaultConfig) = true) /\
  dispatches (snd (handleExecDie (Some getDefaultConfig) (Sample.world (Sample.later 15))
         (Sample.execEvent "exec_die" "c1" Sample.e1 "0")
         {[ Sample.e1 := Sample.record Sample.t0 ]})) =
    (if ShouldNotify (Since (Sample.later 15) Sample.t0) getDefaultConfig
     then 1 else 0) /\
  (Since (Sample.later 15) Sample.t0 = MinDurationTime (general getDefaultConfig) ->
   EnableNotify (general getDefaultConfig) = true ->
   dispatches (snd (handleExecDie (Some getDefaultConfig) (Sample.world (Sample.later 15))
         (Sample.execEvent "exec_die" "c1" Sample.e1 "0")
         {[ Sample.e1 := Sample.record Sample.t0 ]})) = 1).
Proof.
  exact (C6_die_notifies_iff_gate_passes getDefaultConfig
           (Sample.world (Sample.later 15))
           (Sample.execEvent "exec_die" "c1" Sample.e1 "0")
           {[ Sample.e1 := Sample.record Sample.t0 ]}
           (Sample.record Sample.t0) eq_refl).
Defined.

Lemma Round_maxDuration : Round maxDuration Second = maxDuration.
Proof. reflexivity. Qed.

(** C9: a die fact that meets a record whose [StartTime] is still the
    zero [Time] is handled like any other: [handleEvent] returns, the
    record is removed, and the duration it computes from the zero
    timestamp is the largest [Duration] there is (some 292 years) for
    every clock reading later than that. *)
Theorem C9_die_before_start_completes cfg w event m info :
  Action event = "exec_die" ->
  m !! attribute event "execID" = Some info ->
  StartTime info = zeroTime ->
  (maxDuration <= now w)%Z ->
  Since (now w) (StartTime info) = maxDuration /\
  handleEvent cfg w event m =
    (Returned (delete (attribute event "execID") m),
     (if gate cfg maxDuration
      then Notifier.sendContainerNotification w (Command info) (ContainerName info)
             maxDuration (String.eqb (attribute event "exitCode") "0")
      else []) ++
     [OutCommandCompleted (ContainerName info) maxDuration
        (attribute event "exitCode")]).
Proof.
  intros Ha Hm Hz Hnow.
  assert (Since (now w) (StartTime info) = maxDuration) as Hd
    by (rewrite Hz; by apply Since_zeroTime).
  split; [exact Hd |].
  rewrite (handleEvent_die _ _ _ _ Ha), (handleExecDie_known _ _ _ _ _ Hm).
  simpl. by rewrite Hd, Round_maxDuration.
Qed.

(** The record that a create fact left behind, met by its die fact with no
    start fact in between. *)
Lemma C9_die_before_start_witness :
  Since (now (Sample.world (Sample.later 3))) (StartTime (Sample.record zeroTime))
    = maxDuration /\
  handleEvent (Some getDefaultConfig) (Sample.world (Sample.later 3))
    (Sample.execEvent "exec_die" "c1" Sample.e1 "0")
    {[ Sample.e1 := Sample.record zeroTime ]} =
    (Returned (delete (attribute (Sample.execEvent "exec_die" "c1" Sample.e1 "0") "execID")
                 {[ Sample.e1 := Sample.record zeroTime ]}),
     (if gate (Some getDefaultConfig) maxDuration
      then Notifier.sendContainerNotification (Sample.world (Sample.later 3))
             (Command (Sample.record zeroTime)) (ContainerName (Sample.record zeroTime))
             maxDuration
             (String.eqb (attribute (Sample.execEvent "exec_die" "c1" Sample.e1 "0") "exitCode") "0")
      else []) ++
     [OutCommandCompleted (ContainerName (Sample.record zeroTime)) maxDuration
        (attribute (Sample.execEvent "exec_die" "c1" Sample.e1 "0") "exitCode")]).
Proof.
  apply (C9_die_before_start_completes (Some getDefaultConfig)
           (Sample.world (Sample.later 3))
           (Sample.execEvent "exec_die" "c1" Sample.e1 "0")
           {[ Sample.e1 := Sample.record zeroTime ]}
           (Sample.record zeroTime)).
  - reflexivity.
  - reflexivity.
  - reflexivity.
  - vm_compute. discriminate.
Defined.

(** The working set is empty again after a stream of triples. *)
Lemma tripleStream_drains cfg lines m' journal :
  tripleStream (map snd lines) = true ->
  eventLoop cfg lines ∅ = (Returned m', journal) ->
  m' = ∅.
Proof.
  intros Hts Hrun. apply map_empty. intros id.
  apply eq_None_not_Some. intros Hsome.
  pose proof (eventLoop_holds _ _ _ _ _ id Hrun Hsome) as Hold.
  rewrite lookup_empty in Hold.
  rewrite bool_decide_eq_false_2 in Hold by (intros [? ?]; discriminate).
  destruct (tripleStream_facts _ id Hts) as [Hf | Hf];
    rewrite Hf in Hold; discriminate.
Qed.

(** C4: the working set is a map from [execID], so it holds at most one
    record per execution in every state the loop reaches; a die fact whose
    record exists removes that record, whether or not the gate lets the
    notification through; and over a stream made of create/start/die
    triples of distinct executions, interleaved in any way, no execution
    has more than one notification and the working set is empty when the
    loop returns, which it does whenever the identifiers have the twelve
    bytes that [handleExecCreate] prints. *)
Theorem C4_one_record_per_execution_and_removal_on_die
    cfg lines w event (m : gmap string ContainerExecInfo) info :
  m !! attribute event "execID" = Some info ->
  tripleStream (map snd lines) = true ->
  (fst (handleExecDie cfg w event m) = delete (attribute event "execID") m /\
   fst (handleExecDie cfg w event m) !! attribute event "execID" = None /\
   S (size (fst (handleExecDie cfg w event m))) = size m) /\
  (forall r journal,
     eventLoop cfg lines ∅ = (r, journal) ->
     (forall id, dispatchesFor id journal <= 1) /\
     (forall m', r = Returned m' -> m' = ∅ /\ size m' = 0)) /\
  (longExecIDs (map snd lines) = true ->
   exists journal, eventLoop cfg lines ∅ = (Returned ∅, journal)) /\
  (forall n m' journal,
     eventLoop cfg (take n lines) ∅ = (Returned m', journal) ->
     NoDup (map fst (map_to_list m'))).
Proof.
  intros Hm Hts. split; [| split; [| split]].
  - rewrite (handleExecDie_known _ _ _ _ _ Hm). simpl.
    split; [reflexivity |]. split; [apply lookup_delete_eq |].
    rewrite map_size_delete_Some by eauto.
    assert (size m <> 0); [| lia].
    intros Hz. apply map_size_empty_inv in Hz. subst m.
    by rewrite lookup_empty in Hm.
  - intros r journal Hrun. split.
    + intros id.
      pose proof (eventLoop_dispatchesFor _ _ _ _ _ id Hrun) as Hle.
      destruct (tripleStream_facts _ id Hts) as [Hf | Hf];
        rewrite Hf in Hle; simpl in Hle; lia.
    + intros m' ->.
      pose proof (tripleStream_drains _ _ _ _ Hts Hrun) as ->.
      split; [reflexivity | apply map_size_empty].
  - intros Hlong.
    destruct (eventLoop_returns cfg lines ∅ Hlong) as (m' & journal & Hrun).
    pose proof (tripleStream_drains _ _ _ _ Hts Hrun) as ->.
    by exists journal.
  - intros n m' journal _. apply NoDup_fst_map_to_list.
Qed.

(** Two overlapping triples, and the die fact of a running record. *)
Lemma C4_interleaved_triples_witness :
  (exists journal,
     eventLoop (Some getDefaultConfig) Sample.interleaved ∅ = (Returned ∅, journal) /\
     forall id, dispatchesFor id journal <= 1) /\
  fst (handleExecDie (Some getDefaultConfig) (Sample.world (Sample.later 5))
         (Sample.execEvent "exec_die" "c1" Sample.e1 "0")
         {[ Sample.e1 := Sample.record Sample.t0 ]})
    !! attribute (Sample.execEvent "exec_die" "c1" Sample.e1 "0") "execID" = None.
Proof.
  assert (({[ Sample.e1 := Sample.record Sample.t0 ]} : gmap string ContainerExecInfo)
            !! attribute (Sample.execEvent "exec_die" "c1" Sample.e1 "0") "execID"
          = Some (Sample.record Sample.t0)) as Hm by reflexivity.
  assert (tripleStream (map snd Sample.interleaved) = true) as Hts by reflexivity.
  assert (longExecIDs (map snd Sample.interleaved) = true) as Hlong by reflexivity.
  destruct (C4_one_record_per_execution_and_removal_on_die (Some getDefaultConfig)
              Sample.interleaved (Sample.world (Sample.later 5))
              (Sample.execEvent "exec_die" "c1" Sample.e1 "0")
              {[ Sample.e1 := Sample.record Sample.t0 ]}
              (Sample.record Sample.t0) Hm Hts)
    as ((_ & Hgone & _) & Hrun & Hreturns & _).
  split; [| exact Hgone].
  destruct (Hreturns Hlong) as (journal & Hloop).
  exists journal. split; [exact Hloop |].
  exact (proj1 (Hrun _ _ Hloop)).
Defined.

(** The interleaved stream run by the model: the short execution is under
    the threshold, the long one is notified once. *)
Example interleaved_run :
  fst (eventLoop (Some getDefaultConfig) Sample.interleaved ∅) = Returned ∅ /\
  map (fun entry => dispatches (snd entry))
      (snd (eventLoop (Some getDefaultConfig) Sample.interleaved ∅))
  = [0; 0; 0; 0; 0; 1].
Proof. vm_compute. split; reflexivity. Qed.

(** A create fact leaves a record whose [StartTime] is the zero [Time]. *)
Example create_leaves_zero_start :
  handleExecCreate (Sample.world Sample.t0)
    (Sample.execEvent "exec_create: sleep 17" "c1" Sample.e1 "") ∅
  = (Returned {[ Sample.e1 := Sample.record zeroTime ]},
     [OutExecCreated "devbox" "0123456789ab"]).
Proof. reflexivity. Qed.

(** A create fact with a short identifier panics once the name is known. *)
Example create_short_id_panics :
  handleExecCreate (Sample.world Sample.t0)
    (Sample.execEvent "exec_create: sleep 17" "c1" "abc" "") ∅
  = (Panicked "slice bounds out of range", []).
Proof. reflexivity. Qed.

End CorrelatorClaims.

(** ** The claims about the HTTP ingress *)

Section IngressClaims.

Import HTTP.

Variable ParseDuration : string -> Duration + string.

Implicit Types (w : World) (r : Request) (p : Payload).

Lemma eqb_empty_false (s : string) : s <> "" -> String.eqb s "" = false.
Proof. intros H. by apply String.eqb_neq. Qed.

(** What the handler does with a request that is not well formed. *)
Lemma handleNotification_rejects w r :
  Method r = "POST" ->
  wellFormed ParseDuration r = false ->
  StatusCode (fst (handleNotification ParseDuration w r)) = StatusBadRequest /\
  dispatches (snd (handleNotification ParseDuration w r)) = 0 /\
  existsb isBell (snd (handleNotification ParseDuration w r)) = false.
Proof.
  intros Hm Hwf. unfold wellFormed in Hwf. unfold handleNotification.
  rewrite Hm in *. simpl in *.
  destruct (RequestBody r) as [err | p]; simpl; [done |].
  destruct (json_command p) as [c |]; simpl; [| done].
  destruct (String.eqb c ""); simpl in *; [done |].
  destruct (json_duration p) as [s |]; simpl; [| done].
  destruct (String.eqb s ""); simpl in *; [done |].
  destruct (ParseDuration s); [discriminate | done].
Qed.

(** What the handler does with a well-formed request. *)
Lemma handleNotification_accepts w r :
  wellFormed ParseDuration r = true ->
  exists req d,
    Decode (RequestBody r) = inl req /\
    ParseDuration (Duration_ req) = inl d /\
    handleNotification ParseDuration w r =
      ({| StatusCode := StatusOK;
          ResponseBody := JSON [("status", "success"); ("message", "Notification sent")] |},
       LogReceived (Command req)
         (if String.eqb (ContainerName req) "" then "unknown_container"
          else ContainerName req)
         d (Success req)
       :: Notifier.sendContainerNotification w (Command req)
            (if String.eqb (ContainerName req) "" then "unknown_container"
             else ContainerName req)
            d (Success req)).
Proof.
  intros Hwf. unfold wellFormed in Hwf.
  apply andb_true_iff in Hwf as [Hm Hwf].
  unfold handleNotification. rewrite Hm. simpl.
  destruct (RequestBody r) as [err | p]; [discriminate |].
  destruct (json_command p) as [c |] eqn:Hc; [| discriminate].
  destruct (json_duration p) as [s |] eqn:Hs; [| discriminate].
  apply andb_true_iff in Hwf as [Hwf Hp].
  apply andb_true_iff in Hwf as [Hce Hse].
  apply negb_true_iff in Hce, Hse.
  destruct (ParseDuration s) as [d | err] eqn:Hd; [| discriminate].
  eexists _, d. split; [reflexivity |]. simpl.
  rewrite Hc, Hs. simpl. rewrite Hce, Hse, Hd. by split.
Qed.

(** C7: [handleNotification] answers 405 to every method but POST; it
    answers 400, and dispatches nothing, to every POST whose body lacks
    [command], lacks [duration] or carries a duration that does not parse
    (and to every other POST that is not well formed); and it answers a
    well-formed request with 200, the acknowledgement object, and one
    notification. *)
Theorem C7_notify_endpoint_responses w r :
  (Method r <> "POST" ->
   handleNotification ParseDuration w r =
     ({| StatusCode := 405%Z; ResponseBody := Plain "Method not allowed" |}, [])) /\
  (forall p,
     Method r = "POST" ->
     RequestBody r = Object p ->
     json_command p = None \/ json_duration p = None \/
     (exists s err, json_duration p = Some s /\ ParseDuration s = inr err) ->
     StatusCode (fst (handleNotification ParseDuration w r)) = 400%Z /\
     dispatches (snd (handleNotification ParseDuration w r)) = 0 /\
     existsb isBell (snd (handleNotification ParseDuration w r)) = false) /\
  (Method r = "POST" ->
   wellFormed ParseDuration r = false ->
   StatusCode (fst (handleNotification ParseDuration w r)) = 400%Z /\
   dispatches (snd (handleNotification ParseDuration w r)) = 0 /\
   existsb isBell (snd (handleNotification ParseDuration w r)) = false) /\
  (wellFormed ParseDuration r = true ->
   fst (handleNotification ParseDuration w r) =
     {| StatusCode := 200%Z;
        ResponseBody := JSON [("status", "success"); ("message", "Notification sent")] |} /\
   dispatches (snd (handleNotification ParseDuration w r)) = 1).
Proof.
  split; [| split; [| split]].
  - intros Hm. unfold handleNotification.
    apply String.eqb_neq in Hm. by rewrite Hm.
  - intros p Hm Hb Hbad. apply handleNotification_rejects; [done |].
    unfold wellFormed. rewrite Hm, Hb. simpl.
    destruct Hbad as [-> | [-> | (s & err & -> & Hs)]]; [done | | ].
    + by destruct (json_command p).
    + destruct (json_command p); [| done].
      rewrite Hs. by rewrite !andb_false_r.
  - apply handleNotification_rejects.
  - intros Hwf.
    destruct (handleNotification_accepts w r Hwf) as (req & d & _ & _ & ->).
    split; [reflexivity |]. simpl.
    unfold dispatches. simpl. fold (dispatches (Notifier.sendContainerNotification w
      (Command req) (if String.eqb (ContainerName req) "" then "unknown_container"
             else ContainerName req) d (Success req))).
    apply sendContainerNotification_dispatches.
Qed.

End IngressClaims.

(** The request of the specification's example, and the same request
    without its [duration]. *)
Lemma C7_notify_endpoint_witness :
  (fst (HTTP.handleNotification HTTP.parseWholeSeconds (Sample.world Sample.t0)
          (Sample.post (Sample.payload (Some "sleep 20") (Some "20s") (Some true)))) =
     {| HTTP.StatusCode := 200%Z;
        HTTP.ResponseBody :=
          HTTP.JSON [("status", "success"); ("message", "Notification sent")] |} /\
   dispatches (snd (HTTP.handleNotification HTTP.parseWholeSeconds (Sample.world Sample.t0)
          (Sample.post (Sample.payload (Some "sleep 20") (Some "20s") (Some true))))) = 1) /\
  (HTTP.StatusCode (fst (HTTP.handleNotification HTTP.parseWholeSeconds (Sample.world Sample.t0)
          (Sample.post (Sample.payload (Some "sleep 20") None (Some true))))) = 400%Z /\
   dispatches (snd (HTTP.handleNotification HTTP.parseWholeSeconds (Sample.world Sample.t0)
          (Sample.post (Sample.payload (Some "sleep 20") None (Some true))))) = 0 /\
   existsb isBell (snd (HTTP.handleNotification HTTP.parseWholeSeconds (Sample.world Sample.t0)
          (Sample.post (Sample.payload (Some "sleep 20") None (Some true))))) = false).
Proof.
  split.
  - apply (proj2 (proj2 (proj2
      (C7_notify_endpoint_responses HTTP.parseWholeSeconds (Sample.world Sample.t0)
         (Sample.post (Sample.payload (Some "sleep 20") (Some "20s") (Some true))))))).
    reflexivity.
  - apply (proj1 (proj2
      (C7_notify_endpoint_responses HTTP.parseWholeSeconds (Sample.world Sample.t0)
         (Sample.post (Sample.payload (Some "sleep 20") None (Some true)))))
      (Sample.payload (Some "sleep 20") None (Some true))).
    + reflexivity.
    + reflexivity.
    + right. left. reflexivity.
Defined.

(** The handler run on the specification's example request. *)
Example notify_example_run :
  snd (HTTP.handleNotification HTTP.parseWholeSeconds (Sample.world Sample.t0)
         (Sample.post (Sample.payload (Some "sleep 20") (Some "20s") (Some true)))) =
  [LogReceived "sleep 20" "devbox" 20000000000 true;
   OutBell "CmdBell - Container"
     {| command := "sleep 20"; container := Some "devbox";
        status := "completed"; after := 20000000000 |};
   OutNative "CmdBell - Container"
     {| command := "sleep 20"; container := Some "devbox";
        status := "completed"; after := 20000000000 |} "✅"].
Proof. reflexivity. Qed.

(** C2, as stated, does not hold: the request [{command: "sleep 20",
    container_name: "devbox", duration: "20s"}], which has no [success]
    key, is answered with a notification that reports a failure. *)
Lemma C2_omitted_success_is_reported_as_failure :
  HTTP.json_success (Sample.payload (Some "sleep 20") (Some "20s") None) = None /\
  snd (HTTP.handleNotification HTTP.parseWholeSeconds (Sample.world Sample.t0)
         (Sample.post (Sample.payload (Some "sleep 20") (Some "20s") None))) =
  [LogReceived "sleep 20" "devbox" 20000000000 false;
   OutBell "CmdBell - Container"
     {| command := "sleep 20"; container := Some "devbox";
        status := "failed"; after := 20000000000 |};
   OutNative "CmdBell - Container"
     {| command := "sleep 20"; container := Some "devbox";
        status := "failed"; after := 20000000000 |} "❌"] /\
  ~ (exists title message icon,
       In (OutNative title message icon)
          (snd (HTTP.handleNotification HTTP.parseWholeSeconds (Sample.world Sample.t0)
                  (Sample.post (Sample.payload (Some "sleep 20") (Some "20s") None)))) /\
       status message = "completed").
Proof.
  split; [reflexivity |]. split; [reflexivity |].
  intros (title & message & icon & Hin & Hst).
  simpl in Hin.
  destruct Hin as [H | [H | [H | []]]]; try discriminate.
  injection H as _ <- _. discriminate.
Qed.

(** C2, amended: a POST whose body has a [command] and a [duration] that
    parses but no [success] key is answered with one notification, and
    that notification reports a failure: [Success] keeps the zero value
    [false] of its type. *)
Theorem C2_omitted_success_defaults_to_failure
    (ParseDuration : string -> Duration + string) w r p c s d :
  HTTP.Method r = "POST" ->
  HTTP.RequestBody r = HTTP.Object p ->
  HTTP.json_success p = None ->
  HTTP.json_command p = Some c -> c <> "" ->
  HTTP.json_duration p = Some s -> s <> "" ->
  ParseDuration s = inl d ->
  exists name,
    snd (HTTP.handleNotification ParseDuration w r) =
      LogReceived c name d false ::
      Notifier.sendContainerNotification w c name d false /\
    dispatches (snd (HTTP.handleNotification ParseDuration w r)) = 1 /\
    forall title message icon,
      In (OutNative title message icon) (snd (HTTP.handleNotification ParseDuration w r)) ->
      status message = "failed" /\ icon = "❌".
Proof.
  intros Hm Hb Hok Hc Hce Hs Hse Hd.
  exists (if String.eqb (default "" (HTTP.json_container_name p)) ""
          then "unknown_container" else default "" (HTTP.json_container_name p)).
  assert (snd (HTTP.handleNotification ParseDuration w r) =
      LogReceived c
        (if String.eqb (default "" (HTTP.json_container_name p)) ""
         then "unknown_container" else default "" (HTTP.json_container_name p))
        d false ::
      Notifier.sendContainerNotification w c
        (if String.eqb (default "" (HTTP.json_container_name p)) ""
         then "unknown_container" else default "" (HTTP.json_container_name p))
        d false) as Hout.
  { unfold HTTP.handleNotification. rewrite Hm, Hb. simpl.
    rewrite Hc, Hs, Hok. simpl.
    rewrite (eqb_empty_false c Hce), (eqb_empty_false s Hse), Hd. reflexivity. }
  rewrite Hout. split; [reflexivity |]. split.
  - unfold dispatches. simpl.
    by destruct (Notifier.sendNativeNotification w _ _ _).
  - intros title message icon Hin. simpl in Hin.
    destruct Hin as [H | [H | [H | Hin]]]; try discriminate.
    + by injection H as <- <- <-.
    + destruct (Notifier.sendNativeNotification w _ _ _); simpl in Hin.
      * destruct Hin as [H | []]. discriminate.
      * destruct Hin.
Qed.

Lemma C2_omitted_success_witness :
  exists name,
    snd (HTTP.handleNotification HTTP.parseWholeSeconds (Sample.headless Sample.t0)
           (Sample.post (Sample.payload (Some "sleep 20") (Some "20s") None))) =
      LogReceived "sleep 20" name 20000000000 false ::
      Notifier.sendContainerNotification (Sample.headless Sample.t0)
        "sleep 20" name 20000000000 false /\
    dispatches (snd (HTTP.handleNotification HTTP.parseWholeSeconds (Sample.headless Sample.t0)
           (Sample.post (Sample.payload (Some "sleep 20") (Some "20s") None)))) = 1 /\
    forall title message icon,
      In (OutNative title message icon)
         (snd (HTTP.handleNotification HTTP.parseWholeSeconds (Sample.headless Sample.t0)
                 (Sample.post (Sample.payload (Some "sleep 20") (Some "20s") None)))) ->
      status message = "failed" /\ icon = "❌".
Proof.
  apply (C2_omitted_success_defaults_to_failure HTTP.parseWholeSeconds
           (Sample.headless Sample.t0)
           (Sample.post (Sample.payload (Some "sleep 20") (Some "20s") None))
           (Sample.payload (Some "sleep 20") (Some "20s") None)
           "sleep 20" "20s" 20000000000%Z);
    try reflexivity; discriminate.
Defined.

(** ** The claims about the notifier and the wrapper *)

(** The error of the native backend is the same whether or not the
    commands it runs are recorded. *)
Lemma sendNativeNotification_result w title message icon :
  fst (Alerts.sendNativeNotification w title message icon)
  = Notifier.sendNativeNotification w title message icon.
Proof.
  unfold Alerts.sendNativeNotification, Notifier.sendNativeNotification.
  destruct (String.eqb (GOOS w) "darwin"); [reflexivity |].
  destruct (String.eqb (GOOS w) "linux").
  - unfold Alerts.sendLinuxNotification, Notifier.sendLinuxNotification, Alerts.tryTool.
    destruct (String.eqb (getenv w "DISPLAY") "" && String.eqb (getenv w "WAYLAND_DISPLAY") "");
      [reflexivity |].
    destruct (lookPath w "notify-send"), (runAlert w "notify-send" title message),
      (lookPath w "kdialog"), (runAlert w "kdialog" title message),
      (lookPath w "zenity"), (runAlert w "zenity" title message); reflexivity.
  - destruct (String.eqb (GOOS w) "windows"); reflexivity.
Qed.

(** The alert commands of a trace that holds one call of the backend are
    those of that call. *)
Lemma alertRuns_one_call w title message icon result :
  Alerts.alertRuns w
    (OutBell title message :: OutNative title message icon ::
     match result with Some err => [OutNativeFailed err] | None => [] end)
  = snd (Alerts.sendNativeNotification w title message icon).
Proof. simpl. destruct result; simpl; apply app_nil_r. Qed.

(** The backend of each platform, in terms of what the world answers. *)
Lemma sendNativeNotification_darwin w title message icon :
  GOOS w = "darwin" ->
  Alerts.sendNativeNotification w title message icon
  = (runAlert w "osascript" title message, [Alerts.Ran "osascript" title message]).
Proof. intros H. unfold Alerts.sendNativeNotification. by rewrite H. Qed.

Lemma sendNativeNotification_windows w title message icon :
  GOOS w = "windows" ->
  Alerts.sendNativeNotification w title message icon
  = (runAlert w "powershell" title message, [Alerts.Ran "powershell" title message]).
Proof. intros H. unfold Alerts.sendNativeNotification. by rewrite H. Qed.

Lemma sendNativeNotification_headless w title message icon :
  GOOS w = "linux" ->
  getenv w "DISPLAY" = "" /\ getenv w "WAYLAND_DISPLAY" = "" ->
  Alerts.sendNativeNotification w title message icon
  = (Some "no GUI environment detected (headless mode)", []).
Proof.
  intros H [Hx Hwl].
  unfold Alerts.sendNativeNotification, Alerts.sendLinuxNotification.
  by rewrite H, Hx, Hwl.
Qed.

Lemma sendNativeNotification_desktop w title message icon :
  GOOS w = "linux" ->
  ~ (getenv w "DISPLAY" = "" /\ getenv w "WAYLAND_DISPLAY" = "") ->
  Alerts.sendNativeNotification w title message icon
  = Alerts.tryTool w "notify-send" title message
      (Alerts.tryTool w "kdialog" title message
         (Alerts.tryTool w "zenity" title message
            (Some "no working notification tool found or GUI not available", []))).
Proof.
  intros H Hgui.
  unfold Alerts.sendNativeNotification, Alerts.sendLinuxNotification.
  rewrite H. simpl.
  destruct (String.eqb_spec (getenv w "DISPLAY") "") as [Hx | Hx];
    destruct (String.eqb_spec (getenv w "WAYLAND_DISPLAY") "") as [Hwl | Hwl];
    simpl; try reflexivity.
  by destruct Hgui.
Qed.

Lemma sendNativeNotification_unsupported w title message icon :
  GOOS w <> "darwin" -> GOOS w <> "linux" -> GOOS w <> "windows" ->
  Alerts.sendNativeNotification w title message icon
  = (Some ("unsupported operating system: " ++ GOOS w)%string, []).
Proof.
  intros Hd Hl Hw. unfold Alerts.sendNativeNotification.
  destruct (String.eqb_spec (GOOS w) "darwin"); [done |].
  destruct (String.eqb_spec (GOOS w) "linux"); [done |].
  by destruct (String.eqb_spec (GOOS w) "windows").
Qed.

(** One call of the backend runs at most three alert commands. *)
Lemma sendNativeNotification_at_most_three w title message icon :
  length (snd (Alerts.sendNativeNotification w title message icon)) <= 3.
Proof.
  unfold Alerts.sendNativeNotification.
  destruct (String.eqb (GOOS w) "darwin"); [simpl; lia |].
  destruct (String.eqb (GOOS w) "linux").
  - unfold Alerts.sendLinuxNotification, Alerts.tryTool.
    destruct (String.eqb (getenv w "DISPLAY") "" && String.eqb (getenv w "WAYLAND_DISPLAY") "");
      [simpl; lia |].
    destruct (lookPath w "notify-send"), (runAlert w "notify-send" title message),
      (lookPath w "kdialog"), (runAlert w "kdialog" title message),
      (lookPath w "zenity"), (runAlert w "zenity" title message); simpl; lia.
  - destruct (String.eqb (GOOS w) "windows"); simpl; lia.
Qed.

(** C8, as stated, does not hold of the alert commands.  On a KDE
    desktop where [notify-send] is installed but fails, one notification
    runs two alert commands, [notify-send] and then [kdialog]; on a Linux
    machine without a display it runs none.  So the number of alert
    commands of a notification is not always one. *)
Lemma C8_a_notification_runs_two_alert_commands_or_none :
  Alerts.alertRuns Fixture.kde
    (Notifier.sendNotification Fixture.kde "make" (42 * Second) true)
  = [Alerts.Ran "notify-send" "CmdBell"
       {| command := "make"; container := None; status := "completed";
          after := 42 * Second |};
     Alerts.Ran "kdialog" "CmdBell"
       {| command := "make"; container := None; status := "completed";
          after := 42 * Second |}] /\
  Alerts.alertRuns (Sample.headless Sample.t0)
    (Notifier.sendContainerNotification (Sample.headless Sample.t0)
       "make" "devbox" (42 * Second) true)
  = [] /\
  ~ (forall w cmd d ok,
       length (Alerts.alertRuns w (Notifier.sendNotification w cmd d ok)) = 1) /\
  ~ (forall w cmd name d ok,
       length (Alerts.alertRuns w (Notifier.sendContainerNotification w cmd name d ok)) = 1).
Proof.
  split; [reflexivity |]. split; [reflexivity |]. split.
  - intros H. specialize (H Fixture.kde "make" (42 * Second)%Z true). discriminate H.
  - intros H.
    specialize (H (Sample.headless Sample.t0) "make" "devbox" (42 * Second)%Z true).
    discriminate H.
Qed.

(** C8, amended: both notifier functions write the console line first and
    then call the native backend once, with the same title and message;
    an error of that call is printed and nothing else comes of it.  The
    one call runs exactly one alert command on macOS ([osascript]) and on
    Windows ([powershell]), whose error is the call's.  On Linux it runs
    none when neither [DISPLAY] nor [WAYLAND_DISPLAY] is set; otherwise it
    runs, of [notify-send], [kdialog] and [zenity] in this order, those
    that are installed, up to the first that succeeds, and fails only when
    none of them does.  On any other platform it runs none and fails.  A
    notification never runs more than three alert commands.  The notifier
    functions return nothing, and what their callers return does not
    depend on the backend: the working set after a die fact, the HTTP
    response and the wrapper's way of ending are the same in any two
    worlds. *)
Theorem C8_alert_commands_of_a_notification
    (ParseDuration : string -> Duration + string)
    w w' cmd (place : option string) d (ok : bool) cfg event m r args start run :
  let title :=
    match place with Some _ => "CmdBell - Container" | None => "CmdBell" end in
  let message :=
    {| command := cmd; container := place;
       status := if ok then "completed" else "failed";
       after := Round d Second |} in
  let icon := if ok then "✅" else "❌" in
  let out :=
    match place with
    | Some name => Notifier.sendContainerNotification w cmd name d ok
    | None => Notifier.sendNotification w cmd d ok
    end in
  let ran := fun tool => Alerts.Ran tool title message in
  let works := fun tool =>
    lookPath w tool &&
    match runAlert w tool title message with None => true | Some _ => false end in
  (exists result,
     out = OutBell title message :: OutNative title message icon ::
           match result with Some err => [OutNativeFailed err] | None => [] end /\
     (GOOS w = "darwin" ->
      result = runAlert w "osascript" title message /\
      Alerts.alertRuns w out = [ran "osascript"]) /\
     (GOOS w = "windows" ->
      result = runAlert w "powershell" title message /\
      Alerts.alertRuns w out = [ran "powershell"]) /\
     (GOOS w = "linux" ->
      getenv w "DISPLAY" = "" /\ getenv w "WAYLAND_DISPLAY" = "" ->
      result = Some "no GUI environment detected (headless mode)" /\
      Alerts.alertRuns w out = []) /\
     (GOOS w = "linux" ->
      ~ (getenv w "DISPLAY" = "" /\ getenv w "WAYLAND_DISPLAY" = "") ->
      result =
        (if works "notify-send" || works "kdialog" || works "zenity" then None
         else Some "no working notification tool found or GUI not available") /\
      Alerts.alertRuns w out =
        (if lookPath w "notify-send" then [ran "notify-send"] else []) ++
        (if negb (works "notify-send") && lookPath w "kdialog"
         then [ran "kdialog"] else []) ++
        (if negb (works "notify-send") && negb (works "kdialog") && lookPath w "zenity"
         then [ran "zenity"] else [])) /\
     (GOOS w <> "darwin" -> GOOS w <> "linux" -> GOOS w <> "windows" ->
      result = Some ("unsupported operating system: " ++ GOOS w)%string /\
      Alerts.alertRuns w out = [])) /\
  dispatches out = 1 /\
  length (Alerts.alertRuns w out) <= 3 /\
  fst (Docker.handleExecDie cfg
         {| now := now w; inspectName := inspectName w; GOOS := GOOS w';
            getenv := getenv w'; lookPath := lookPath w'; runAlert := runAlert w' |}
         event m)
    = fst (Docker.handleExecDie cfg w event m) /\
  fst (HTTP.handleNotification ParseDuration w' r)
    = fst (HTTP.handleNotification ParseDuration w r) /\
  snd (Main.executeCommand args start run w')
    = snd (Main.executeCommand args start run w).
Proof.
  intros title message icon out ran works.
  assert (out = OutBell title message :: OutNative title message icon ::
                match Notifier.sendNativeNotification w title message icon with
                | Some err => [OutNativeFailed err]
                | None => []
                end) as Hout by (by destruct place).
  assert (Alerts.alertRuns w out
          = snd (Alerts.sendNativeNotification w title message icon)) as Hruns
    by (rewrite Hout; apply alertRuns_one_call).
  split; [| split; [| split; [| split; [| split]]]].
  - exists (Notifier.sendNativeNotification w title message icon).
    split; [exact Hout |].
    rewrite Hruns, <- sendNativeNotification_result.
    split; [| split; [| split; [| split]]].
    + intros H. by rewrite (sendNativeNotification_darwin _ _ _ _ H).
    + intros H. by rewrite (sendNativeNotification_windows _ _ _ _ H).
    + intros H Hno. by rewrite (sendNativeNotification_headless _ _ _ _ H Hno).
    + intros H Hgui. rewrite (sendNativeNotification_desktop _ _ _ _ H Hgui).
      unfold Alerts.tryTool, works, ran.
      destruct (lookPath w "notify-send"), (runAlert w "notify-send" title message),
        (lookPath w "kdialog"), (runAlert w "kdialog" title message),
        (lookPath w "zenity"), (runAlert w "zenity" title message);
        split; reflexivity.
    + intros Hd Hl Hw. by rewrite (sendNativeNotification_unsupported _ _ _ _ Hd Hl Hw).
  - subst out. destruct place.
    + apply sendContainerNotification_dispatches.
    + apply sendNotification_dispatches.
  - rewrite Hruns. apply sendNativeNotification_at_most_three.
  - unfold Docker.handleExecDie.
    by destruct (m !! Docker.attribute event "execID").
  - unfold HTTP.handleNotification.
    destruct (negb _); [done |].
    destruct (HTTP.Decode _) as [req | err]; [| done].
    destruct (String.eqb (HTTP.Command req) ""); [done |].
    destruct (String.eqb (HTTP.Duration_ req) ""); [done |].
    by destruct (ParseDuration _).
  - unfold Main.executeCommand.
    by destruct args as [| self [| c rest]].
Qed.

(** One notification on the KDE desktop, where [notify-send] fails and
    [kdialog] works, and one on the Mac, where [osascript] fails. *)
Lemma C8_alert_commands_witness :
  (Notifier.sendNotification Fixture.kde "make" (42 * Second) true
   = [OutBell "CmdBell"
        {| command := "make"; container := None; status := "completed";
           after := 42 * Second |};
      OutNative "CmdBell"
        {| command := "make"; container := None; status := "completed";
           after := 42 * Second |} "✅"] /\
   Alerts.alertRuns Fixture.kde
     (Notifier.sendNotification Fixture.kde "make" (42 * Second) true)
   = [Alerts.Ran "notify-send" "CmdBell"
        {| command := "make"; container := None; status := "completed";
           after := 42 * Second |};
      Alerts.Ran "kdialog" "CmdBell"
        {| command := "make"; container := None; status := "completed";
           after := 42 * Second |}]) /\
  (Notifier.sendContainerNotification Fixture.mac "make" "devbox" (42 * Second) false
   = [OutBell "CmdBell - Container"
        {| command := "make"; container := Some "devbox"; status := "failed";
           after := 42 * Second |};
      OutNative "CmdBell - Container"
        {| command := "make"; container := Some "devbox"; status := "failed";
           after := 42 * Second |} "❌";
      OutNativeFailed "exit status 1"] /\
   Alerts.alertRuns Fixture.mac
     (Notifier.sendContainerNotification Fixture.mac "make" "devbox" (42 * Second) false)
   = [Alerts.Ran "osascript" "CmdBell - Container"
        {| command := "make"; container := Some "devbox"; status := "failed";
           after := 42 * Second |}]).
Proof.
  split.
  - destruct (proj1 (C8_alert_commands_of_a_notification HTTP.parseWholeSeconds
        Fixture.kde Fixture.kde "make" None (42 * Second)%Z true
        (Some getDefaultConfig) (Sample.execEvent "exec_die" "c1" Sample.e1 "0") ∅
        (Sample.post (Sample.payload (Some "make") (Some "42s") None))
        ["cmdbell"; "make"] Fixture.kde None))
      as (result & Hout & _ & _ & _ & Hdesktop & _).
    assert (GOOS Fixture.kde = "linux") as Hos by reflexivity.
    assert (~ (getenv Fixture.kde "DISPLAY" = "" /\
               getenv Fixture.kde "WAYLAND_DISPLAY" = "")) as Hgui
      by (intros [_ H]; discriminate H).
    destruct (Hdesktop Hos Hgui) as [Hres Hruns].
    split; [| exact Hruns].
    rewrite Hres in Hout. exact Hout.
  - destruct (proj1 (C8_alert_commands_of_a_notification HTTP.parseWholeSeconds
        Fixture.mac Fixture.mac "make" (Some "devbox") (42 * Second)%Z false
        (Some getDefaultConfig) (Sample.execEvent "exec_die" "c1" Sample.e1 "0") ∅
        (Sample.post (Sample.payload (Some "make") (Some "42s") None))
        ["cmdbell"; "make"] Fixture.mac None))
      as (result & Hout & Hdarwin & _).
    assert (GOOS Fixture.mac = "darwin") as Hos by reflexivity.
    destruct (Hdarwin Hos) as [Hres Hruns].
    split; [| exact Hruns].
    rewrite Hres in Hout. exact Hout.
Defined.

(** The Linux backend falls back from [notify-send] to [kdialog]. *)
Example linux_fallback :
  Notifier.sendNativeNotification
    {| now := Sample.t0;
       inspectName := inspectName (Sample.world Sample.t0);
       GOOS := "linux";
       getenv := fun name => if String.eqb name "WAYLAND_DISPLAY" then "wayland-0" else "";
       lookPath := fun tool => negb (String.eqb tool "zenity");
       runAlert := fun tool _ _ =>
         if String.eqb tool "kdialog" then None else Some "exit status 1" |}
    "CmdBell"
    {| command := "make"; container := None; status := "completed"; after := 42 * Second |}
    "✅" = None.
Proof. reflexivity. Qed.

(** A platform without a backend. *)
Example unsupported_platform :
  Notifier.sendNativeNotification
    {| now := Sample.t0;
       inspectName := inspectName (Sample.world Sample.t0);
       GOOS := "plan9";
       getenv := fun _ => "";
       lookPath := fun _ => false;
       runAlert := fun _ _ _ => None |}
    "CmdBell"
    {| command := "make"; container := None; status := "completed"; after := 42 * Second |}
    "✅" = Some "unsupported operating system: plan9".
Proof. reflexivity. Qed.

(** The notifier on a machine without a display. *)
Example headless_notification :
  Notifier.sendNotification (Sample.headless Sample.t0) "make" (42 * Second + 1) false =
  [OutBell "CmdBell"
     {| command := "make"; container := None; status := "failed";
        after := 42 * Second |};
   OutNative "CmdBell"
     {| command := "make"; container := None; status := "failed";
        after := 42 * Second |} "❌";
   OutNativeFailed "no GUI environment detected (headless mode)"].
Proof. reflexivity. Qed.

(** C10: the wrapper ends with status 0 when [cmd.Run()] reports no error
    and with status 1 when it reports one, whatever the child's own exit
    code was.  When the child failed and ran for at least [MIN_DURATION],
    the wrapper has, before it calls [os.Exit(1)], written the console
    line of a notification with status [failed] and called the native
    backend once with that message and the failure icon; the alert
    commands run by then are those of that one call in the world in which
    the child ended (on macOS: [osascript] once), and an error of the
    call adds one console line.  When the child failed sooner, the
    wrapper exits with status 1 without any notification. *)
Theorem C10_wrapper_exit_status self cmd rest start run finish :
  Main.exitStatus (snd (Main.executeCommand (self :: cmd :: rest) start run finish))
    = (match run with None => 0 | Some _ => 1 end)%Z /\
  (forall code,
     Main.exitStatus
       (snd (Main.executeCommand (self :: cmd :: rest) start
               (Some (Main.ExitError code)) finish)) = 1%Z) /\
  (forall e,
     run = Some e ->
     (MIN_DURATION <= Since (now finish) (now start))%Z ->
     Main.executeCommand (self :: cmd :: rest) start run finish =
       (OutExecuting cmd rest ::
        Notifier.sendNotification finish cmd (Since (now finish) (now start)) false,
        Main.OsExit 1)) /\
  (forall e,
     run = Some e ->
     (MIN_DURATION <= Since (now finish) (now start))%Z ->
     let message :=
       {| command := cmd; container := None; status := "failed";
          after := Round (Since (now finish) (now start)) Second |} in
     exists result,
       Main.executeCommand (self :: cmd :: rest) start run finish =
         (OutExecuting cmd rest ::
          OutBell "CmdBell" message ::
          OutNative "CmdBell" message "❌" ::
          match result with Some err => [OutNativeFailed err] | None => [] end,
          Main.OsExit 1) /\
       result = fst (Alerts.sendNativeNotification finish "CmdBell" message "❌") /\
       Alerts.alertRuns finish
         (fst (Main.executeCommand (self :: cmd :: rest) start run finish))
       = snd (Alerts.sendNativeNotification finish "CmdBell" message "❌") /\
       dispatches (fst (Main.executeCommand (self :: cmd :: rest) start run finish)) = 1 /\
       (GOOS finish = "darwin" ->
        result = runAlert finish "osascript" "CmdBell" message /\
        Alerts.alertRuns finish
          (fst (Main.executeCommand (self :: cmd :: rest) start run finish))
        = [Alerts.Ran "osascript" "CmdBell" message])) /\
  (forall e,
     run = Some e ->
     (Since (now finish) (now start) < MIN_DURATION)%Z ->
     Main.executeCommand (self :: cmd :: rest) start run finish =
       ([OutExecuting cmd rest], Main.OsExit 1)).
Proof.
  split; [| split; [| split; [| split]]].
  - by destruct run.
  - reflexivity.
  - intros e -> Hd. unfold Main.executeCommand.
    apply Z.leb_le in Hd. by rewrite Hd.
  - intros e -> Hd message.
    assert (Main.executeCommand (self :: cmd :: rest) start (Some e) finish =
            (OutExecuting cmd rest ::
             OutBell "CmdBell" message ::
             OutNative "CmdBell" message "❌" ::
             match Notifier.sendNativeNotification finish "CmdBell" message "❌" with
             | Some err => [OutNativeFailed err]
             | None => []
             end,
             Main.OsExit 1)) as Hrun.
    { unfold Main.executeCommand. apply Z.leb_le in Hd. by rewrite Hd. }
    assert (Alerts.alertRuns finish
              (fst (Main.executeCommand (self :: cmd :: rest) start (Some e) finish))
            = snd (Alerts.sendNativeNotification finish "CmdBell" message "❌")) as Hruns.
    { rewrite Hrun.
      change (Alerts.alertRuns finish
                (OutBell "CmdBell" message :: OutNative "CmdBell" message "❌" ::
                 match Notifier.sendNativeNotification finish "CmdBell" message "❌" with
                 | Some err => [OutNativeFailed err]
                 | None => []
                 end)
              = snd (Alerts.sendNativeNotification finish "CmdBell" message "❌")).
      apply alertRuns_one_call. }
    exists (Notifier.sendNativeNotification finish "CmdBell" message "❌").
    split; [exact Hrun |].
    split; [symmetry; apply sendNativeNotification_result |].
    split; [exact Hruns |].
    split.
    + rewrite Hrun. simpl.
      by destruct (Notifier.sendNativeNotification finish "CmdBell" message "❌").
    + intros Hos. rewrite Hruns, <- sendNativeNotification_result.
      by rewrite (sendNativeNotification_darwin _ _ _ _ Hos).
  - intros e -> Hd. unfold Main.executeCommand.
    apply Z.ltb_lt in Hd. rewrite Z.leb_antisym, Hd. reflexivity.
Qed.

(** [cmdbell make test] where [make] runs for twenty seconds and exits
    with status 2, on a Mac on which [osascript] fails. *)
Lemma C10_wrapper_exit_status_witness :
  Main.executeCommand ["cmdbell"; "make"; "test"] (Sample.world Sample.t0)
    (Some (Main.ExitError 2)) Fixture.macLater =
    ([OutExecuting "make" ["test"];
      OutBell "CmdBell"
        {| command := "make"; container := None; status := "failed";
           after := 20 * Second |};
      OutNative "CmdBell"
        {| command := "make"; container := None; status := "failed";
           after := 20 * Second |} "❌";
      OutNativeFailed "exit status 1"],
     Main.OsExit 1) /\
  Alerts.alertRuns Fixture.macLater
    (fst (Main.executeCommand ["cmdbell"; "make"; "test"] (Sample.world Sample.t0)
            (Some (Main.ExitError 2)) Fixture.macLater))
  = [Alerts.Ran "osascript" "CmdBell"
       {| command := "make"; container := None; status := "failed";
          after := 20 * Second |}].
Proof.
  assert (Some (Main.ExitError 2) = Some (Main.ExitError 2)) as Hfailed by reflexivity.
  assert (MIN_DURATION <= Since (now Fixture.macLater) (now (Sample.world Sample.t0)))%Z
    as Hlong by (vm_compute; discriminate).
  destruct (proj1 (proj2 (proj2 (proj2 (C10_wrapper_exit_status "cmdbell" "make" ["test"]
             (Sample.world Sample.t0) (Some (Main.ExitError 2)) Fixture.macLater))))
             (Main.ExitError 2) Hfailed Hlong)
    as (result & Hrun & _ & _ & _ & Hdarwin).
  assert (GOOS Fixture.macLater = "darwin") as Hos by reflexivity.
  destruct (Hdarwin Hos) as [Hres Hruns].
  split; [| exact Hruns].
  rewrite Hres in Hrun. exact Hrun.
Defined.

(** The wrapper run on that command. *)
Example wrapper_run :
  Main.executeCommand ["cmdbell"; "make"; "test"] (Sample.world Sample.t0)
    (Some (Main.ExitError 2)) (Sample.world (Sample.later 20)) =
  ([OutExecuting "make" ["test"];
    OutBell "CmdBell"
      {| command := "make"; container := None; status := "failed";
         after := 20 * Second |};
    OutNative "CmdBell"
      {| command := "make"; container := None; status := "failed";
         after := 20 * Second |} "❌"],
   Main.OsExit 1).
Proof. reflexivity. Qed.

(** ** The policy gate across the three sources *)

(** C1, as stated, does not hold.  Under the default configuration (15 s,
    notifications enabled) a duration of one second does not pass
    [ShouldNotify], and the HTTP path notifies all the same; with
    notifications disabled in the configuration a command of twenty
    seconds does not pass [ShouldNotify], and the local path notifies all
    the same. *)
Lemma C1_gate_differs_between_sources :
  (ShouldNotify (1 * Second) getDefaultConfig = false /\
   HTTP.parseWholeSeconds "1s" = inl (1 * Second)%Z /\
   dispatches (snd (HTTP.handleNotification HTTP.parseWholeSeconds (Sample.world Sample.t0)
      (Sample.post (Sample.payload (Some "sleep 1") (Some "1s") (Some true))))) = 1) /\
  (ShouldNotify (20 * Second) Sample.silenced = false /\
   Since (Sample.later 20) Sample.t0 = (20 * Second)%Z /\
   dispatches (fst (Main.executeCommand ["cmdbell"; "sleep"; "20"]
      (Sample.world Sample.t0) None (Sample.world (Sample.later 20)))) = 1).
Proof. repeat split; reflexivity. Qed.

(** C1, amended: each source has its own gate.  The Docker path dispatches
    exactly when a configuration is loaded and the duration passes
    [ShouldNotify] for it; the local path dispatches exactly when the
    duration is at least the constant [MIN_DURATION] of fifteen seconds,
    whatever the configuration; the HTTP path dispatches once for every
    well-formed request, whatever its duration and the configuration. *)
Theorem C1_each_source_has_its_own_gate
    (ParseDuration : string -> Duration + string)
    globalConfig w event (m : gmap string Docker.ContainerExecInfo) info
    self cmd rest start run finish r :
  m !! Docker.attribute event "execID" = Some info ->
  HTTP.wellFormed ParseDuration r = true ->
  (0 < dispatches (snd (Docker.handleExecDie globalConfig w event m)) <->
   exists c, globalConfig = Some c /\
             ShouldNotify (Since (now w) (Docker.StartTime info)) c = true) /\
  (0 < dispatches (fst (Main.executeCommand (self :: cmd :: rest) start run finish)) <->
   (MIN_DURATION <= Since (now finish) (now start))%Z) /\
  dispatches (snd (HTTP.handleNotification ParseDuration w r)) = 1.
Proof.
  intros Hm Hwf. split; [| split].
  - rewrite (handleExecDie_dispatches _ _ _ _ _ Hm).
    destruct globalConfig as [c |].
    + rewrite gate_loaded. destruct (ShouldNotify _ c) eqn:Hs; split.
      * intros _. by exists c.
      * intros _. lia.
      * intros H. lia.
      * intros (c' & Hc & Hs'). injection Hc as <-. congruence.
    + simpl. split; [lia |]. by intros (c & Hc & _).
  - unfold Main.executeCommand. simpl.
    destruct (MIN_DURATION <=? Since (now finish) (now start))%Z eqn:Hd.
    + apply Z.leb_le in Hd. unfold dispatches. simpl.
      destruct (Notifier.sendNativeNotification finish _ _ _); simpl; split; intros; lia.
    + apply Z.leb_gt in Hd. unfold dispatches. simpl. split; intros; lia.
  - destruct (handleNotification_accepts ParseDuration w r Hwf) as (req & d & _ & _ & ->).
    simpl. unfold dispatches. simpl.
    by destruct (Notifier.sendNativeNotification w _ _ _).
Qed.

(** A running record, a command of twenty seconds, and the request of the
    specification's example. *)
Lemma C1_each_source_witness :
  (0 < dispatches (snd (Docker.handleExecDie (Some getDefaultConfig)
          (Sample.world (Sample.later 20))
          (Sample.execEvent "exec_die" "c1" Sample.e1 "0")
          {[ Sample.e1 := Sample.record Sample.t0 ]})) <->
   exists c, Some getDefaultConfig = Some c /\
             ShouldNotify (Since (now (Sample.world (Sample.later 20)))
                             (Docker.StartTime (Sample.record Sample.t0))) c = true) /\
  (0 < dispatches (fst (Main.executeCommand ["cmdbell"; "sleep"; "20"]
          (Sample.world Sample.t0) None (Sample.world (Sample.later 20)))) <->
   (MIN_DURATION <= Since (now (Sample.world (Sample.later 20)))
                      (now (Sample.world Sample.t0)))%Z) /\
  dispatches (snd (HTTP.handleNotification HTTP.parseWholeSeconds
          (Sample.world (Sample.later 20))
          (Sample.post (Sample.payload (Some "sleep 20") (Some "20s") (Some true))))) = 1.
Proof.
  apply (C1_each_source_has_its_own_gate HTTP.parseWholeSeconds
           (Some getDefaultConfig) (Sample.world (Sample.later 20))
           (Sample.execEvent "exec_die" "c1" Sample.e1 "0")
           {[ Sample.e1 := Sample.record Sample.t0 ]}
           (Sample.record Sample.t0)
           "cmdbell" "sleep" ["20"]
           (Sample.world Sample.t0) None (Sample.world (Sample.later 20))
           (Sample.post (Sample.payload (Some "sleep 20") (Some "20s") (Some true)))).
  - reflexivity.
  - reflexivity.
Defined.

(** ** Further properties of the Docker exec correlator *)

Section CorrelatorFrame.

Import Docker Correlation.

Implicit Types (m : gmap string ContainerExecInfo) (w : World)
  (event : DockerEvent) (line : Line) (id : string).

(** A line leaves the records of the executions it is not about alone. *)
Lemma handleLine_frame cfg w line m m' out id :
  handleLine cfg w line m = (Returned m', out) ->
  lineExecID line <> Some id ->
  m' !! id = m !! id.
Proof.
  intros Hstep Hne.
  destruct line as [err | event]; simpl in *.
  { by injection Hstep as <- _. }
  assert (attribute event "execID" <> id) as Hid by congruence.
  rewrite handleEvent_fact in Hstep. simpl in Hstep.
  destruct (if HasPrefix (Action event) "exec_create:" then Some FCreate
            else if HasPrefix (Action event) "exec_start:" then Some FStart
            else if String.eqb (Action event) "exec_die" then Some FDie
            else None) as [[| |] |].
  - unfold handleExecCreate in Hstep.
    destruct (inspectName w (ID event)).
    + destruct (sliceTo 12 _); [| discriminate].
      injection Hstep as <- _. by rewrite lookup_insert_ne.
    + by injection Hstep as <- _.
  - injection Hstep as <- _. unfold handleExecStart.
    destruct (m !! attribute event "execID"); simpl; [| done].
    by rewrite lookup_insert_ne.
  - injection Hstep as <- _. unfold handleExecDie.
    destruct (m !! attribute event "execID"); simpl; [| done].
    by rewrite lookup_delete_ne.
  - by injection Hstep as <- _.
Qed.

(** X1: whatever a stream does, it changes no record of an execution that
    none of its lines is about: facts are correlated by [execID] alone. *)
Theorem X1_other_executions_are_untouched cfg lines m m' journal id :
  eventLoop cfg lines m = (Returned m', journal) ->
  Forall (fun line => lineExecID line <> Some id) (map snd lines) ->
  m' !! id = m !! id.
Proof.
  revert m journal.
  induction lines as [| [w line] rest IH]; intros m journal Hrun Hall.
  { simpl in Hrun. by injection Hrun as <- _. }
  simpl in Hrun, Hall. apply Forall_cons in Hall as [Hline Hrest].
  destruct (handleLine cfg w line m) as [[m1 | reason] out] eqn:Hstep;
    [| discriminate].
  destruct (eventLoop cfg rest m1) as [r j] eqn:Hloop.
  injection Hrun as -> _.
  rewrite (IH _ _ Hloop Hrest).
  by apply (handleLine_frame _ _ _ _ _ _ _ Hstep).
Qed.

(** Execution [e2] is created and started beside the running [e1]. *)
Lemma X1_other_executions_witness :
  (<[ Sample.e2 := Sample.record (Sample.later 1) ]>
     {[ Sample.e1 := Sample.record Sample.t0 ]} : gmap string ContainerExecInfo)
    !! Sample.e1 =
  ({[ Sample.e1 := Sample.record Sample.t0 ]} : gmap string ContainerExecInfo)
    !! Sample.e1.
Proof.
  apply (X1_other_executions_are_untouched (Some getDefaultConfig)
           [(Sample.world Sample.t0, Sample.create "c1" Sample.e2);
            (Sample.world (Sample.later 1), Sample.start "c1" Sample.e2)]
           {[ Sample.e1 := Sample.record Sample.t0 ]}
           (<[ Sample.e2 := Sample.record (Sample.later 1) ]>
              {[ Sample.e1 := Sample.record Sample.t0 ]})
           (snd (eventLoop (Some getDefaultConfig)
              [(Sample.world Sample.t0, Sample.create "c1" Sample.e2);
               (Sample.world (Sample.later 1), Sample.start "c1" Sample.e2)]
              {[ Sample.e1 := Sample.record Sample.t0 ]}))
           Sample.e1).
  - vm_compute. reflexivity.
  - repeat constructor; discriminate.
Defined.

(** X2: a create fact whose container name resolves stores a fresh record
    under its [execID], whatever was stored there before: the record has
    the zero start time, every other record is as it was, and the working
    set grows by one exactly when the identifier was new. *)
Theorem X2_create_overwrites_the_record w event m output :
  inspectName w (ID event) = inl output ->
  12 <= String.length (attribute event "execID") ->
  exists m' info,
    fst (handleExecCreate w event m) = Returned m' /\
    m' !! attribute event "execID" = Some info /\
    ContainerID info = ID event /\
    ContainerName info = TrimPrefix (TrimSpace output) "/" /\
    Command info = commandLabel (Action event) /\
    StartTime info = zeroTime /\
    (forall id, id <> attribute event "execID" -> m' !! id = m !! id) /\
    size m' = (if bool_decide (is_Some (m !! attribute event "execID"))
               then size m else S (size m)).
Proof.
  intros Hname Hlong.
  destruct (sliceTo_long 12 _ Hlong) as [short Hshort].
  unfold handleExecCreate. rewrite Hname, Hshort. simpl.
  eexists _, _. split; [reflexivity |].
  split; [apply lookup_insert_eq |].
  repeat split.
  - intros id Hid. by rewrite lookup_insert_ne.
  - case_bool_decide as Hin.
    + by rewrite map_size_insert_Some.
    + rewrite map_size_insert_None; [done |]. by apply eq_None_not_Some.
Qed.

(** A second create fact for an execution that is already running. *)
Lemma X2_create_overwrites_witness :
  exists m' info,
    fst (handleExecCreate (Sample.world (Sample.later 5))
           (Sample.execEvent "exec_create: sleep 17" "c1" Sample.e1 "")
           {[ Sample.e1 := Sample.record Sample.t0 ]}) = Returned m' /\
    m' !! attribute (Sample.execEvent "exec_create: sleep 17" "c1" Sample.e1 "") "execID"
      = Some info /\
    ContainerID info = ID (Sample.execEvent "exec_create: sleep 17" "c1" Sample.e1 "") /\
    ContainerName info = TrimPrefix (TrimSpace "/devbox ") "/" /\
    Command info = commandLabel (Action (Sample.execEvent "exec_create: sleep 17" "c1" Sample.e1 "")) /\
    StartTime info = zeroTime /\
    (forall id,
       id <> attribute (Sample.execEvent "exec_create: sleep 17" "c1" Sample.e1 "") "execID" ->
       m' !! id =
       ({[ Sample.e1 := Sample.record Sample.t0 ]} : gmap string ContainerExecInfo) !! id) /\
    size m' =
      (if bool_decide (is_Some
            (({[ Sample.e1 := Sample.record Sample.t0 ]} : gmap string ContainerExecInfo)
               !! attribute (Sample.execEvent "exec_create: sleep 17" "c1" Sample.e1 "") "execID"))
       then size ({[ Sample.e1 := Sample.record Sample.t0 ]} : gmap string ContainerExecInfo)
       else S (size ({[ Sample.e1 := Sample.record Sample.t0 ]}
                       : gmap string ContainerExecInfo))).
Proof.
  apply (X2_create_overwrites_the_record (Sample.world (Sample.later 5))
           (Sample.execEvent "exec_create: sleep 17" "c1" Sample.e1 "")
           {[ Sample.e1 := Sample.record Sample.t0 ]} "/devbox ").
  - reflexivity.
  - vm_compute. lia.
Defined.

End CorrelatorFrame.

Section CorrelatorLifecycle.

Import Docker Correlation.

Implicit Types (m : gmap string ContainerExecInfo) (w : World)
  (event : DockerEvent) (line : Line) (id : string).



Lemma commandLabel_create c :
  commandLabel ("exec_create: " ++ c)%string = c.
Proof. unfold commandLabel, Index. destruct c; reflexivity. Qed.

(** X4: the command a create fact records is everything after the first
    colon-and-space of its action, further colons included. *)
Theorem X4_command_is_the_text_after_the_action w event m output c :
  Action event = ("exec_create: " ++ c)%string ->
  inspectName w (ID event) = inl output ->
  12 <= String.length (attribute event "execID") ->
  exists m' info,
    fst (handleEvent None w event m) = Returned m' /\
    m' !! attribute event "execID" = Some info /\
    Command info = c.
Proof.
  intros Ha Hname Hlong.
  destruct (sliceTo_long 12 _ Hlong) as [short Hshort].
  unfold handleEvent. rewrite Ha.
  change (HasPrefix ("exec_create: " ++ c) "exec_create:") with true.
  cbn iota. unfold handleExecCreate. rewrite Hname, Hshort, Ha.
  fold (commandLabel ("exec_create: " ++ c)). rewrite commandLabel_create.
  eexists _, _. split; [reflexivity |].
  split; [apply lookup_insert_eq |]. reflexivity.
Qed.

(** A command that has a colon-and-space of its own. *)
Lemma X4_command_witness :
  exists m' info,
    fst (handleEvent None (Sample.world Sample.t0)
           (Sample.execEvent "exec_create: sh -c echo a: b" "c1" Sample.e1 "") ∅)
      = Returned m' /\
    m' !! attribute (Sample.execEvent "exec_create: sh -c echo a: b" "c1" Sample.e1 "") "execID"
      = Some info /\
    Command info = "sh -c echo a: b".
Proof.
  apply (X4_command_is_the_text_after_the_action (Sample.world Sample.t0)
           (Sample.execEvent "exec_create: sh -c echo a: b" "c1" Sample.e1 "")
           ∅ "/devbox " "sh -c echo a: b").
  - reflexivity.
  - reflexivity.
  - vm_compute. lia.
Defined.

Lemma createCount_app fs1 fs2 :
  createCount (fs1 ++ fs2) = createCount fs1 + createCount fs2.
Proof.
  induction fs1 as [| f fs1 IH]; [reflexivity |].
  destruct f; simpl; by rewrite IH.
Qed.

(** What one line adds to the notifications of execution [id] and to its
    presence in the working set is paid for by a create fact of [id]. *)
Lemma handleLine_budget cfg w line m r out id :
  handleLine cfg w line m = (r, out) ->
  (if bool_decide (lineExecID line = Some id) then dispatches out else 0)
  + holdsRecord r id
  <= createCount (factsFor id [line]) + holdsRecord (Returned m) id.
Proof.
  intros Hstep.
  destruct (decide (lineExecID line = Some id)) as [Hid | Hid].
  - rewrite bool_decide_eq_true_2 by done.
    destruct line as [err | event]; [discriminate |].
    injection Hid as Hid. simpl in Hstep.
    rewrite handleEvent_fact in Hstep.
    simpl. unfold lineExecID. rewrite Hid.
    rewrite bool_decide_eq_true_2 by done.
    destruct (factOf (Parsed event)) as [[| |] |] eqn:Hf;
      simpl in Hf; rewrite Hf in *; simpl.
    + unfold handleExecCreate in Hstep.
      destruct (inspectName w (ID event)).
      * destruct (sliceTo 12 _); injection Hstep as <- <-; simpl.
        -- unfold dispatches; simpl. case_bool_decide; case_bool_decide; lia.
        -- unfold dispatches; simpl. case_bool_decide; lia.
      * injection Hstep as <- <-. unfold dispatches; simpl. lia.
    + injection Hstep as <- <-. unfold handleExecStart. rewrite Hid.
      destruct (m !! id) as [info |] eqn:Hm; simpl.
      * case_bool_decide; lia.
      * rewrite Hm. unfold dispatches; simpl. lia.
    + injection Hstep as <- <-.
      destruct (m !! id) as [info |] eqn:Hm.
      * rewrite (handleExecDie_dispatches cfg w event m info) by (by rewrite Hid).
        rewrite (handleExecDie_known cfg w event m info) by (by rewrite Hid).
        simpl. rewrite Hid, lookup_delete_eq.
        rewrite bool_decide_eq_false_2 by (intros [? ?]; discriminate).
        destruct (gate _ _); lia.
      * rewrite (handleExecDie_unknown cfg w event m) by (by rewrite Hid).
        simpl. rewrite Hm. unfold dispatches; simpl. lia.
    + injection Hstep as <- <-. simpl. lia.
  - rewrite bool_decide_eq_false_2 by done.
    assert (createCount (factsFor id [line]) = 0) as ->.
    { simpl. destruct (factOf line); [| done].
      by rewrite bool_decide_eq_false_2. }
    destruct r as [m' | reason]; [| simpl; lia].
    simpl. by rewrite (handleLine_frame _ _ _ _ _ _ _ Hstep Hid).
Qed.

Lemma eventLoop_budget cfg lines m id :
  dispatchesFor id (snd (eventLoop cfg lines m))
  + holdsRecord (fst (eventLoop cfg lines m)) id
  <= createCount (factsFor id (map snd lines)) + holdsRecord (Returned m) id.
Proof.
  revert m. induction lines as [| [w line] rest IH]; intros m.
  { simpl. lia. }
  change (map snd ((w, line) :: rest)) with (line :: map snd rest).
  rewrite factsFor_cons, createCount_app.
  cbn [eventLoop].
  destruct (handleLine cfg w line m) as [r out] eqn:Hstep.
  pose proof (handleLine_budget _ _ _ _ _ _ id Hstep) as Hone.
  destruct r as [m1 | reason].
  - specialize (IH m1).
    destruct (eventLoop cfg rest m1) as [r j]. cbn [fst snd dispatchesFor] in *.
    lia.
  - cbn [fst snd dispatchesFor] in *. lia.
Qed.

(** X5: in every stream handled from an empty working set, whatever the
    order, the repetitions and the gaps of its facts, an execution gets at
    most as many notifications as it has create facts, one less while its
    record is still in the working set: a die fact repeated does not
    notify again, and a die fact without a create never notifies. *)
Theorem X5_at_most_one_notification_per_create cfg lines id :
  dispatchesFor id (snd (eventLoop cfg lines ∅))
  + holdsRecord (fst (eventLoop cfg lines ∅)) id
  <= createCount (factsFor id (map snd lines)).
Proof.
  pose proof (eventLoop_budget cfg lines ∅ id) as H.
  simpl in H. rewrite lookup_empty in H.
  rewrite bool_decide_eq_false_2 in H by (intros [? ?]; discriminate).
  lia.
Qed.

(** A die fact that arrives twice. *)
Example repeated_die_notifies_once :
  map (fun entry => dispatches (snd entry))
    (snd (eventLoop (Some getDefaultConfig)
            [(Sample.world Sample.t0, Sample.create "c1" Sample.e1);
             (Sample.world (Sample.later 1), Sample.start "c1" Sample.e1);
             (Sample.world (Sample.later 21), Sample.die "c1" Sample.e1 "0");
             (Sample.world (Sample.later 22), Sample.die "c1" Sample.e1 "0")] ∅))
  = [0; 0; 1; 0].
Proof. vm_compute. reflexivity. Qed.

End CorrelatorLifecycle.

(** ** Further properties of the notifier *)

Section BackendFacts.

Import Notifier.

(** X6: on Linux the native alert succeeds exactly when a display is
    announced by [DISPLAY] or [WAYLAND_DISPLAY] and one of [notify-send],
    [kdialog] and [zenity] is installed and runs without error; a tool that
    is installed but fails does not stop the next one from being tried. *)
Theorem X6_linux_alert_succeeds_iff_some_tool_works w title message icon :
  GOOS w = "linux" ->
  (sendNativeNotification w title message icon = None <->
   (getenv w "DISPLAY" <> "" \/ getenv w "WAYLAND_DISPLAY" <> "") /\
   exists tool,
     In tool ["notify-send"; "kdialog"; "zenity"] /\
     lookPath w tool = true /\
     runAlert w tool title message = None).
Proof.
  intros Hos. unfold sendNativeNotification. rewrite Hos. simpl.
  unfold sendLinuxNotification.
  destruct (String.eqb_spec (getenv w "DISPLAY") "") as [Hd | Hd];
    destruct (String.eqb_spec (getenv w "WAYLAND_DISPLAY") "") as [Hw | Hw];
    simpl.
  { split; [discriminate |]. intros [[? | ?] _]; congruence. }
  all: destruct (lookPath w "notify-send") eqn:L1;
    destruct (runAlert w "notify-send" title message) eqn:R1;
    destruct (lookPath w "kdialog") eqn:L2;
    destruct (runAlert w "kdialog" title message) eqn:R2;
    destruct (lookPath w "zenity") eqn:L3;
    destruct (runAlert w "zenity" title message) eqn:R3;
    simpl; split;
    try discriminate;
    try (intros _; split; [auto |]);
    try (by exists "notify-send"; simpl; auto);
    try (by exists "kdialog"; simpl; auto);
    try (by exists "zenity"; simpl; auto);
    try (intros [_ (tool & [<- | [<- | [<- | []]]] & Hl & Hr)]; congruence).
Qed.

(** A Wayland session where only [kdialog] works. *)
Lemma X6_linux_alert_witness :
  sendNativeNotification
    {| now := Sample.t0;
       inspectName := inspectName (Sample.world Sample.t0);
       GOOS := "linux";
       getenv := fun name => if String.eqb name "WAYLAND_DISPLAY" then "wayland-0" else "";
       lookPath := fun tool => negb (String.eqb tool "zenity");
       runAlert := fun tool _ _ =>
         if String.eqb tool "kdialog" then None else Some "exit status 1" |}
    "CmdBell"
    {| command := "make"; container := None; status := "completed"; after := 42 * Second |}
    "✅" = None <->
  ("" <> "" \/ "wayland-0" <> "") /\
  exists tool,
    In tool ["notify-send"; "kdialog"; "zenity"] /\
    negb (String.eqb tool "zenity") = true /\
    (if String.eqb tool "kdialog" then None else Some "exit status 1") = None.
Proof.
  exact (X6_linux_alert_succeeds_iff_some_tool_works
           {| now := Sample.t0;
              inspectName := inspectName (Sample.world Sample.t0);
              GOOS := "linux";
              getenv := fun name =>
                if String.eqb name "WAYLAND_DISPLAY" then "wayland-0" else "";
              lookPath := fun tool => negb (String.eqb tool "zenity");
              runAlert := fun tool _ _ =>
                if String.eqb tool "kdialog" then None else Some "exit status 1" |}
           "CmdBell"
           {| command := "make"; container := None; status := "completed";
              after := 42 * Second |}
           "✅" eq_refl).
Defined.

End BackendFacts.

Section StringFacts.

Lemma append_cons (x : ascii) (a b : string) :
  (String x a ++ b = String x (a ++ b))%string.
Proof. reflexivity. Qed.

Lemma append_nil (b : string) : ("" ++ b = b)%string.
Proof. reflexivity. Qed.

Lemma append_assoc (a b c : string) :
  ((a ++ b) ++ c = a ++ (b ++ c))%string.
Proof.
  induction a as [| x a IH]; [reflexivity |].
  rewrite !append_cons. by f_equal.
Qed.

Lemma length_append (a b : string) :
  String.length (a ++ b) = String.length a + String.length b.
Proof.
  induction a as [| x a IH]; [reflexivity |].
  rewrite append_cons. simpl. by f_equal.
Qed.

End StringFacts.

Section EscapeFacts.

Import Escapes.

Lemma ReplaceAll_app s t old new :
  ReplaceAll (s ++ t) old new = (ReplaceAll s old new ++ ReplaceAll t old new)%string.
Proof.
  induction s as [| c s IH]; [reflexivity |].
  rewrite append_cons. simpl. rewrite IH.
  destruct (Ascii.eqb c old); [| reflexivity].
  by rewrite append_assoc.
Qed.

(** What [escapeAppleScript] makes of one more byte in front. *)
Lemma escapeAppleScript_cons c s :
  escapeAppleScript (String c s) =
    (if Ascii.eqb c backslash then String backslash (String backslash (escapeAppleScript s))
     else if Ascii.eqb c quote then String backslash (String quote (escapeAppleScript s))
     else String c (escapeAppleScript s)).
Proof.
  unfold escapeAppleScript. simpl.
  destruct (Ascii.eqb_spec c backslash) as [-> | Hb]; simpl; [reflexivity |].
  destruct (Ascii.eqb c quote); reflexivity.
Qed.

Lemma readLiteral_escapeAppleScript u :
  readLiteral (escapeAppleScript u) = Some u.
Proof.
  induction u as [| c u IH]; [reflexivity |].
  rewrite escapeAppleScript_cons.
  destruct (Ascii.eqb_spec c backslash) as [-> | Hb].
  - cbn. by rewrite IH.
  - destruct (Ascii.eqb_spec c quote) as [-> | Hq].
    + cbn. by rewrite IH.
    + simpl. apply Ascii.eqb_neq in Hb, Hq. rewrite Hb, Hq, IH. reflexivity.
Qed.

(** X7: [escapeAppleScript] loses nothing and lets nothing out: read back
    as the inside of an AppleScript string literal, the escaped text is
    the original text, with no quote that would end the literal early.  In
    particular two different texts never escape to the same one. *)
Theorem X7_escapeAppleScript_reads_back s :
  readLiteral (escapeAppleScript s) = Some s /\
  (forall t, escapeAppleScript t = escapeAppleScript s -> t = s).
Proof.
  pose proof readLiteral_escapeAppleScript as Hread.
  split; [apply Hread |].
  intros t Heq.
  assert (Some t = Some s) as H by (by rewrite <- !Hread, Heq).
  by injection H.
Qed.

Lemma escapeWindowsString_cons c s :
  escapeWindowsString (String c s) =
    (if Ascii.eqb c quote then String backslash (String quote (escapeWindowsString s))
     else String c (escapeWindowsString s)).
Proof. unfold escapeWindowsString. simpl. by destruct (Ascii.eqb c quote). Qed.

Lemma escapeWindowsString_shorter u :
  String.length (escapeWindowsString u) <= String.length (escapeAppleScript u).
Proof.
  induction u as [| c u IH]; [reflexivity |].
  rewrite escapeAppleScript_cons, escapeWindowsString_cons.
  destruct (Ascii.eqb_spec c backslash) as [-> | Hb].
  - change (Ascii.eqb backslash quote) with false. cbn [String.length]. lia.
  - destruct (Ascii.eqb c quote); cbn [String.length]; lia.
Qed.

Lemma escapeWindowsString_agrees u :
  escapeWindowsString u = escapeAppleScript u <-> noBackslash u = true.
Proof.
  induction u as [| c u IH]; [by split |].
  rewrite escapeAppleScript_cons, escapeWindowsString_cons. cbn [noBackslash].
  destruct (Ascii.eqb_spec c backslash) as [-> | Hb].
  - change (Ascii.eqb backslash quote) with false. cbn [negb andb].
    split; [| discriminate]. intros Heq. exfalso.
    injection Heq as Heq.
    pose proof (escapeWindowsString_shorter u) as Hlen.
    rewrite Heq in Hlen. cbn [String.length] in Hlen. lia.
  - cbn [negb andb]. rewrite <- IH.
    destruct (Ascii.eqb c quote); split; intros H; congruence.
Qed.

(** X8: [escapeWindowsString] treats quotes as [escapeAppleScript] does
    and leaves backslashes single: the two agree exactly on the texts
    without a backslash, and on those the escaped text reads back as the
    original. *)
Theorem X8_escapeWindowsString_leaves_backslashes s :
  (escapeWindowsString s = escapeAppleScript s <-> noBackslash s = true) /\
  (noBackslash s = true -> readLiteral (escapeWindowsString s) = Some s).
Proof.
  split; [apply escapeWindowsString_agrees |].
  intros Hno. apply escapeWindowsString_agrees in Hno as ->.
  apply readLiteral_escapeAppleScript.
Qed.

Lemma X8_escapeWindowsString_witness :
  readLiteral (escapeWindowsString (String quote "make" ++ String quote " failed"))
  = Some (String quote "make" ++ String quote " failed")%string.
Proof.
  apply (proj2 (X8_escapeWindowsString_leaves_backslashes
                  (String quote "make" ++ String quote " failed"))).
  reflexivity.
Defined.

(** A backslash before a quote ends the literal early. *)
Example escapeWindowsString_backslash :
  readLiteral (escapeWindowsString (String backslash (String quote "x"))) = None /\
  readLiteral (escapeAppleScript (String backslash (String quote "x")))
    = Some (String backslash (String quote "x")).
Proof. split; reflexivity. Qed.

End EscapeFacts.

(** ** The [--notify] subcommand *)

(** X9: [cmdbell --notify <command> <seconds> <exit>] applies no
    threshold: whenever the seconds parse it sends exactly one
    notification, of a success exactly when the exit argument is the text
    [0], and ends with status 0; when they do not parse, or when an
    argument is missing, it sends none and ends with status 1. *)
Theorem X9_notify_subcommand_applies_no_threshold
    (ParseDuration : string -> Duration + string)
    self flag cmd durationStr exitCodeStr rest w short :
  (forall d,
     ParseDuration (durationStr ++ "s")%string = inl d ->
     Cli.written (fst (Cli.handleNotifyCommand ParseDuration
        (self :: flag :: cmd :: durationStr :: exitCodeStr :: rest) w))
       = Notifier.sendNotification w cmd d (String.eqb exitCodeStr "0") /\
     dispatches (Cli.written (fst (Cli.handleNotifyCommand ParseDuration
        (self :: flag :: cmd :: durationStr :: exitCodeStr :: rest) w))) = 1 /\
     Main.exitStatus (snd (Cli.handleNotifyCommand ParseDuration
        (self :: flag :: cmd :: durationStr :: exitCodeStr :: rest) w)) = 0%Z) /\
  (forall err,
     ParseDuration (durationStr ++ "s")%string = inr err ->
     Cli.written (fst (Cli.handleNotifyCommand ParseDuration
        (self :: flag :: cmd :: durationStr :: exitCodeStr :: rest) w)) = [] /\
     Main.exitStatus (snd (Cli.handleNotifyCommand ParseDuration
        (self :: flag :: cmd :: durationStr :: exitCodeStr :: rest) w)) = 1%Z) /\
  (length short < 5 ->
   Cli.handleNotifyCommand ParseDuration short w = ([Cli.NotifyUsage], Main.OsExit 1)).
Proof.
  assert (forall out, Cli.written (map Cli.Wrote out) = out) as Hw.
  { induction out as [| o out IH]; [reflexivity |]. simpl. by rewrite IH. }
  split; [| split].
  - intros d Hd. unfold Cli.handleNotifyCommand. rewrite Hd. simpl.
    rewrite Hw. split; [reflexivity |]. split; [| reflexivity].
    apply sendNotification_dispatches.
  - intros err Hd. unfold Cli.handleNotifyCommand. by rewrite Hd.
  - intros Hlen. unfold Cli.handleNotifyCommand.
    destruct short as [| a [| b [| c [| d [| e l]]]]]; simpl in *; try reflexivity.
    lia.
Qed.

(** The shell hook reporting a command of three seconds that failed. *)
Lemma X9_notify_subcommand_witness :
  Cli.written (fst (Cli.handleNotifyCommand HTTP.parseWholeSeconds
     ["cmdbell"; "--notify"; "make"; "3"; "2"] (Sample.world Sample.t0)))
    = Notifier.sendNotification (Sample.world Sample.t0) "make" (3 * Second)
        (String.eqb "2" "0") /\
  dispatches (Cli.written (fst (Cli.handleNotifyCommand HTTP.parseWholeSeconds
     ["cmdbell"; "--notify"; "make"; "3"; "2"] (Sample.world Sample.t0)))) = 1 /\
  Main.exitStatus (snd (Cli.handleNotifyCommand HTTP.parseWholeSeconds
     ["cmdbell"; "--notify"; "make"; "3"; "2"] (Sample.world Sample.t0))) = 0%Z.
Proof.
  apply (proj1 (X9_notify_subcommand_applies_no_threshold HTTP.parseWholeSeconds
                  "cmdbell" "--notify" "make" "3" "2" [] (Sample.world Sample.t0) [])
           (3 * Second)%Z).
  reflexivity.
Defined.

(** ** Loading the configuration *)

Section ConfigFacts.

Import ConfigFile.

Variable ParseDuration : string -> Duration + string.

(** X10: whatever the configuration file holds and whatever goes wrong
    while it is read, the configuration the daemon runs with has a
    threshold that agrees with its [min_duration] text; everything else
    of a file that loads is kept as the decoder gave it. *)
Theorem X10_threshold_agrees_with_min_duration h :
  ParseDuration "15s" = inl (15 * Second)%Z ->
  thresholdAgrees ParseDuration (NewDaemonConfig ParseDuration h) /\
  (forall c, LoadConfig ParseDuration h = inl c -> thresholdAgrees ParseDuration c) /\
  (forall path data decoded c,
     getConfigPath h = inl path ->
     statNotExist h path = false ->
     readFile h path = inl data ->
     yamlUnmarshal h data = inl decoded ->
     LoadConfig ParseDuration h = inl c ->
     MinDuration (general c) = MinDuration (general decoded) /\
     EnableNotify (general c) = EnableNotify (general decoded) /\
     docker c = docker decoded /\ http c = http decoded /\
     notification c = notification decoded).
Proof.
  intros Hdefault.
  assert (thresholdAgrees ParseDuration getDefaultConfig) as Hdef.
  { unfold thresholdAgrees. simpl. exact Hdefault. }
  assert (forall c, LoadConfig ParseDuration h = inl c -> thresholdAgrees ParseDuration c) as Hload.
  { intros c. unfold LoadConfig.
    destruct (getConfigPath h) as [path | err]; [| discriminate].
    destruct (statNotExist h path).
    - destruct (SaveConfig h getDefaultConfig); [discriminate |].
      by intros [= <-].
    - destruct (readFile h path) as [data | err]; [| discriminate].
      destruct (yamlUnmarshal h data) as [decoded | err]; [| discriminate].
      destruct (String.eqb (MinDuration (general decoded)) "") eqn:He; simpl.
      + intros [= <-]. unfold thresholdAgrees. simpl. by rewrite He.
      + destruct (ParseDuration (MinDuration (general decoded))) as [d | err] eqn:Hp;
          [| discriminate].
        intros [= <-]. unfold thresholdAgrees. simpl. by rewrite He. }
  split; [| split; [exact Hload |]].
  - unfold NewDaemonConfig.
    destruct (LoadConfig ParseDuration h) as [c | err] eqn:Hc; [by apply Hload | exact Hdef].
  - intros path data decoded c Hpath Hstat Hread Hyaml.
    unfold LoadConfig. rewrite Hpath, Hstat, Hread, Hyaml.
    destruct (negb _).
    + destruct (ParseDuration (MinDuration (general decoded))); [| discriminate].
      intros Hc. injection Hc as <-. by repeat split.
    + intros Hc. injection Hc as <-. by repeat split.
Qed.

(** X11: a [min_duration] that does not parse makes [LoadConfig] fail as a
    whole, and the daemon then runs with the complete default
    configuration: every other setting of the file, a disabled
    [enable_notify] included, is dropped with it. *)
Theorem X11_invalid_min_duration_discards_the_file h path data decoded err :
  getConfigPath h = inl path ->
  statNotExist h path = false ->
  readFile h path = inl data ->
  yamlUnmarshal h data = inl decoded ->
  MinDuration (general decoded) <> "" ->
  ParseDuration (MinDuration (general decoded)) = inr err ->
  LoadConfig ParseDuration h = inr ("invalid min_duration format: " ++ err)%string /\
  NewDaemonConfig ParseDuration h = getDefaultConfig.
Proof.
  intros Hpath Hstat Hread Hyaml Hne Hp.
  assert (LoadConfig ParseDuration h
          = inr ("invalid min_duration format: " ++ err)%string) as Hl.
  { unfold LoadConfig. rewrite Hpath, Hstat, Hread, Hyaml.
    apply String.eqb_neq in Hne. by rewrite Hne, Hp. }
  split; [exact Hl |]. unfold NewDaemonConfig. by rewrite Hl.
Qed.

End ConfigFacts.

(** A file with [min_duration: 30s]. *)
Lemma X10_threshold_witness :
  ConfigFile.thresholdAgrees HTTP.parseWholeSeconds
    (ConfigFile.NewDaemonConfig HTTP.parseWholeSeconds (Fixture.configHost "30s")) /\
  MinDurationTime
    (general (ConfigFile.NewDaemonConfig HTTP.parseWholeSeconds (Fixture.configHost "30s")))
    = (30 * Second)%Z.
Proof.
  split; [| reflexivity].
  apply (proj1 (X10_threshold_agrees_with_min_duration HTTP.parseWholeSeconds
                  (Fixture.configHost "30s") eq_refl)).
Defined.

(** A file with [min_duration: soon] and [enable_notify: false]. *)
Lemma X11_invalid_min_duration_witness :
  ConfigFile.LoadConfig HTTP.parseWholeSeconds (Fixture.configHost "soon")
    = inr ("invalid min_duration format: " ++ "time: invalid duration")%string /\
  ConfigFile.NewDaemonConfig HTTP.parseWholeSeconds (Fixture.configHost "soon")
    = getDefaultConfig.
Proof.
  apply (X11_invalid_min_duration_discards_the_file HTTP.parseWholeSeconds
           (Fixture.configHost "soon") "/home/dev/.cmdbell/config.yaml"
           "general: ..." (Fixture.decodedFile "soon") "time: invalid duration");
    try reflexivity.
  discriminate.
Defined.

(** ** The PID file and the start of the daemon *)

Section DaemonFacts.

Import Os Daemon.

Local Open Scope Z_scope.

Lemma digitChar_digit d :
  0 <= d < 10 ->
  isDigit (digitChar d) = true /\ digitValue (digitChar d) = d /\
  Ascii.eqb (digitChar d) "-" = false /\ Ascii.eqb (digitChar d) "+" = false.
Proof.
  intros Hd.
  assert (d = 0 \/ d = 1 \/ d = 2 \/ d = 3 \/ d = 4 \/
          d = 5 \/ d = 6 \/ d = 7 \/ d = 8 \/ d = 9) as Hcases by lia.
  repeat (destruct Hcases as [-> | Hcases]; [by vm_compute |]).
  subst d. by vm_compute.
Qed.

(** Parsing what [formatDigits] printed. *)
Lemma parseDigits_formatDigits fuel n acc a :
  0 <= n < 10 ^ Z.of_nat fuel ->
  exists k, 0 <= k /\
    parseDigits a (formatDigits fuel n acc) = parseDigits (a * 10 ^ k + n) acc.
Proof.
  revert n acc. induction fuel as [| fuel IH]; intros n acc Hn.
  { exists 0. split; [lia |]. simpl in *. f_equal; lia. }
  cbn [formatDigits].
  assert (0 <= n mod 10 < 10) as Hmod by (apply Z.mod_pos_bound; lia).
  destruct (digitChar_digit _ Hmod) as (Hdig & Hval & _ & _).
  destruct (n <? 10) eqn:Hlt.
  - apply Z.ltb_lt in Hlt. exists 1. split; [lia |].
    cbn [parseDigits]. rewrite Hdig, Hval.
    rewrite Z.mod_small by lia. f_equal; lia.
  - apply Z.ltb_ge in Hlt.
    destruct (IH (n / 10) (String (digitChar (n mod 10)) acc)) as (k & Hk & Heq).
    { split; [apply Z.div_pos; lia |].
      apply Z.div_lt_upper_bound; [lia |].
      rewrite Nat2Z.inj_succ, Z.pow_succ_r in Hn by lia. lia. }
    exists (k + 1). split; [lia |].
    rewrite Heq. cbn [parseDigits]. rewrite Hdig, Hval. f_equal.
    rewrite Z.pow_add_r by lia.
    pose proof (Z.div_mod n 10 ltac:(lia)) as Hdm. lia.
Qed.

(** What [formatDigits] prints starts with a digit. *)
Lemma formatDigits_head fuel n acc :
  exists d rest,
    0 <= d < 10 /\
    formatDigits (S fuel) n acc = String (digitChar d) rest.
Proof.
  assert (forall f m d0 r, 0 <= d0 < 10 ->
            exists d rest, 0 <= d < 10 /\
              formatDigits f m (String (digitChar d0) r) = String (digitChar d) rest) as Hgen.
  { induction f as [| f IHf]; intros m d0 r Hd0; [simpl; eauto |].
    cbn [formatDigits].
    assert (0 <= m mod 10 < 10) as Hmod by (apply Z.mod_pos_bound; lia).
    destruct (m <? 10); [eauto |]. by apply IHf. }
  cbn [formatDigits].
  assert (0 <= n mod 10 < 10) as Hmod by (apply Z.mod_pos_bound; lia).
  destruct (n <? 10); [eauto |]. by apply Hgen.
Qed.

Lemma fuel_suffices n :
  0 <= n -> n < 10 ^ Z.of_nat (S (Z.to_nat (Z.log2 n))).
Proof.
  intros Hn.
  rewrite Nat2Z.inj_succ, Z2Nat.id by apply Z.log2_nonneg.
  destruct (Z.eq_dec n 0) as [-> | Hne]; [by vm_compute |].
  pose proof (Z.log2_spec n ltac:(lia)) as [_ Hhi].
  assert (2 ^ Z.succ (Z.log2 n) <= 10 ^ Z.succ (Z.log2 n)).
  { apply Z.pow_le_mono_l. lia. }
  lia.
Qed.

(** [Atoi] reads back what [Itoa] printed. *)
Lemma Atoi_Itoa n :
  minInt <= n <= maxInt -> Atoi (Itoa n) = Some n.
Proof.
  intros Hrange. unfold Itoa.
  destruct (n <? 0) eqn:Hneg.
  - apply Z.ltb_lt in Hneg.
    destruct (formatDigits_head (Z.to_nat (Z.log2 (- n))) (- n) "") as (d & rest & Hd & Hhead).
    destruct (parseDigits_formatDigits (S (Z.to_nat (Z.log2 (- n)))) (- n) "" 0)
      as (k & _ & Hparse); [split; [lia | apply fuel_suffices; lia] |].
    unfold Atoi. change (Ascii.eqb "-" "-") with true. cbn [orb].
    rewrite Hparse. rewrite Hhead. cbn [parseDigits].
    replace (0 * 10 ^ k + - n) with (- n) by lia.
    replace (- - n) with n by lia.
    destruct Hrange as [Hlo Hhi].
    apply Z.leb_le in Hlo, Hhi. by rewrite Hlo, Hhi.
  - apply Z.ltb_ge in Hneg.
    destruct (formatDigits_head (Z.to_nat (Z.log2 n)) n "") as (d & rest & Hd & Hhead).
    destruct (parseDigits_formatDigits (S (Z.to_nat (Z.log2 n))) n "" 0)
      as (k & _ & Hparse); [split; [lia | apply fuel_suffices; lia] |].
    destruct (digitChar_digit d Hd) as (_ & _ & Hminus & Hplus).
    unfold Atoi. rewrite Hhead. rewrite Hminus, Hplus. cbn [orb].
    rewrite <- Hhead, Hparse. cbn [parseDigits].
    replace (0 * 10 ^ k + n) with n by lia.
    destruct Hrange as [Hlo Hhi].
    apply Z.leb_le in Hlo, Hhi. by rewrite Hlo, Hhi.
Qed.

(** X12: the PID file that [writePIDFile] writes is read back by [GetPID]
    as the process's own identifier. *)
Theorem X12_pid_file_round_trip h dsk d :
  denied dsk (pidFile d) = false ->
  minInt <= getpid h <= maxInt ->
  snd (writePIDFile h dsk d) = None /\
  GetPID (fst (writePIDFile h dsk d)) d = getpid h.
Proof.
  intros Hok Hrange.
  unfold writePIDFile, WriteFile. rewrite Hok. simpl.
  split; [reflexivity |].
  unfold GetPID, ReadFile. simpl. rewrite Hok, lookup_insert_eq.
  by rewrite Atoi_Itoa.
Qed.

Lemma X12_pid_file_witness :
  snd (writePIDFile Fixture.host (Fixture.disk ∅) Fixture.daemon) = None /\
  GetPID (fst (writePIDFile Fixture.host (Fixture.disk ∅) Fixture.daemon)) Fixture.daemon
    = getpid Fixture.host.
Proof.
  apply (X12_pid_file_round_trip Fixture.host (Fixture.disk ∅) Fixture.daemon).
  - reflexivity.
  - vm_compute. split; discriminate.
Defined.

(** A PID other than zero was read from a file that exists and that the
    process may touch. *)
Lemma GetPID_nonzero dsk d :
  GetPID dsk d <> 0 ->
  denied dsk (pidFile d) = false /\ is_Some (files dsk !! pidFile d).
Proof.
  unfold GetPID, ReadFile.
  destruct (denied dsk (pidFile d)); [done |].
  destruct (files dsk !! pidFile d); [eauto | done].
Qed.

Lemma GetPID_missing dsk d :
  files dsk !! pidFile d = None -> GetPID dsk d = 0.
Proof.
  intros H. unfold GetPID, ReadFile.
  destruct (denied dsk (pidFile d)); [done |]. by rewrite H.
Qed.

(** [cleanup] touches no file but the PID file; it removes the PID file
    when the directory lets it, and otherwise leaves the disk as it is and
    logs the failure. *)
Lemma cleanup_removes dsk d :
  denied (fst (cleanup dsk d)) = denied dsk /\
  (forall path, path <> pidFile d ->
     files (fst (cleanup dsk d)) !! path = files dsk !! path) /\
  (locked dsk (pidFile d) = false ->
   files (fst (cleanup dsk d)) !! pidFile d = None /\ snd (cleanup dsk d) = []) /\
  (locked dsk (pidFile d) = true ->
   is_Some (files dsk !! pidFile d) ->
   fst (cleanup dsk d) = dsk /\
   exists err, snd (cleanup dsk d) = [LogRemoveFailed err]).
Proof.
  unfold cleanup, Remove.
  destruct (files dsk !! pidFile d) eqn:Hf; simpl.
  - destruct (locked dsk (pidFile d)) eqn:Hl; simpl.
    + split; [done |]. split; [done |]. split; [done |]. eauto.
    + split; [done |]. split; [| split; [| done]].
      * intros path Hne. by rewrite lookup_delete_ne.
      * intros _. split; [apply lookup_delete_eq | done].
  - split; [done |]. split; [done |]. split; [done |]. by intros _ [? ?].
Qed.

(** [IsRunning] changes nothing when it answers yes. *)
Lemma IsRunning_unchanged h dsk d :
  fst (fst (IsRunning h dsk d)) = true -> snd (fst (IsRunning h dsk d)) = dsk.
Proof.
  unfold IsRunning.
  destruct (GetPID dsk d =? 0); [done |].
  destruct (findProcess h (GetPID dsk d)); simpl.
  - destruct (signalZero h (GetPID dsk d)); simpl; [done |].
    by destruct (cleanup dsk d).
  - by destruct (cleanup dsk d).
Qed.

(** X13: [IsRunning] answers yes exactly when the PID file holds the
    identifier, other than zero, of a process that can be found and
    signalled, and then it changes nothing.  When it answers no for a PID
    file that names a process that is gone, it tries to remove that file:
    where the directory allows it the file is gone, [GetPID] reads zero
    afterwards and nothing is logged; where [os.Remove] fails the disk is
    as it was, the stale identifier is still read, and the failure is
    logged.  No other file is ever touched. *)
Theorem X13_IsRunning_removes_a_stale_pid_file h dsk d :
  (fst (fst (IsRunning h dsk d)) = true <->
   GetPID dsk d <> 0 /\
   findProcess h (GetPID dsk d) = true /\
   signalZero h (GetPID dsk d) = true) /\
  (fst (fst (IsRunning h dsk d)) = true ->
   snd (fst (IsRunning h dsk d)) = dsk /\ snd (IsRunning h dsk d) = []) /\
  (fst (fst (IsRunning h dsk d)) = false ->
   GetPID dsk d <> 0 ->
   locked dsk (pidFile d) = false ->
   files (snd (fst (IsRunning h dsk d))) !! pidFile d = None /\
   GetPID (snd (fst (IsRunning h dsk d))) d = 0 /\
   snd (IsRunning h dsk d) = []) /\
  (fst (fst (IsRunning h dsk d)) = false ->
   GetPID dsk d <> 0 ->
   locked dsk (pidFile d) = true ->
   snd (fst (IsRunning h dsk d)) = dsk /\
   GetPID (snd (fst (IsRunning h dsk d))) d = GetPID dsk d /\
   exists err, snd (IsRunning h dsk d) = [LogRemoveFailed err]) /\
  (forall path, path <> pidFile d ->
     files (snd (fst (IsRunning h dsk d))) !! path = files dsk !! path).
Proof.
  pose proof (cleanup_removes dsk d) as (Hden & Hother & Hgone & Hstuck).
  unfold IsRunning.
  destruct (Z.eqb_spec (GetPID dsk d) 0) as [Hz | Hnz]; simpl.
  { repeat split; try done. intros (H & _). done. }
  destruct (GetPID_nonzero _ _ Hnz) as [Hd Hfile].
  assert (fst (fst (let '(dsk', out) := cleanup dsk d in (false, dsk', out))) = false)
    as Hno by (by destruct (cleanup dsk d)).
  assert (snd (fst (let '(dsk', out) := cleanup dsk d in (false, dsk', out)))
          = fst (cleanup dsk d)) as Hdisk by (by destruct (cleanup dsk d)).
  assert (snd (let '(dsk', out) := cleanup dsk d in (false, dsk', out))
          = snd (cleanup dsk d)) as Hout by (by destruct (cleanup dsk d)).
  destruct (findProcess h (GetPID dsk d)) eqn:Hf; simpl;
    [destruct (signalZero h (GetPID dsk d)) eqn:Hs; simpl |].
  - repeat split; try done.
  - rewrite Hno, Hdisk, Hout. repeat split; try done.
    + intros (_ & _ & H). done.
    + by apply Hgone.
    + apply GetPID_missing. by apply Hgone.
    + by apply Hgone.
    + by apply Hstuck.
    + destruct (Hstuck H1 Hfile) as [-> _]. done.
    + by apply Hstuck.
  - rewrite Hno, Hdisk, Hout. repeat split; try done.
    + intros (_ & H & _). done.
    + by apply Hgone.
    + apply GetPID_missing. by apply Hgone.
    + by apply Hgone.
    + by apply Hstuck.
    + destruct (Hstuck H1 Hfile) as [-> _]. done.
    + by apply Hstuck.
Qed.

(** The PID file of a daemon that has died, in a directory that lets the
    file be removed and in one that does not. *)
Lemma X13_stale_pid_file_witness :
  (files (snd (fst (IsRunning Fixture.host
      (Fixture.disk {[ "/home/dev/.cmdbell.pid" := "977" ]}) Fixture.daemon)))
     !! pidFile Fixture.daemon = None /\
   GetPID (snd (fst (IsRunning Fixture.host
      (Fixture.disk {[ "/home/dev/.cmdbell.pid" := "977" ]}) Fixture.daemon)))
     Fixture.daemon = 0 /\
   snd (IsRunning Fixture.host
      (Fixture.disk {[ "/home/dev/.cmdbell.pid" := "977" ]}) Fixture.daemon) = []) /\
  (snd (fst (IsRunning Fixture.host
      (Fixture.lockedDisk {[ "/home/dev/.cmdbell.pid" := "977" ]}) Fixture.daemon))
     = Fixture.lockedDisk {[ "/home/dev/.cmdbell.pid" := "977" ]} /\
   GetPID (snd (fst (IsRunning Fixture.host
      (Fixture.lockedDisk {[ "/home/dev/.cmdbell.pid" := "977" ]}) Fixture.daemon)))
     Fixture.daemon
     = GetPID (Fixture.lockedDisk {[ "/home/dev/.cmdbell.pid" := "977" ]}) Fixture.daemon /\
   exists err,
     snd (IsRunning Fixture.host
        (Fixture.lockedDisk {[ "/home/dev/.cmdbell.pid" := "977" ]}) Fixture.daemon)
     = [LogRemoveFailed err]).
Proof.
  split.
  - apply (proj1 (proj2 (proj2 (X13_IsRunning_removes_a_stale_pid_file Fixture.host
             (Fixture.disk {[ "/home/dev/.cmdbell.pid" := "977" ]}) Fixture.daemon)))).
    + reflexivity.
    + vm_compute. discriminate.
    + reflexivity.
  - apply (proj1 (proj2 (proj2 (proj2 (X13_IsRunning_removes_a_stale_pid_file Fixture.host
             (Fixture.lockedDisk {[ "/home/dev/.cmdbell.pid" := "977" ]}) Fixture.daemon))))).
    + reflexivity.
    + vm_compute. discriminate.
    + reflexivity.
Defined.

Lemma IsRunning_denied h dsk d :
  denied (snd (fst (IsRunning h dsk d))) = denied dsk.
Proof.
  pose proof (cleanup_removes dsk d) as (Hden & _).
  unfold IsRunning.
  destruct (GetPID dsk d =? 0); [done |].
  destruct (findProcess h (GetPID dsk d)); simpl.
  - destruct (signalZero h (GetPID dsk d)); simpl; [done |].
    by destruct (cleanup dsk d).
  - by destruct (cleanup dsk d).
Qed.

(** X14: the daemon starts exactly when no live daemon holds the PID file,
    the PID file can be written and the log file can be opened.  Neither
    Docker nor the HTTP server can make [Start] fail: without Docker the
    daemon runs with the HTTP server only.  A daemon that has started is
    marked as running and has left its own identifier in the PID file;
    one that finds a live daemon changes nothing. *)
Theorem X14_daemon_starts_without_docker h dsk d :
  (snd (Start h dsk d) = None <->
   fst (fst (IsRunning h dsk d)) = false /\
   denied dsk (pidFile d) = false /\
   openLog h = None) /\
  (snd (Start h dsk d) = None ->
   isRunning (fst (fst (fst (Start h dsk d)))) = true /\
   files (snd (fst (fst (Start h dsk d)))) !! pidFile d = Some (Itoa (getpid h)) /\
   httpServer (fst (fst (fst (Start h dsk d)))) =
     (if Enabled (http (config d)) then Some (Port (http (config d)))
      else httpServer d) /\
   monitor (fst (fst (fst (Start h dsk d)))) =
     (if Monitor (docker (config d)) then
        match newDockerMonitor h, monitorStart h with
        | None, None => true
        | None, Some _ => false
        | Some _, _ => monitor d
        end
      else monitor d)) /\
  (fst (fst (IsRunning h dsk d)) = true ->
   fst (fst (Start h dsk d)) = (d, dsk) /\ snd (Start h dsk d) <> None).
Proof.
  pose proof (IsRunning_denied h dsk d) as Hden.
  pose proof (IsRunning_unchanged h dsk d) as Hsame.
  unfold Start.
  destruct (IsRunning h dsk d) as [[running dsk1] out1] eqn:Hrun.
  cbn [fst snd] in *.
  destruct running.
  { cbn [fst snd]. rewrite (Hsame eq_refl).
    split; [split; [discriminate | by intros (? & _)] |].
    split; [discriminate |]. done. }
  unfold writePIDFile, WriteFile. rewrite Hden.
  destruct (denied dsk (pidFile d)) eqn:Hd; cbn [fst snd].
  { split; [split; [discriminate | by intros (_ & ? & _)] |].
    split; [discriminate |]. discriminate. }
  destruct (openLog h) as [err |] eqn:Hlog; cbn [fst snd].
  { split; [split; [discriminate | by intros (_ & _ & ?)] |].
    split; [discriminate |]. discriminate. }
  destruct (Enabled (http (config d))); cbn [httpServerStart fst snd];
    destruct (Monitor (docker (config d)));
    destruct (newDockerMonitor h); destruct (monitorStart h);
    cbn [fst snd isRunning httpServer monitor files];
    rewrite ?lookup_insert_eq;
    (split; [split; [done | done] |]);
    (split; [done | discriminate]).
Qed.

(** A first start on a machine without Docker. *)
Lemma X14_daemon_start_witness :
  isRunning (fst (fst (fst (Start Fixture.host (Fixture.disk ∅) Fixture.daemon)))) = true /\
  files (snd (fst (fst (Start Fixture.host (Fixture.disk ∅) Fixture.daemon))))
    !! pidFile Fixture.daemon = Some (Itoa (getpid Fixture.host)) /\
  httpServer (fst (fst (fst (Start Fixture.host (Fixture.disk ∅) Fixture.daemon)))) =
    (if Enabled (http (config Fixture.daemon))
     then Some (Port (http (config Fixture.daemon)))
     else httpServer Fixture.daemon) /\
  monitor (fst (fst (fst (Start Fixture.host (Fixture.disk ∅) Fixture.daemon)))) =
    (if Monitor (docker (config Fixture.daemon)) then
       match newDockerMonitor Fixture.host, monitorStart Fixture.host with
       | None, None => true
       | None, Some _ => false
       | Some _, _ => monitor Fixture.daemon
       end
     else monitor Fixture.daemon).
Proof.
  apply (proj1 (proj2 (X14_daemon_starts_without_docker Fixture.host
                          (Fixture.disk ∅) Fixture.daemon))).
  reflexivity.
Defined.

(** That start as the model runs it. *)
Example daemon_start_run :
  snd (fst (Start Fixture.host (Fixture.disk ∅) Fixture.daemon)) =
    [LogHTTPStarting 59721;
     LogDockerUnavailable "docker is not available: exec: not found";
     LogStarted] /\
  files (snd (fst (fst (Start Fixture.host (Fixture.disk ∅) Fixture.daemon))))
    !! "/home/dev/.cmdbell.pid" = Some "4242" /\
  Atoi "4242" = Some 4242 /\ Atoi "+7" = Some 7 /\ Atoi "-0" = Some 0 /\
  Atoi "" = None /\ Atoi "4242 " = None /\ Atoi "9223372036854775808" = None /\
  Itoa (-9223372036854775808) = "-9223372036854775808".
Proof. vm_compute. repeat split; reflexivity. Qed.

End DaemonFacts.

(** ** The hook section of a shell profile *)

Section SearchFacts.

Implicit Types (s t m a r : string).

Lemma prefix_nil m : String.prefix "" m = true.
Proof. by destruct m. Qed.

Lemma prefix_cons_same c m s :
  String.prefix (String c m) (String c s) = String.prefix m s.
Proof. simpl. by destruct (ascii_dec c c). Qed.

Lemma prefix_cons_other c b m s :
  c <> b -> String.prefix (String c m) (String b s) = false.
Proof. intros H. simpl. by destruct (ascii_dec c b). Qed.

Lemma prefix_cons_inv c b m s :
  String.prefix (String c m) (String b s) = true -> c = b /\ String.prefix m s = true.
Proof. simpl. by destruct (ascii_dec c b). Qed.

Lemma prefix_append m r : String.prefix m (m ++ r) = true.
Proof.
  induction m as [| c m IH]; [apply prefix_nil |].
  rewrite append_cons, prefix_cons_same. exact IH.
Qed.

Lemma prefix_length m s :
  String.prefix m s = true -> String.length m <= String.length s.
Proof.
  revert s. induction m as [| c m IH]; intros s H; [simpl; lia |].
  destruct s as [| b s]; [discriminate |].
  apply prefix_cons_inv in H as [_ H]. specialize (IH _ H). simpl. lia.
Qed.

(** Whether [m] is at the front of [s ++ t] is decided within [s] when [m]
    is no longer than [s]. *)
Lemma prefix_append_short m s t :
  String.length m <= String.length s ->
  String.prefix m (s ++ t) = String.prefix m s.
Proof.
  revert s. induction m as [| c m IH]; intros s Hlen.
  { by rewrite !prefix_nil. }
  destruct s as [| b s]; [simpl in Hlen; lia |].
  rewrite append_cons.
  destruct (ascii_dec c b) as [-> | Hne].
  - rewrite !prefix_cons_same. apply IH. simpl in Hlen. lia.
  - by rewrite !prefix_cons_other.
Qed.

Lemma Index_cons b s m :
  Index (String b s) m =
    if String.prefix m (String b s) then Some 0
    else option_map S (Index s m).
Proof.
  unfold Index. simpl.
  destruct (String.prefix m (String b s)) eqn:Hp; simpl in Hp; rewrite Hp;
    [reflexivity |].
  by destruct (String.index 0 m s).
Qed.

Lemma Index_bound s m i :
  Index s m = Some i -> i + String.length m <= String.length s.
Proof.
  revert i. induction s as [| b s IH]; intros i H.
  { unfold Index in H. simpl in H. destruct m; [| discriminate].
    injection H as <-. simpl. lia. }
  rewrite Index_cons in H.
  destruct (String.prefix m (String b s)) eqn:Hp.
  - injection H as <-. apply prefix_length in Hp. lia.
  - destruct (Index s m) as [j |] eqn:Hj; [| discriminate].
    injection H as <-. specialize (IH _ eq_refl). simpl. lia.
Qed.

(** The first occurrence stays the first when text is added at the end. *)
Lemma Index_append_found s t m i :
  Index s m = Some i -> Index (s ++ t) m = Some i.
Proof.
  revert i. induction s as [| b s IH]; intros i H.
  { unfold Index in H. simpl in H. destruct m; [| discriminate].
    injection H as <-. rewrite append_nil. unfold Index. by destruct t. }
  rewrite append_cons, Index_cons.
  rewrite Index_cons in H.
  destruct (String.prefix m (String b s)) eqn:Hp.
  - injection H as <-.
    rewrite <- append_cons, prefix_append_short, Hp; [reflexivity |].
    by apply prefix_length.
  - destruct (Index s m) as [j |] eqn:Hj; [| discriminate].
    injection H as <-.
    pose proof (Index_bound _ _ _ Hj) as Hb.
    rewrite <- append_cons, prefix_append_short, Hp by (simpl; lia).
    by rewrite (IH _ eq_refl).
Qed.

Lemma Index_missing_prefix s m :
  Index s m = None -> String.prefix m s = false.
Proof.
  destruct s as [| b s].
  - unfold Index. simpl. by destruct m.
  - rewrite Index_cons. by destruct (String.prefix m (String b s)).
Qed.

(** A text without line break that is at the front of [a], a line break
    and more, is at the front of [a]. *)
Lemma prefix_before_newline m a r :
  Shell.inCutset (ascii_of_nat 10) m = false ->
  String.prefix m (a ++ Shell.newline ++ r) = true ->
  String.prefix m a = true.
Proof.
  revert a. induction m as [| c m IH]; intros a Hfree Hp; [apply prefix_nil |].
  change (Ascii.eqb (ascii_of_nat 10) c || Shell.inCutset (ascii_of_nat 10) m = false)
    in Hfree.
  apply orb_false_iff in Hfree as [Hc Hm].
  destruct a as [| b a].
  - rewrite append_nil in Hp. unfold Shell.newline in Hp. rewrite append_cons in Hp.
    apply prefix_cons_inv in Hp as [Heq _].
    apply Ascii.eqb_neq in Hc. destruct (Hc (eq_sym Heq)).
  - rewrite append_cons in Hp. apply prefix_cons_inv in Hp as [-> Hp].
    rewrite prefix_cons_same. by apply IH.
Qed.

(** A text without line break that does not occur in [a] occurs in [a], a
    line break and [r] where it occurs in [r]. *)
Lemma Index_after_newline m a r :
  Shell.inCutset (ascii_of_nat 10) m = false ->
  Index a m = None ->
  Index (a ++ Shell.newline ++ r) m
    = option_map (fun i => String.length a + 1 + i) (Index r m).
Proof.
  intros Hfree. induction a as [| b a IH]; intros Hnone.
  - rewrite append_nil. unfold Shell.newline. rewrite append_cons, append_nil.
    rewrite Index_cons.
    destruct (String.prefix m (String (ascii_of_nat 10) r)) eqn:Hp.
    + exfalso. apply Index_missing_prefix in Hnone.
      assert (String.prefix m "" = true); [| congruence].
      apply (prefix_before_newline m "" r Hfree).
      by rewrite append_nil.
    + by destruct (Index r m).
  - rewrite append_cons, Index_cons.
    rewrite Index_cons in Hnone.
    destruct (String.prefix m (String b a)) eqn:Hp; [discriminate |].
    destruct (Index a m) eqn:Ha; [discriminate |].
    destruct (String.prefix m (String b (a ++ Shell.newline ++ r))) eqn:Hq.
    + exfalso. rewrite <- append_cons in Hq.
      apply (prefix_before_newline m _ r Hfree) in Hq. congruence.
    + rewrite (IH eq_refl). by destruct (Index r m).
Qed.

Lemma sliceFrom_append a b :
  sliceFrom (String.length a) (a ++ b) = b.
Proof. induction a as [| c a IH]; [by destruct b | exact IH]. Qed.

Lemma substring_append a b :
  String.substring 0 (String.length a) (a ++ b) = a.
Proof.
  induction a as [| c a IH]; [by destruct b |].
  rewrite append_cons. simpl. by rewrite IH.
Qed.

Lemma TrimRight_append_cut s c cutset :
  Shell.inCutset c cutset = true ->
  Shell.TrimRight (s ++ String c "") cutset = Shell.TrimRight s cutset.
Proof.
  intros Hc. induction s as [| b s IH].
  - rewrite append_nil. simpl. by rewrite Hc.
  - rewrite append_cons. simpl. by rewrite IH.
Qed.

End SearchFacts.

Section ShellFacts.

Import Os Shell.

Lemma Index_at_front s m :
  String.prefix m s = true -> Index s m = Some 0.
Proof.
  intros Hp. destruct s as [| b s].
  - destruct m; [reflexivity | discriminate].
  - by rewrite Index_cons, Hp.
Qed.

Lemma Index_empty_marker c :
  Index c "" = Some 0.
Proof. apply Index_at_front. apply prefix_nil. Qed.

(** Removing the section that was appended to a text without section. *)
Lemma removeExistingHook_appended c body sm em :
  inCutset (ascii_of_nat 10) sm = false ->
  Index c sm = None ->
  Index (sm ++ body ++ em) em = Some (String.length sm + String.length body) ->
  removeExistingHook
    (c ++ newline ++ (newline ++ sm ++ body ++ em ++ newline) ++ newline) sm em
  = TrimRight c newline.
Proof.
  intros Hfree Hnone Hend.
  assert (Index "" sm = None) as Hnil.
  { destruct sm; [by rewrite Index_empty_marker in Hnone | reflexivity]. }
  set (R := (sm ++ body ++ em ++ newline ++ newline)%string).
  set (P := (c ++ newline ++ newline)%string).
  assert ((c ++ newline ++ (newline ++ sm ++ body ++ em ++ newline) ++ newline
           = c ++ newline ++ ("" ++ newline ++ R))%string) as Hshape.
  { unfold R. by rewrite append_nil, !append_assoc. }
  assert (String.length P = String.length c + 2) as Hlen.
  { unfold P. rewrite !length_append. simpl. lia. }
  assert (Index (c ++ newline ++ ("" ++ newline ++ R)) sm
          = Some (String.length P)) as Hstart.
  { rewrite (Index_after_newline sm c _ Hfree Hnone).
    rewrite (Index_after_newline sm "" R Hfree Hnil).
    unfold R. rewrite (Index_at_front _ sm (prefix_append sm _)). simpl.
    f_equal. lia. }
  assert ((c ++ newline ++ ("" ++ newline ++ R) = P ++ R)%string) as Hsplit.
  { unfold P. by rewrite append_nil, !append_assoc. }
  assert (Index R em = Some (String.length sm + String.length body)) as Hstop.
  { unfold R.
    replace (sm ++ body ++ em ++ newline ++ newline)%string
      with ((sm ++ body ++ em) ++ newline ++ newline)%string
      by (by rewrite !append_assoc).
    by apply Index_append_found. }
  assert ((P ++ R = (P ++ sm ++ body ++ em) ++ newline ++ newline)%string) as Htail.
  { unfold R. by rewrite !append_assoc. }
  assert (TrimRight P newline = TrimRight c newline) as Htrim.
  { unfold P.
    replace (c ++ newline ++ newline)%string
      with ((c ++ String (ascii_of_nat 10) "") ++ String (ascii_of_nat 10) "")%string
      by (by rewrite !append_assoc).
    by rewrite !TrimRight_append_cut. }
  unfold removeExistingHook.
  rewrite Hshape, Hstart, Hsplit.
  rewrite sliceFrom_append, Hstop, substring_append, Htrim.
  replace (String.length sm + String.length body + String.length P + String.length em)
    with (String.length (P ++ sm ++ body ++ em))
    by (rewrite !length_append; lia).
  rewrite Htail, sliceFrom_append.
  change (TrimLeft (newline ++ newline) newline) with "".
  destruct (String.eqb_spec (TrimRight c newline) "") as [-> | Hne]; reflexivity.
Qed.

Lemma startMarker_one_line : inCutset (ascii_of_nat 10) startMarker = false.
Proof. reflexivity. Qed.

(** What [addToShellConfig] writes into a profile that has no section. *)
Lemma addToShellConfig_fresh dsk path hook :
  denied dsk path = false ->
  Index (default "" (files dsk !! path)) startMarker = None ->
  addToShellConfig dsk path hook =
    ({| files := <[path := (default "" (files dsk !! path) ++ newline ++ hook ++ newline)%string]>
                   (files dsk);
        denied := denied dsk;
        locked := locked dsk |}, None).
Proof.
  intros Hok Hnone. unfold addToShellConfig, ReadFile, WriteFile. rewrite Hok.
  assert (removeExistingHook (default "" (files dsk !! path)) startMarker endMarker
          = default "" (files dsk !! path)) as Hclean.
  { unfold removeExistingHook. by rewrite Hnone. }
  destruct (files dsk !! path) as [c |]; simpl in *.
  - by rewrite Hclean.
  - reflexivity.
Qed.

(** X15: installing the hook into a profile that has no hook section and
    uninstalling it again gives the profile back, less the line breaks it
    ended with; both steps succeed and touch no other file.  A profile
    that did not exist is left as an empty file. *)
Theorem X15_uninstall_undoes_install dsk path body :
  denied dsk path = false ->
  Index (default "" (files dsk !! path)) startMarker = None ->
  Index (startMarker ++ body ++ endMarker) endMarker
    = Some (String.length startMarker + String.length body) ->
  snd (addToShellConfig dsk path (hookOf body)) = None /\
  files (fst (addToShellConfig dsk path (hookOf body))) !! path
    = Some (default "" (files dsk !! path) ++ newline ++ hookOf body ++ newline)%string /\
  snd (removeFromShellConfig (fst (addToShellConfig dsk path (hookOf body))) path) = None /\
  files (fst (removeFromShellConfig (fst (addToShellConfig dsk path (hookOf body))) path))
    !! path = Some (TrimRight (default "" (files dsk !! path)) newline) /\
  (forall other, other <> path ->
     files (fst (removeFromShellConfig (fst (addToShellConfig dsk path (hookOf body))) path))
       !! other = files dsk !! other).
Proof.
  intros Hok Hnone Hshape.
  rewrite (addToShellConfig_fresh _ _ _ Hok Hnone). cbn [fst snd files].
  split; [reflexivity |]. split; [apply lookup_insert_eq |].
  unfold removeFromShellConfig, ReadFile, WriteFile. cbn [files denied].
  rewrite Hok, lookup_insert_eq. cbn [fst snd files].
  unfold hookOf.
  rewrite (removeExistingHook_appended _ body startMarker endMarker
             startMarker_one_line Hnone Hshape).
  split; [reflexivity |]. split; [apply lookup_insert_eq |].
  intros other Hne. by rewrite !lookup_insert_ne.
Qed.

Lemma X15_uninstall_undoes_install_witness :
  snd (addToShellConfig (Fixture.disk {[ "/home/dev/.bashrc" := Fixture.profile ]})
         "/home/dev/.bashrc" (hookOf Fixture.hookBody)) = None /\
  files (fst (addToShellConfig (Fixture.disk {[ "/home/dev/.bashrc" := Fixture.profile ]})
         "/home/dev/.bashrc" (hookOf Fixture.hookBody))) !! "/home/dev/.bashrc"
    = Some (default "" (files (Fixture.disk {[ "/home/dev/.bashrc" := Fixture.profile ]})
                          !! "/home/dev/.bashrc")
            ++ newline ++ hookOf Fixture.hookBody ++ newline)%string /\
  snd (removeFromShellConfig
         (fst (addToShellConfig (Fixture.disk {[ "/home/dev/.bashrc" := Fixture.profile ]})
                 "/home/dev/.bashrc" (hookOf Fixture.hookBody)))
         "/home/dev/.bashrc") = None /\
  files (fst (removeFromShellConfig
         (fst (addToShellConfig (Fixture.disk {[ "/home/dev/.bashrc" := Fixture.profile ]})
                 "/home/dev/.bashrc" (hookOf Fixture.hookBody)))
         "/home/dev/.bashrc")) !! "/home/dev/.bashrc"
    = Some (TrimRight (default "" (files (Fixture.disk {[ "/home/dev/.bashrc" := Fixture.profile ]})
                                     !! "/home/dev/.bashrc")) newline) /\
  (forall other, other <> "/home/dev/.bashrc" ->
     files (fst (removeFromShellConfig
         (fst (addToShellConfig (Fixture.disk {[ "/home/dev/.bashrc" := Fixture.profile ]})
                 "/home/dev/.bashrc" (hookOf Fixture.hookBody)))
         "/home/dev/.bashrc")) !! other
     = files (Fixture.disk {[ "/home/dev/.bashrc" := Fixture.profile ]}) !! other).
Proof.
  apply (X15_uninstall_undoes_install
           (Fixture.disk {[ "/home/dev/.bashrc" := Fixture.profile ]})
           "/home/dev/.bashrc" Fixture.hookBody).
  - reflexivity.
  - vm_compute. reflexivity.
  - vm_compute. reflexivity.
Defined.

(** X16: installing once more replaces the hook section instead of adding
    a second one: after two installs the profile is the original text,
    less the line breaks it ended with, followed by the hook of the second
    install alone. *)
Theorem X16_reinstall_replaces_the_hook dsk path body body' :
  denied dsk path = false ->
  Index (default "" (files dsk !! path)) startMarker = None ->
  Index (startMarker ++ body ++ endMarker) endMarker
    = Some (String.length startMarker + String.length body) ->
  snd (addToShellConfig (fst (addToShellConfig dsk path (hookOf body))) path (hookOf body'))
    = None /\
  files (fst (addToShellConfig (fst (addToShellConfig dsk path (hookOf body)))
                path (hookOf body'))) !! path
    = Some (TrimRight (default "" (files dsk !! path)) newline
            ++ newline ++ hookOf body' ++ newline)%string.
Proof.
  intros Hok Hnone Hshape.
  rewrite (addToShellConfig_fresh _ _ _ Hok Hnone). cbn [fst snd].
  unfold addToShellConfig, ReadFile, WriteFile. cbn [files denied].
  rewrite Hok, lookup_insert_eq. cbn [fst snd files].
  unfold hookOf at 1.
  rewrite (removeExistingHook_appended _ body startMarker endMarker
             startMarker_one_line Hnone Hshape).
  split; [reflexivity |]. apply lookup_insert_eq.
Qed.

Lemma X16_reinstall_witness :
  snd (addToShellConfig
         (fst (addToShellConfig (Fixture.disk {[ "/home/dev/.bashrc" := Fixture.profile ]})
                 "/home/dev/.bashrc" (hookOf Fixture.hookBody)))
         "/home/dev/.bashrc" (hookOf Fixture.hookBody)) = None /\
  files (fst (addToShellConfig
         (fst (addToShellConfig (Fixture.disk {[ "/home/dev/.bashrc" := Fixture.profile ]})
                 "/home/dev/.bashrc" (hookOf Fixture.hookBody)))
         "/home/dev/.bashrc" (hookOf Fixture.hookBody))) !! "/home/dev/.bashrc"
    = Some (TrimRight (default "" (files (Fixture.disk {[ "/home/dev/.bashrc" := Fixture.profile ]})
                                     !! "/home/dev/.bashrc")) newline
            ++ newline ++ hookOf Fixture.hookBody ++ newline)%string.
Proof.
  apply (X16_reinstall_replaces_the_hook
           (Fixture.disk {[ "/home/dev/.bashrc" := Fixture.profile ]})
           "/home/dev/.bashrc" Fixture.hookBody Fixture.hookBody).
  - reflexivity.
  - vm_compute. reflexivity.
  - vm_compute. reflexivity.
Defined.

End ShellFacts.
